(** * E-Cart backend: cart engine, checkout and order lifecycle

    A shallow embedding of [models/Cart.js], [models/Order.js],
    [models/Product.js], [controllers/orderController.js],
    [controllers/cartController.js], [middleware/auth.js] and
    [routes/orderRoutes.js].

    Modelling conventions.
    - A JavaScript number is an exact rational ([Q]); IEEE-754 rounding is
      outside the model.  Quantities and stock counts are integers ([Z]).
    - A MongoDB collection is the list of its documents; [_id] is the key.
    - [async] code is sequential here: every [await] is a bind of the
      monad [M], which threads the database and stops at the first error.
    - [next(new ErrorResponse(..))] is the result [Fail]; a thrown JavaScript
      exception ([Error], [TypeError]) is the result [Throw].
    - [save()] validates the document against its schema ([required],
      [min], [enum]) before the [pre('save')] hooks run, as Mongoose
      does; the unique indexes are outside the model, and every id is a
      well-formed [ObjectId]. *)

From Stdlib Require Import List String Ascii ZArith QArith Qabs Qround Bool Lia.
From Stdlib Require Import DecimalString.
From Stdlib Require Import Qminmax Sorted Permutation DecimalN Lqa.
Import ListNotations.

Local Open Scope string_scope.
Local Open Scope list_scope.

(** ** The JavaScript layer *)

Module JS.

(** [Date.now()]: milliseconds since the epoch. *)
Definition Date := Z.

(** The values a JSON request field can hold in this program. *)
Inductive value : Type :=
| Undefined
| Num (q : Q)
| Str (s : string).

(** [a === b]: values of different types are never strictly equal. *)
Definition strict_eq (a b : value) : bool :=
  match a, b with
  | Undefined, Undefined => true
  | Num x, Num y => Qeq_bool x y
  | Str x, Str y => String.eqb x y
  | _, _ => false
  end.

(** [a !== b] *)
Definition strict_neq (a b : value) : bool := negb (strict_eq a b).

(** [x || d] for an optional number: [undefined] and [0] are falsy. *)
Definition or_num (x : option Q) (d : Q) : Q :=
  match x with
  | Some v => if Qeq_bool v 0 then d else v
  | None => d
  end.

(** [!s] for an optional string: [undefined] and [''] are falsy. *)
Definition falsy_str (s : option string) : bool :=
  match s with
  | None => true
  | Some s => String.eqb s ""
  end.

(** [s || d] for an optional string. *)
Definition or_str (s : option string) (d : string) : string :=
  match s with
  | None => d
  | Some v => if String.eqb v "" then d else v
  end.

(** [n.toString()] for a non-negative integer. *)
Definition toString (n : N) : string :=
  NilZero.string_of_uint (N.to_uint n).

Fixpoint repeat_char (c : ascii) (n : nat) : string :=
  match n with
  | O => ""
  | S k => String c (repeat_char c k)
  end.

(** [s.padStart(n, c)] *)
Definition padStart (n : nat) (c : ascii) (s : string) : string :=
  repeat_char c (n - String.length s) ++ s.

(** [x < 0] *)
Definition is_negative (x : Q) : bool := negb (Qle_bool 0 x).

(** The integer [n] of [Number.prototype.toFixed(2)]: [n / 100] is as
    close as possible to [|x|], the larger [n] on a tie. *)
Definition toFixed2_digits (x : Q) : Z :=
  Qfloor (Qabs x * 100 + (1 # 2)).

(** [x.toFixed(2)], for [|x| < 10^21]: a string, with a sign when
    [x < 0]. *)
Definition toFixed2 (x : Q) : string :=
  let n := toFixed2_digits x in
  (if is_negative x then "-" else "")
    ++ toString (Z.to_N (n / 100)) ++ "."
    ++ padStart 2 "0" (toString (Z.to_N (n mod 100))).

(** [Number(x.toFixed(2))]: the number that string denotes. *)
Definition Number_toFixed2 (x : Q) : Q :=
  let n := toFixed2_digits x in
  if is_negative x then (- n # 100) else (n # 100).

(** [Array.prototype.findIndex], [None] standing for [-1]. *)
Fixpoint findIndex {A : Type} (p : A -> bool) (l : list A) : option nat :=
  match l with
  | [] => None
  | x :: r => if p x then Some O else option_map S (findIndex p r)
  end.

(** [l[i] = f(l[i])] for an index inside the array. *)
Fixpoint update_at {A : Type} (i : nat) (f : A -> A) (l : list A) : list A :=
  match l, i with
  | [], _ => []
  | x :: r, O => f x :: r
  | x :: r, S k => x :: update_at k f r
  end.

End JS.

Bind Scope Z_scope with JS.Date.

(** ** Documents *)

Definition ObjectId := string.

Module Image.
Record t := mk { url : string; alt : option string }.
End Image.

Module Product.
Record t := mk {
  _id : ObjectId;
  name : string;
  price : Q;
  images : list Image.t;
  stock : Z
}.

Definition with_stock (s : Z) (p : t) : t :=
  mk (_id p) (name p) (price p) (images p) s.
End Product.

Module CartItem.
Record t := mk {
  product : ObjectId;
  name : string;
  price : Q;
  image : string;
  quantity : Z
}.

Definition with_quantity (q : Z) (i : t) : t :=
  mk (product i) (name i) (price i) (image i) q.
End CartItem.

Module Cart.
Record t := mk {
  _id : ObjectId;
  user : ObjectId;
  items : list CartItem.t;
  createdAt : JS.Date;
  updatedAt : JS.Date
}.

Definition with_items (l : list CartItem.t) (c : t) : t :=
  mk (_id c) (user c) l (createdAt c) (updatedAt c).

Definition with_updatedAt (d : JS.Date) (c : t) : t :=
  mk (_id c) (user c) (items c) (createdAt c) d.

(** [cartSchema.virtual('totalPrice')] *)
Definition totalPrice (this : t) : Q :=
  fold_left
    (fun total item =>
       (total + CartItem.price item * inject_Z (CartItem.quantity item))%Q)
    (items this) 0%Q.

(** [cartSchema.virtual('totalItems')] *)
Definition totalItems (this : t) : Z :=
  fold_left (fun total item => (total + CartItem.quantity item)%Z)
    (items this) 0%Z.
End Cart.

Module OrderItem.
Record t := mk {
  product : ObjectId;
  name : string;
  quantity : Z;
  image : string;
  price : Q
}.
End OrderItem.

Module ShippingInfo.
Record t := mk {
  address : string;
  city : string;
  state : string;
  country : string;
  postalCode : string;
  phone : string
}.
End ShippingInfo.

Module PaymentInfo.
Record t := mk {
  id : string;
  status : string;
  update_time : string;
  email_address : string
}.
End PaymentInfo.

Module TrackingUpdate.
Record t := mk {
  date : JS.Date;
  status : string;
  location : string;
  details : string
}.
End TrackingUpdate.

Module Order.
(** The paths of [orderSchema]. *)
Record t := mk {
  _id : ObjectId;
  orderNumber : option string;
  user : ObjectId;
  orderItems : list OrderItem.t;
  shippingInfo : option ShippingInfo.t;
  paymentInfo : option PaymentInfo.t;
  itemsPrice : Q;
  taxPrice : Q;
  shippingPrice : Q;
  totalPrice : Q;
  orderStatus : string;
  deliveredAt : option JS.Date;
  trackingNumber : string;
  trackingUpdates : list TrackingUpdate.t;
  isPaid : bool;
  paidAt : option JS.Date;
  createdAt : JS.Date
}.
End Order.


Module OrderDoc.
(** An [Order] document in memory: its schema paths, Mongoose's change
    tracking for [orderStatus], and the plain JavaScript properties the
    controller reads or writes that [orderSchema] does not declare.  Such a
    property is not a path of the document: it is [undefined] on a document
    that was just loaded or constructed, and [save] does not write it. *)
Record t := mk {
  doc : Order.t;
  isNew : bool;
  orderStatus_modified : bool;
  shippingAddress : option ShippingInfo.t;
  paymentResult : option PaymentInfo.t;
  isDelivered : option bool
}.
End OrderDoc.

Module User.
(** [req.user], as the [protect] middleware leaves it. *)
Record t := mk { _id : ObjectId; role : string; email : string }.
End User.

Module ErrorResponse.
Record t := mk { message : string; statusCode : Z }.
End ErrorResponse.

(** ** The database and the request monad *)

Record DB := mkDB {
  products : list Product.t;
  carts : list Cart.t;
  orders : list Order.t
}.

Definition with_products (l : list Product.t) (db : DB) : DB :=
  mkDB l (carts db) (orders db).

Definition with_carts (l : list Cart.t) (db : DB) : DB :=
  mkDB (products db) l (orders db).

Definition with_orders (l : list Order.t) (db : DB) : DB :=
  mkDB (products db) (carts db) l.

(** What the clock, the id generator and [uuidv4] give during one request. *)
Record Env := mkEnv {
  now : JS.Date;
  nowISO : string;
  uuid : string;
  newId : ObjectId
}.

Inductive Result (A : Type) : Type :=
| Ok (a : A)
| Fail (e : ErrorResponse.t)
| Throw (msg : string).

Arguments Ok {A} a.
Arguments Fail {A} e.
Arguments Throw {A} msg.

Definition M (A : Type) : Type := DB -> Result A * DB.

Definition ret {A : Type} (a : A) : M A := fun db => (Ok a, db).

Definition bind {A B : Type} (m : M A) (k : A -> M B) : M B :=
  fun db =>
    match m db with
    | (Ok a, db') => k a db'
    | (Fail e, db') => (Fail e, db')
    | (Throw msg, db') => (Throw msg, db')
    end.

(** [return next(new ErrorResponse(message, statusCode))] *)
Definition next {A : Type} (message : string) (statusCode : Z) : M A :=
  fun db => (Fail (ErrorResponse.mk message statusCode), db).

(** [throw new Error(msg)], or a [TypeError] raised by the runtime. *)
Definition throw {A : Type} (msg : string) : M A :=
  fun db => (Throw msg, db).

Definition get : M DB := fun db => (Ok db, db).

(** A step of a request that touches no collection. *)
Definition lift {A : Type} (r : Result A) : M A := fun db => (r, db).

Definition put (db : DB) : M unit := fun _ => (Ok tt, db).

Notation "x <- m ;; k" := (bind m (fun x => k))
  (at level 61, m at next level, right associativity).
Notation "m ;;; k" := (bind m (fun _ => k))
  (at level 61, right associativity).

(** [Array.prototype.findIndex] with a callback that can throw: the
    first throw ends the search and is the outcome. *)
Fixpoint findIndex_r {A : Type} (p : A -> Result bool) (l : list A)
    : Result (option nat) :=
  match l with
  | [] => Ok None
  | x :: r =>
      match p x with
      | Ok true => Ok (Some O)
      | Ok false =>
          match findIndex_r p r with
          | Ok i => Ok (option_map S i)
          | Fail e => Fail e
          | Throw msg => Throw msg
          end
      | Fail e => Fail e
      | Throw msg => Throw msg
      end
  end.

(** [Array.prototype.filter] with such a callback. *)
Fixpoint filter_r {A : Type} (p : A -> Result bool) (l : list A)
    : Result (list A) :=
  match l with
  | [] => Ok []
  | x :: r =>
      match p x with
      | Ok b =>
          match filter_r p r with
          | Ok kept => Ok (if b then x :: kept else kept)
          | Fail e => Fail e
          | Throw msg => Throw msg
          end
      | Fail e => Fail e
      | Throw msg => Throw msg
      end
  end.

(** ** Collections *)

Section Collection.
Context {A : Type} (key : A -> ObjectId).

(** [Model.findById(id)] *)
Definition findById (id : ObjectId) (l : list A) : option A :=
  find (fun d => String.eqb (key d) id) l.

(** [updateOne({ _id: id }, f)]: the first matching document is updated. *)
Fixpoint updateOne (id : ObjectId) (f : A -> A) (l : list A) : list A :=
  match l with
  | [] => []
  | d :: r => if String.eqb (key d) id then f d :: r
              else d :: updateOne id f r
  end.

(** Writing a document back: the stored document with its [_id] is
    replaced; a document whose [_id] is not in the collection is
    inserted. *)
Fixpoint upsert (d : A) (l : list A) : list A :=
  match l with
  | [] => [d]
  | x :: r => if String.eqb (key x) (key d) then d :: r
              else x :: upsert d r
  end.

End Collection.

(** ** models/Cart.js *)

(** [required: true] on a [String] path: Mongoose refuses the empty
    string as it refuses a missing value. *)
Definition required (s : string) : bool := negb (String.eqb s "").

(** The validators of [cartItemSchema]: [name] and [image] are required
    and [quantity] is at least 1.  ([product] and [price] are always
    present in a line of this model.) *)
Definition CartItem_valid (item : CartItem.t) : bool :=
  required (CartItem.name item)
  && required (CartItem.image item)
  && (1 <=? CartItem.quantity item)%Z.

(** The validation of a cart document: that of each of its lines. *)
Definition Cart_valid (this : Cart.t) : bool :=
  forallb CartItem_valid (Cart.items this).

(** [cartSchema.pre('save')] and the write itself. *)
Definition Cart_write (env : Env) (this : Cart.t) : M Cart.t :=
  let this := Cart.with_updatedAt (now env) this in
  db <- get ;;
  put (with_carts (upsert Cart._id this (carts db)) db) ;;;
  ret this.

(** [cart.save()].  Mongoose validates the document before any
    [pre('save')] hook runs; a document that fails validation is not
    written, and [save] rejects with a [ValidationError]. *)
Definition Cart_save (env : Env) (this : Cart.t) : M Cart.t :=
  if Cart_valid this then Cart_write env this
  else throw "ValidationError: Cart validation failed".

(** [product.images[0]?.url || ''] *)
Definition first_image_url (images : list Image.t) : string :=
  match images with
  | [] => ""
  | i :: _ => Image.url i
  end.

(** What [item.product] holds on the lines of a cart document in memory.
    On a document as [Cart.findOne] gives it, it is the id of the product.
    On a document populated by [getOrCreateCart] it is a product document
    cut down to [name price images stock], or [null] when no product has
    the id. *)
Inductive Receiver : Type := Unpopulated | Populated.

(** [item.product.toString()].  On an id it is the id.  On a populated
    line it throws: on [null] at once; on a product document because
    [toString] renders the document with its virtuals
    ([toObject: { virtuals: true }] in [productSchema]) and the virtual
    [averageRating] reads [this.reviews.length], [reviews] not being
    among the populated paths. *)
Definition item_product_toString (r : Receiver) (item : CartItem.t)
    : Result string :=
  match r with
  | Unpopulated => Ok (CartItem.product item)
  | Populated => Throw "TypeError: Cannot read properties of undefined"
  end.

Module CartMethods.
(** The methods of [cartSchema], for either kind of receiver. *)

Section Receiver.
Variable r : Receiver.

(** [item => item.product.toString() === productId] *)
Definition is_product (productId : ObjectId) (item : CartItem.t)
    : Result bool :=
  match item_product_toString r item with
  | Ok s => Ok (String.eqb s productId)
  | Fail e => Fail e
  | Throw msg => Throw msg
  end.

(** [item => item.product.toString() !== productId] *)
Definition is_other_product (productId : ObjectId) (item : CartItem.t)
    : Result bool :=
  match item_product_toString r item with
  | Ok s => Ok (negb (String.eqb s productId))
  | Fail e => Fail e
  | Throw msg => Throw msg
  end.

(** [cartSchema.methods.addItem] *)
Definition addItem (env : Env) (productId : ObjectId) (quantity : Z)
    (this : Cart.t) : M Cart.t :=
  db <- get ;;
  match findById Product._id productId (products db) with
  | None => throw "Product not found"
  | Some product =>
      if (Product.stock product <? quantity)%Z
      then throw "Not enough stock available"
      else
        itemIndex <-
          lift (findIndex_r (is_product productId) (Cart.items this)) ;;
        let items :=
          match itemIndex with
          | Some i =>
              JS.update_at i
                (fun item =>
                   CartItem.with_quantity
                     (CartItem.quantity item + quantity)%Z item)
                (Cart.items this)
          | None =>
              Cart.items this ++
                [CartItem.mk productId (Product.name product)
                   (Product.price product)
                   (first_image_url (Product.images product)) quantity]
          end in
        Cart_save env (Cart.with_items items this)
  end.

(** [cartSchema.methods.removeItem] *)
Definition removeItem (env : Env) (productId : ObjectId) (this : Cart.t)
    : M Cart.t :=
  items <-
    lift (filter_r (is_other_product productId) (Cart.items this)) ;;
  Cart_save env (Cart.with_items items this).

(** [cartSchema.methods.updateItemQuantity].  [find] gives the first
    matching item, whose quantity is then overwritten in place. *)
Definition updateItemQuantity (env : Env) (productId : ObjectId)
    (quantity : Z) (this : Cart.t) : M Cart.t :=
  if (quantity <? 1)%Z then removeItem env productId this
  else
    item <-
      lift (findIndex_r (is_product productId) (Cart.items this)) ;;
    let items :=
      match item with
      | Some i => JS.update_at i (CartItem.with_quantity quantity)
                    (Cart.items this)
      | None => Cart.items this
      end in
    Cart_save env (Cart.with_items items this).

End Receiver.
End CartMethods.

(** [addItem] on a document that is not populated: [item.product] holds
    the id of the product, so that
    [item.product.toString() === productId] compares ids. *)
Definition addItem (env : Env) (productId : ObjectId) (quantity : Z)
    (this : Cart.t) : M Cart.t :=
  CartMethods.addItem Unpopulated env productId quantity this.

(** [removeItem] on a document that is not populated. *)
Definition removeItem (env : Env) (productId : ObjectId) (this : Cart.t)
    : M Cart.t :=
  CartMethods.removeItem Unpopulated env productId this.

(** [updateItemQuantity] on a document that is not populated. *)
Definition updateItemQuantity (env : Env) (productId : ObjectId)
    (quantity : Z) (this : Cart.t) : M Cart.t :=
  CartMethods.updateItemQuantity Unpopulated env productId quantity this.

(** [cartSchema.methods.clearCart]; it reads no line. *)
Definition clearCart (env : Env) (this : Cart.t) : M Cart.t :=
  Cart_save env (Cart.with_items [] this).

(** ** models/Order.js *)

Module OrderSet.
(** Assignments to the schema paths the program writes. *)
Import Order.

Definition orderNumber (v : option string) (o : t) : t :=
  mk (_id o) v (user o) (orderItems o) (shippingInfo o) (paymentInfo o)
     (itemsPrice o) (taxPrice o) (shippingPrice o) (totalPrice o)
     (orderStatus o) (deliveredAt o) (trackingNumber o) (trackingUpdates o)
     (isPaid o) (paidAt o) (createdAt o).

Definition orderStatus (v : string) (o : t) : t :=
  mk (_id o) (Order.orderNumber o) (user o) (orderItems o) (shippingInfo o)
     (paymentInfo o) (itemsPrice o) (taxPrice o) (shippingPrice o)
     (totalPrice o) v (deliveredAt o) (trackingNumber o) (trackingUpdates o)
     (isPaid o) (paidAt o) (createdAt o).

Definition deliveredAt (v : option JS.Date) (o : t) : t :=
  mk (_id o) (Order.orderNumber o) (user o) (orderItems o) (shippingInfo o)
     (paymentInfo o) (itemsPrice o) (taxPrice o) (shippingPrice o)
     (totalPrice o) (Order.orderStatus o) v (trackingNumber o)
     (trackingUpdates o) (isPaid o) (paidAt o) (createdAt o).

Definition trackingNumber (v : string) (o : t) : t :=
  mk (_id o) (Order.orderNumber o) (user o) (orderItems o) (shippingInfo o)
     (paymentInfo o) (itemsPrice o) (taxPrice o) (shippingPrice o)
     (totalPrice o) (Order.orderStatus o) (Order.deliveredAt o) v
     (trackingUpdates o) (isPaid o) (paidAt o) (createdAt o).

Definition trackingUpdates (v : list TrackingUpdate.t) (o : t) : t :=
  mk (_id o) (Order.orderNumber o) (user o) (orderItems o) (shippingInfo o)
     (paymentInfo o) (itemsPrice o) (taxPrice o) (shippingPrice o)
     (totalPrice o) (Order.orderStatus o) (Order.deliveredAt o)
     (Order.trackingNumber o) v (isPaid o) (paidAt o) (createdAt o).

Definition isPaid (v : bool) (o : t) : t :=
  mk (_id o) (Order.orderNumber o) (user o) (orderItems o) (shippingInfo o)
     (paymentInfo o) (itemsPrice o) (taxPrice o) (shippingPrice o)
     (totalPrice o) (Order.orderStatus o) (Order.deliveredAt o)
     (Order.trackingNumber o) (Order.trackingUpdates o) v (paidAt o)
     (createdAt o).

Definition paidAt (v : option JS.Date) (o : t) : t :=
  mk (_id o) (Order.orderNumber o) (user o) (orderItems o) (shippingInfo o)
     (paymentInfo o) (itemsPrice o) (taxPrice o) (shippingPrice o)
     (totalPrice o) (Order.orderStatus o) (Order.deliveredAt o)
     (Order.trackingNumber o) (Order.trackingUpdates o) (Order.isPaid o) v
     (createdAt o).

End OrderSet.

Module DocSet.
(** Assignments to an [Order] document in memory. *)

(** [this.<path> = v] for a schema path other than [orderStatus]. *)
Definition path (f : Order.t -> Order.t) (d : OrderDoc.t) : OrderDoc.t :=
  OrderDoc.mk (f (OrderDoc.doc d)) (OrderDoc.isNew d)
    (OrderDoc.orderStatus_modified d) (OrderDoc.shippingAddress d)
    (OrderDoc.paymentResult d) (OrderDoc.isDelivered d).

(** [order.orderStatus = v].  Mongoose marks a path of a loaded document
    modified when the assigned value differs from the current one. *)
Definition orderStatus (v : string) (d : OrderDoc.t) : OrderDoc.t :=
  OrderDoc.mk (OrderSet.orderStatus v (OrderDoc.doc d)) (OrderDoc.isNew d)
    (OrderDoc.orderStatus_modified d
     || negb (String.eqb v (Order.orderStatus (OrderDoc.doc d))))
    (OrderDoc.shippingAddress d) (OrderDoc.paymentResult d)
    (OrderDoc.isDelivered d).

(** [order.paymentResult = v]: not a path of [orderSchema]. *)
Definition paymentResult (v : PaymentInfo.t) (d : OrderDoc.t) : OrderDoc.t :=
  OrderDoc.mk (OrderDoc.doc d) (OrderDoc.isNew d)
    (OrderDoc.orderStatus_modified d) (OrderDoc.shippingAddress d)
    (Some v) (OrderDoc.isDelivered d).

(** [order.isDelivered = v]: not a path of [orderSchema]. *)
Definition isDelivered (v : bool) (d : OrderDoc.t) : OrderDoc.t :=
  OrderDoc.mk (OrderDoc.doc d) (OrderDoc.isNew d)
    (OrderDoc.orderStatus_modified d) (OrderDoc.shippingAddress d)
    (OrderDoc.paymentResult d) (Some v).

(** [this.trackingUpdates.unshift(u)] *)
Definition unshift (u : TrackingUpdate.t) (d : OrderDoc.t) : OrderDoc.t :=
  path (fun o => OrderSet.trackingUpdates (u :: Order.trackingUpdates o) o) d.

End DocSet.

(** A document as [Order.findById] hands it over. *)
Definition loaded (o : Order.t) : OrderDoc.t :=
  OrderDoc.mk o false false None None None.

(** First [pre('save')] hook: generate the order number. *)
Definition generate_orderNumber (this : OrderDoc.t) : M OrderDoc.t :=
  if JS.falsy_str (Order.orderNumber (OrderDoc.doc this)) then
    db <- get ;;
    let count := List.length (orders db) in
    ret (DocSet.path
           (OrderSet.orderNumber
              (Some ("ORD-" ++
                     JS.padStart 6 "0" (JS.toString (N.of_nat (count + 1))))
                 %string))
           this)
  else ret this.

(** One [updateOne] operation of the second hook:
    [{ filter: { _id }, update: { $inc: { stock } } }]. *)
Record BulkOp := mkOp { filter_id : ObjectId; inc_stock : Z }.

(** [mongoose.model('Product').bulkWrite(bulkOps)] *)
Definition bulkWrite (bulkOps : list BulkOp) (l : list Product.t)
    : list Product.t :=
  fold_left
    (fun l op =>
       updateOne Product._id (filter_id op)
         (fun p => Product.with_stock (Product.stock p + inc_stock op)%Z p) l)
    bulkOps l.

(** Second [pre('save')] hook: update product stock. *)
Definition update_product_stock (this : OrderDoc.t) : M unit :=
  if OrderDoc.orderStatus_modified this
     && String.eqb (Order.orderStatus (OrderDoc.doc this)) "Processing"
  then
    let bulkOps :=
      map (fun item =>
             mkOp (OrderItem.product item) (- OrderItem.quantity item)%Z)
        (Order.orderItems (OrderDoc.doc this)) in
    db <- get ;;
    put (with_products (bulkWrite bulkOps (products db)) db)
  else ret tt.

(** Third [pre('save')] hook: add a tracking update.  [this.shippingInfo]
    is [undefined] when the document has no shipping block, and reading
    [city] from it raises a [TypeError]. *)
Definition add_tracking_update (env : Env) (this : OrderDoc.t)
    : M OrderDoc.t :=
  if OrderDoc.orderStatus_modified this then
    match Order.shippingInfo (OrderDoc.doc this) with
    | None => throw "TypeError: Cannot read properties of undefined"
    | Some shippingInfo =>
        let orderStatus := Order.orderStatus (OrderDoc.doc this) in
        ret (DocSet.unshift
               (TrackingUpdate.mk (now env) orderStatus
                  (ShippingInfo.city shippingInfo)
                  ("Order status updated to " ++ orderStatus)%string)
               this)
    end
  else ret this.

(** The three hooks in the order of their registration, then the write
    of the schema paths. *)
Definition Order_hooks_and_write (env : Env) (this : OrderDoc.t)
    : M Order.t :=
  this <- generate_orderNumber this ;;
  update_product_stock this ;;;
  this <- add_tracking_update env this ;;
  db <- get ;;
  put (with_orders (upsert Order._id (OrderDoc.doc this) (orders db)) db) ;;;
  ret (OrderDoc.doc this).

(** [enum] of [orderStatus] in [orderSchema]. *)
Definition orderStatus_enum : list string :=
  ["Processing"; "Shipped"; "Delivered"; "Cancelled"; "Returned"].

(** [enum] of [status] in [trackingUpdateSchema]. *)
Definition trackingStatus_enum : list string :=
  ["Order Placed"; "Processing"; "Shipped"; "In Transit";
   "Out for Delivery"; "Delivered"; "Cancelled"; "Returned"].

(** [enum: values] *)
Definition one_of (values : list string) (s : string) : bool :=
  existsb (String.eqb s) values.

(** The validators of [orderItemSchema]. *)
Definition OrderItem_valid (item : OrderItem.t) : bool :=
  required (OrderItem.name item)
  && (1 <=? OrderItem.quantity item)%Z
  && required (OrderItem.image item).

(** The validators of [shippingInfoSchema]. *)
Definition ShippingInfo_valid (i : ShippingInfo.t) : bool :=
  required (ShippingInfo.address i)
  && required (ShippingInfo.city i)
  && required (ShippingInfo.state i)
  && required (ShippingInfo.country i)
  && required (ShippingInfo.postalCode i)
  && required (ShippingInfo.phone i).

(** The validators of [paymentInfoSchema]. *)
Definition PaymentInfo_valid (i : PaymentInfo.t) : bool :=
  required (PaymentInfo.id i)
  && required (PaymentInfo.status i)
  && required (PaymentInfo.update_time i)
  && required (PaymentInfo.email_address i).

(** The validators of [trackingUpdateSchema]. *)
Definition TrackingUpdate_valid (u : TrackingUpdate.t) : bool :=
  one_of trackingStatus_enum (TrackingUpdate.status u)
  && required (TrackingUpdate.location u)
  && required (TrackingUpdate.details u).

(** A block the schema does not require: valid when absent. *)
Definition valid_if_present {A : Type} (valid : A -> bool) (x : option A)
    : bool :=
  match x with
  | None => true
  | Some v => valid v
  end.

(** The validation of an order document, path by path.  The paths that
    are required and always hold a value here ([user], the four prices,
    [isPaid], the dates) cannot fail. *)
Definition Order_valid (o : Order.t) : bool :=
  negb (JS.falsy_str (Order.orderNumber o))
  && forallb OrderItem_valid (Order.orderItems o)
  && valid_if_present ShippingInfo_valid (Order.shippingInfo o)
  && valid_if_present PaymentInfo_valid (Order.paymentInfo o)
  && one_of orderStatus_enum (Order.orderStatus o)
  && forallb TrackingUpdate_valid (Order.trackingUpdates o).

(** [order.save()].  Mongoose validates the document before any of the
    [pre('save')] hooks of the schema runs, so before the first hook
    could give the order its number; a document that fails validation is
    not written, no hook runs, and [save] rejects with a
    [ValidationError]. *)
Definition Order_save (env : Env) (this : OrderDoc.t) : M Order.t :=
  if Order_valid (OrderDoc.doc this) then Order_hooks_and_write env this
  else throw "ValidationError: Order validation failed".

(** ** controllers/orderController.js *)

Module OrderItemReq.
(** One element of [req.body.orderItems]. *)
Record t := mk {
  product : ObjectId;
  quantity : Z;
  price : Q;
  image : option string
}.
End OrderItemReq.

Module CreateOrderBody.
(** [req.body] of [POST /api/v1/orders].  [taxPrice] and [shippingPrice]
    are [None] when the request does not carry them; [totalPrice] is kept
    as a JavaScript value because [createOrder] compares it strictly. *)
Record t := mk {
  orderItems : list OrderItemReq.t;
  shippingAddress : option ShippingInfo.t;
  paymentMethod : option string;
  itemsPrice : Q;
  taxPrice : option Q;
  shippingPrice : option Q;
  totalPrice : JS.value
}.
End CreateOrderBody.

Module PayBody.
(** [req.body] of [PUT /api/v1/orders/:id/pay]. *)
Record t := mk {
  id : option string;
  status : option string;
  update_time : option string;
  email_address : option string
}.
End PayBody.

Module StatusBody.
(** [req.body] of [PUT /api/v1/orders/:id/status]. *)
Record t := mk {
  status : option string;
  trackingNumber : option string;
  location : option string;
  details : option string
}.
End StatusBody.

(** [res.status(code).json({ success: true, data })] *)
Record Response := mkResponse { status : Z; data : Order.t }.

(** [Product.find({ _id: { $in: productIds } })] *)
Definition Product_find_in (productIds : list ObjectId) (l : list Product.t)
    : list Product.t :=
  filter (fun p => existsb (String.eqb (Product._id p)) productIds) l.

(** [Cart.findOne({ user })] *)
Definition Cart_findOne (user : ObjectId) (l : list Cart.t) : option Cart.t :=
  find (fun c => String.eqb (Cart.user c) user) l.

(** The loop of [createOrder] over [orderItems]: the stock check and the
    accumulation of [calculatedItemsPrice] and [orderItemsWithDetails]. *)
Fixpoint check_stock_and_prices (found : list Product.t)
    (orderItems : list OrderItemReq.t) (calculatedItemsPrice : Q)
    (orderItemsWithDetails : list OrderItem.t)
    : M (Q * list OrderItem.t) :=
  match orderItems with
  | [] => ret (calculatedItemsPrice, orderItemsWithDetails)
  | item :: rest =>
      match findById Product._id (OrderItemReq.product item) found with
      | None => throw "TypeError: Cannot read properties of undefined"
      | Some product =>
          if (Product.stock product <? OrderItemReq.quantity item)%Z then
            next ("Not enough stock for " ++ Product.name product)%string 400
          else
            check_stock_and_prices found rest
              (calculatedItemsPrice
               + OrderItemReq.price item
                 * inject_Z (OrderItemReq.quantity item))%Q
              (orderItemsWithDetails ++
               [OrderItem.mk (OrderItemReq.product item)
                  (Product.name product) (OrderItemReq.quantity item)
                  (JS.or_str (OrderItemReq.image item)
                     (first_image_url (Product.images product)))
                  (OrderItemReq.price item)])
      end
  end.

(** [taxPrice || Number((0.15 * itemsPrice).toFixed(2))] *)
Definition calculatedTaxPrice (taxPrice : option Q) (itemsPrice : Q) : Q :=
  JS.or_num taxPrice (JS.Number_toFixed2 (0.15 * itemsPrice)).

(** [shippingPrice || (itemsPrice > 100 ? 0 : 10)] *)
Definition calculatedShippingPrice (shippingPrice : option Q)
    (itemsPrice : Q) : Q :=
  JS.or_num shippingPrice
    (if negb (Qle_bool itemsPrice 100) then 0 else 10)%Q.

(** [(itemsPrice + calculatedTaxPrice + calculatedShippingPrice).toFixed(2)] *)
Definition calculatedTotalPrice (taxPrice shippingPrice : option Q)
    (itemsPrice : Q) : string :=
  JS.toFixed2
    (itemsPrice + calculatedTaxPrice taxPrice itemsPrice
     + calculatedShippingPrice shippingPrice itemsPrice)%Q.

Section Mongoose.

(** Mongoose's answer to [isModified('orderStatus')] on a document that
    [new Order(..)] built without an [orderStatus] key, so that the path
    holds its schema default.  (Mongoose tracks such a path as a default,
    not as a modification; the development does not depend on it, and
    every statement about [createOrder] covers both answers.) *)
Variable default_is_modified : bool.

(** [new Order({ orderItems, user, shippingAddress, paymentMethod,
    itemsPrice, taxPrice, shippingPrice, totalPrice, trackingUpdates })].
    [shippingAddress] and [paymentMethod] are not paths of [orderSchema],
    so the document has no shipping block; [totalPrice] arrives as the
    string of [toFixed(2)] and is cast to the number it denotes. *)
Definition new_Order (env : Env) (orderItems : list OrderItem.t)
    (user : ObjectId) (itemsPrice taxPrice shippingPrice : Q)
    (totalPrice : Q) (trackingUpdates : list TrackingUpdate.t)
    : OrderDoc.t :=
  OrderDoc.mk
    (Order.mk (newId env) None user orderItems None None itemsPrice taxPrice
       shippingPrice totalPrice "Processing" None "" trackingUpdates false
       None (now env))
    true default_is_modified None None None.

(** [createOrder].  The document it builds carries no [orderNumber]:
    the first hook is to generate one, but [save] validates first. *)
Definition createOrder (env : Env) (user : User.t) (body : CreateOrderBody.t)
    : M Response :=
  let orderItems := CreateOrderBody.orderItems body in
  let itemsPrice := CreateOrderBody.itemsPrice body in
  let taxPrice := CreateOrderBody.taxPrice body in
  let shippingPrice := CreateOrderBody.shippingPrice body in
  let totalPrice := CreateOrderBody.totalPrice body in
  if (List.length orderItems =? 0)%nat then next "No order items" 400
  else
    db <- get ;;
    let productIds := map OrderItemReq.product orderItems in
    let found := Product_find_in productIds (products db) in
    if negb (List.length found =? List.length orderItems)%nat then
      next "One or more products not found" 404
    else
      r <- check_stock_and_prices found orderItems 0%Q [] ;;
      let '(calculatedItemsPrice, orderItemsWithDetails) := r in
      if JS.strict_neq (JS.Num calculatedItemsPrice) (JS.Num itemsPrice) then
        next "Cart items have been updated" 400
      else
        let tax := calculatedTaxPrice taxPrice itemsPrice in
        let shipping := calculatedShippingPrice shippingPrice itemsPrice in
        let total := calculatedTotalPrice taxPrice shippingPrice itemsPrice in
        if JS.strict_neq (JS.Str total) totalPrice then
          next "Order total does not match" 400
        else
          let order :=
            new_Order env orderItemsWithDetails (User._id user) itemsPrice
              tax shipping
              (JS.Number_toFixed2 (itemsPrice + tax + shipping))
              [TrackingUpdate.mk (now env) "Order Placed"
                 "Processing Center" "Your order has been received"] in
          createdOrder <- Order_save env order ;;
          db <- get ;;
          match Cart_findOne (User._id user) (carts db) with
          | Some cart => clearCart env cart ;;; ret (mkResponse 201 createdOrder)
          | None => ret (mkResponse 201 createdOrder)
          end.

End Mongoose.

(** [Order.findById(id)], as a document in memory. *)
Definition Order_findById (id : ObjectId) : M (option OrderDoc.t) :=
  db <- get ;;
  ret (option_map loaded (findById Order._id id (orders db))).

(** [updateOrderToPaid] *)
Definition updateOrderToPaid (env : Env) (user : User.t) (id : ObjectId)
    (body : PayBody.t) : M Response :=
  found <- Order_findById id ;;
  match found with
  | None => next "Order not found" 404
  | Some order =>
      if negb (String.eqb (Order.user (OrderDoc.doc order)) (User._id user))
         && negb (String.eqb (User.role user) "admin")
      then next "Not authorized to update this order" 401
      else
        let order := DocSet.path (OrderSet.isPaid true) order in
        let order := DocSet.path (OrderSet.paidAt (Some (now env))) order in
        let order :=
          DocSet.paymentResult
            (PaymentInfo.mk
               (JS.or_str (PayBody.id body) (uuid env))
               (JS.or_str (PayBody.status body) "COMPLETED")
               (JS.or_str (PayBody.update_time body) (nowISO env))
               (JS.or_str (PayBody.email_address body) (User.email user)))
            order in
        let order :=
          DocSet.unshift
            (TrackingUpdate.mk (now env) "Processing" "Processing Center"
               "Payment received. Preparing for shipment.")
            order in
        updatedOrder <- Order_save env order ;;
        ret (mkResponse 200 updatedOrder)
  end.

(** [updateOrderToDelivered].  [order.shippingAddress] is not a path of
    [orderSchema]: it is [undefined], and reading [city] from it raises a
    [TypeError]. *)
Definition updateOrderToDelivered (env : Env) (id : ObjectId) : M Response :=
  found <- Order_findById id ;;
  match found with
  | None => next "Order not found" 404
  | Some order =>
      let order := DocSet.isDelivered true order in
      let order :=
        DocSet.path (OrderSet.deliveredAt (Some (now env))) order in
      let order := DocSet.orderStatus "Delivered" order in
      match OrderDoc.shippingAddress order with
      | None => throw "TypeError: Cannot read properties of undefined"
      | Some shippingAddress =>
          let order :=
            DocSet.unshift
              (TrackingUpdate.mk (now env) "Delivered"
                 (ShippingInfo.city shippingAddress)
                 "Your order has been delivered successfully.")
              order in
          updatedOrder <- Order_save env order ;;
          ret (mkResponse 200 updatedOrder)
      end
  end.

(** [updateOrderStatus] *)
Definition updateOrderStatus (env : Env) (id : ObjectId)
    (body : StatusBody.t) : M Response :=
  match StatusBody.status body with
  | None => next "Status is required" 400
  | Some status =>
      if String.eqb status "" then next "Status is required" 400
      else
        found <- Order_findById id ;;
        match found with
        | None => next "Order not found" 404
        | Some order =>
            let order := DocSet.orderStatus status order in
            let order :=
              if JS.falsy_str (StatusBody.trackingNumber body) then order
              else
                DocSet.path
                  (OrderSet.trackingNumber
                     (JS.or_str (StatusBody.trackingNumber body) ""))
                  order in
            let order :=
              DocSet.unshift
                (TrackingUpdate.mk (now env) status
                   (JS.or_str (StatusBody.location body) "Processing Center")
                   (JS.or_str (StatusBody.details body)
                      ("Order status updated to " ++ status)%string))
                order in
            updatedOrder <- Order_save env order ;;
            ret (mkResponse 200 updatedOrder)
        end
  end.

(** ** Quantities the statements speak of *)

(** Sum over the line items of [price * quantity], item by item. *)
Fixpoint sum_line_totals (l : list CartItem.t) : Q :=
  match l with
  | [] => 0
  | item :: r =>
      CartItem.price item * inject_Z (CartItem.quantity item)
      + sum_line_totals r
  end.

(** Sum over the line items of [quantity]. *)
Fixpoint sum_quantities (l : list CartItem.t) : Z :=
  match l with
  | [] => 0
  | item :: r => CartItem.quantity item + sum_quantities r
  end.

(** Sum over the declared order items of [price * quantity]. *)
Fixpoint declared_items_total (l : list OrderItemReq.t) : Q :=
  match l with
  | [] => 0
  | item :: r =>
      OrderItemReq.price item * inject_Z (OrderItemReq.quantity item)
      + declared_items_total r
  end.

(** The stock of the product with a given id, when there is one. *)
Definition stock_of (id : ObjectId) (l : list Product.t) : option Z :=
  option_map Product.stock (findById Product._id id l).

(** The total quantity an order's items ask of one product. *)
Fixpoint ordered_quantity (id : ObjectId) (l : list OrderItem.t) : Z :=
  match l with
  | [] => 0
  | item :: r =>
      (if String.eqb (OrderItem.product item) id
       then OrderItem.quantity item else 0)
      + ordered_quantity id r
  end.

(** The stored order with a given id. *)
Definition order_of (id : ObjectId) (db : DB) : option Order.t :=
  findById Order._id id (orders db).

(** The result of a request is an error: [Fail] or [Throw]. *)
Definition is_error {A : Type} (r : Result A) : bool :=
  match r with
  | Ok _ => false
  | _ => true
  end.

(** A request leaves a component [f] of the database as it found it. *)
Definition preserves {A X : Type} (f : DB -> X) (m : M A) : Prop :=
  forall db, f (snd (m db)) = f db.

(** A request that never answers with success. *)
Definition never_ok {A : Type} (m : M A) : Prop :=
  forall db, is_error (fst (m db)) = true.

(** ** A small shop, for the concrete runs *)

Module Scenario.

Definition productA : Product.t :=
  Product.mk "A" "Widget" 10 [Image.mk "widget.jpg" None] 5.

Definition alice : User.t := User.mk "u1" "user" "alice@example.com".

Definition admin : User.t := User.mk "u0" "admin" "admin@example.com".

Definition env1 : Env := mkEnv 1000 "2023-01-01T00:00:00.000Z" "uuid-1" "o1".
Definition env2 : Env := mkEnv 2000 "2023-01-02T00:00:00.000Z" "uuid-2" "o2".
Definition env3 : Env := mkEnv 3000 "2023-01-03T00:00:00.000Z" "uuid-3" "o3".
Definition env4 : Env := mkEnv 4000 "2023-01-04T00:00:00.000Z" "uuid-4" "o4".

Definition emptyCart : Cart.t := Cart.mk "c1" "u1" [] 0 0.

(** Alice's cart after she added three units of product A. *)
Definition cartA3 : Cart.t :=
  Cart.mk "c1" "u1" [CartItem.mk "A" "Widget" 10 "widget.jpg" 3] 0 1000.

Definition shop : DB := mkDB [productA] [cartA3] [].

(** The checkout of the scenario; only the type of [totalPrice] varies. *)
Definition checkout (totalPrice : JS.value) : CreateOrderBody.t :=
  CreateOrderBody.mk [OrderItemReq.mk "A" 3 10 None] None None
    30 (Some 4.5%Q) (Some 10%Q) totalPrice.

(** The same checkout declaring [itemsPrice] 25 for items worth 30. *)
Definition checkout25 : CreateOrderBody.t :=
  CreateOrderBody.mk [OrderItemReq.mk "A" 3 10 None] None None
    25 (Some 4.5%Q) (Some 10%Q) (JS.Str "39.50").

Definition home : ShippingInfo.t :=
  ShippingInfo.mk "1 Main St" "Springfield" "IL" "US" "62701" "555-0100".

Definition placed : TrackingUpdate.t :=
  TrackingUpdate.mk 1000 "Order Placed" "Processing Center"
    "Your order has been received".

(** A stored order for three units of A, with or without a shipping
    block. *)
Definition order1 (shippingInfo : option ShippingInfo.t) : Order.t :=
  Order.mk "o1" (Some "ORD-000001") "u1"
    [OrderItem.mk "A" "Widget" 3 "widget.jpg" 10] shippingInfo None
    30 4.5 10 44.5 "Processing" None "" [placed] false None 1000.

Definition shopWithOrder (shippingInfo : option ShippingInfo.t) : DB :=
  mkDB [productA] [] [order1 shippingInfo].

Definition payment : PayBody.t :=
  PayBody.mk (Some "PAYMENT_ID_123") (Some "COMPLETED")
    (Some "2023-01-01T00:00:00.000Z") (Some "test@example.com").

Definition setStatus (s : string) : StatusBody.t :=
  StatusBody.mk (Some s) None None None.

End Scenario.

(** ** models/Cart.js and controllers/cartController.js: the controllers *)

Module PopulatedCart.
(** A cart after [populate('items.product', 'name price images stock')]:
    the document itself and, line by line, the product the line refers
    to, [None] (JavaScript [null]) when no product has that id. *)
Record t := mk { cart : Cart.t; populated : list (option Product.t) }.
End PopulatedCart.

Definition populate (l : list Product.t) (c : Cart.t) : PopulatedCart.t :=
  PopulatedCart.mk c
    (map (fun item => findById Product._id (CartItem.product item) l)
       (Cart.items c)).

(** [Cart.create({ user: userId, items: [] })] *)
Definition Cart_create (env : Env) (userId : ObjectId) : M Cart.t :=
  Cart_save env (Cart.mk (newId env) userId [] (now env) (now env)).

(** [cartSchema.statics.getOrCreateCart] *)
Definition getOrCreateCart (env : Env) (userId : ObjectId)
    : M PopulatedCart.t :=
  db <- get ;;
  cart <- match Cart_findOne userId (carts db) with
          | Some cart => ret cart
          | None => Cart_create env userId
          end ;;
  db <- get ;;
  ret (populate (products db) cart).

Module CartSummary.
(** The [data] of [GET /api/v1/cart/summary]. *)
Record t := mk { totalItems : Z; totalPrice : Q; items : nat }.
End CartSummary.

Module AddItemBody.
(** [req.body] of [POST /api/v1/cart/items]. *)
Record t := mk { productId : option string; quantity : option Z }.
End AddItemBody.

Module UpdateItemBody.
(** [req.body] of [PUT /api/v1/cart/items/:productId]; [quantity] is
    [None] when the body carries none or [null]. *)
Record t := mk { quantity : option Z }.
End UpdateItemBody.

Module CartController.
(** Every controller works on the cart [getOrCreateCart] returns, which
    is populated.  A controller's result is the [data] it hands to
    [res.json]. *)

(** [getCartSummary] *)
Definition getCartSummary (env : Env) (user : User.t) : M CartSummary.t :=
  cart <- getOrCreateCart env (User._id user) ;;
  ret (CartSummary.mk
         (Cart.totalItems (PopulatedCart.cart cart))
         (Cart.totalPrice (PopulatedCart.cart cart))
         (List.length (Cart.items (PopulatedCart.cart cart)))).

(** [clearCart]: the controller of [DELETE /api/v1/cart]; it answers
    with an empty [data]. *)
Definition clearCart (env : Env) (user : User.t) : M unit :=
  cart <- getOrCreateCart env (User._id user) ;;
  clearCart env (PopulatedCart.cart cart) ;;;
  ret tt.

(** [addToCart]; [quantity = 1] when the body carries none. *)
Definition addToCart (env : Env) (user : User.t) (body : AddItemBody.t)
    : M PopulatedCart.t :=
  if JS.falsy_str (AddItemBody.productId body) then
    next "Please provide a product ID" 400
  else
    let productId := JS.or_str (AddItemBody.productId body) "" in
    let quantity :=
      match AddItemBody.quantity body with
      | Some q => q
      | None => 1%Z
      end in
    cart <- getOrCreateCart env (User._id user) ;;
    CartMethods.addItem Populated env productId quantity
      (PopulatedCart.cart cart) ;;;
    updatedCart <- getOrCreateCart env (User._id user) ;;
    ret updatedCart.

(** [updateCartItem] *)
Definition updateCartItem (env : Env) (user : User.t) (productId : ObjectId)
    (body : UpdateItemBody.t) : M PopulatedCart.t :=
  match UpdateItemBody.quantity body with
  | None => next "Please provide a quantity" 400
  | Some quantity =>
      cart <- getOrCreateCart env (User._id user) ;;
      CartMethods.updateItemQuantity Populated env productId quantity
        (PopulatedCart.cart cart) ;;;
      updatedCart <- getOrCreateCart env (User._id user) ;;
      ret updatedCart
  end.

(** [removeFromCart] *)
Definition removeFromCart (env : Env) (user : User.t) (productId : ObjectId)
    : M PopulatedCart.t :=
  cart <- getOrCreateCart env (User._id user) ;;
  CartMethods.removeItem Populated env productId (PopulatedCart.cart cart) ;;;
  updatedCart <- getOrCreateCart env (User._id user) ;;
  ret updatedCart.

End CartController.

(** ** controllers/orderController.js: reading orders *)

Module Account.
(** A document of the users collection. *)
Record t := mk {
  _id : ObjectId;
  name : string;
  email : string;
  role : string
}.

(** The document as [req.user]. *)
Definition as_user (a : t) : User.t := User.mk (_id a) (role a) (email a).
End Account.

Module OrderWithUser.
(** An order whose [user] path is populated: the order and the account
    its [user] refers to, [None] when there is no such account. *)
Record t := mk { order : Order.t; user : option Account.t }.
End OrderWithUser.

(** [.populate('user', ..)] *)
Definition populate_user (accounts : list Account.t) (o : Order.t)
    : OrderWithUser.t :=
  OrderWithUser.mk o (findById Account._id (Order.user o) accounts).

(** [getOrderById].  The users collection is only read. *)
Definition getOrderById (accounts : list Account.t) (user : User.t)
    (id : ObjectId) : M (Z * OrderWithUser.t) :=
  db <- get ;;
  match option_map (populate_user accounts)
          (findById Order._id id (orders db)) with
  | None => next "Order not found" 404
  | Some order =>
      match OrderWithUser.user order with
      | None => throw "TypeError: Cannot read properties of null"
      | Some owner =>
          if negb (String.eqb (Account._id owner) (User._id user))
             && negb (String.eqb (User.role user) "admin")
          then next "Not authorized to view this order" 401
          else ret (200%Z, order)
      end
  end.

(** [.sort({ createdAt: -1 })]: insertion into a list that is already in
    descending order of [createdAt]. *)
Fixpoint insert_newest_first (o : Order.t) (l : list Order.t)
    : list Order.t :=
  match l with
  | [] => [o]
  | x :: r =>
      if (Order.createdAt x <=? Order.createdAt o)%Z then o :: x :: r
      else x :: insert_newest_first o r
  end.

Definition sort_newest_first (l : list Order.t) : list Order.t :=
  fold_right insert_newest_first [] l.

Module OrderList.
(** [{ success: true, count, data }] *)
Record t := mk { count : nat; data : list Order.t }.
End OrderList.

(** [getMyOrders] *)
Definition getMyOrders (user : User.t) : M (Z * OrderList.t) :=
  db <- get ;;
  let orders :=
    sort_newest_first
      (filter (fun o => String.eqb (Order.user o) (User._id user))
         (orders db)) in
  ret (200%Z, OrderList.mk (List.length orders) orders).

Module OrderStats.
(** The group of [getOrderStats]. *)
Record t := mk {
  totalSales : Q;
  totalOrders : nat;
  avgOrderValue : Q;
  minOrderValue : Q;
  maxOrderValue : Q
}.
End OrderStats.

(** [Order.aggregate([{ $match: { isPaid: true } }, { $group: { _id: null,
    totalSales: { $sum }, totalOrders: { $sum: 1 }, avgOrderValue:
    { $avg }, minOrderValue: { $min }, maxOrderValue: { $max } } }])]:
    one group when some order is paid, none otherwise. *)
Definition aggregate_order_stats (l : list Order.t) : list OrderStats.t :=
  match map Order.totalPrice (filter Order.isPaid l) with
  | [] => []
  | p :: r =>
      let total := fold_left Qplus r p in
      let n := S (List.length r) in
      [OrderStats.mk total n (total / inject_Z (Z.of_nat n))
         (fold_left Qmin r p) (fold_left Qmax r p)]
  end.

(** [getOrderStats]: [stats[0] || {}], [None] standing for [{}]. *)
Definition getOrderStats : M (Z * option OrderStats.t) :=
  db <- get ;;
  ret (200%Z, hd_error (aggregate_order_stats (orders db))).

(** ** middleware/auth.js and routes/orderRoutes.js *)

Module Http.

Inductive Method : Type := GET | POST | PUT | DELETE.

Definition Method_eqb (a b : Method) : bool :=
  match a, b with
  | GET, GET | POST, POST | PUT, PUT | DELETE, DELETE => true
  | _, _ => false
  end.

(** A piece of a route path: a literal, or a parameter such as [:id]. *)
Inductive Segment : Type := Lit (s : string) | Param (name : string).

(** Express matches the literal pieces of a route without regard to the
    case of the letters A to Z ([caseSensitive] is off in this
    application). *)
Definition lower (c : ascii) : ascii :=
  let n := nat_of_ascii c in
  if ((65 <=? n) && (n <=? 90))%nat then ascii_of_nat (n + 32) else c.

Fixpoint toLowerCase (s : string) : string :=
  match s with
  | EmptyString => EmptyString
  | String c r => String (lower c) (toLowerCase r)
  end.

Definition same_literal (s x : string) : bool :=
  String.eqb (toLowerCase s) (toLowerCase x).

(** A route path against the segments of the request path (the part after
    the mount point, as it is sent): the parameters when every piece
    matches. *)
Fixpoint matches (pattern : list Segment) (path : list string)
    : option (list (string * string)) :=
  match pattern, path with
  | [], [] => Some []
  | Lit s :: pattern', x :: path' =>
      if same_literal s x then matches pattern' path' else None
  | Param name :: pattern', x :: path' =>
      option_map (cons (name, x)) (matches pattern' path')
  | _, _ => None
  end.

(** [s.split(sep)] for a one-character separator. *)
Fixpoint split (sep : ascii) (s : string) : list string :=
  match s with
  | EmptyString => [EmptyString]
  | String c r =>
      if Ascii.eqb c sep then EmptyString :: split sep r
      else match split sep r with
           | [] => [String c EmptyString]
           | w :: ws => String c w :: ws
           end
  end.

(** What the middleware reads of a request. *)
Record Request := mkRequest {
  method : Method;
  path : list string;
  authorization : option string;
  cookie_token : option string
}.

End Http.

Section Auth.

(** [jwt.verify(token, process.env.JWT_SECRET)]: the [id] of the decoded
    payload, [None] when verification throws. *)
Variable verify : string -> option ObjectId.

(** The users collection. *)
Variable accounts : list Account.t.

(** The token [protect] extracts: from a [Bearer] authorization header
    ([split(' ')[1]]), else from the cookie. *)
Definition request_token (req : Http.Request) : option string :=
  let cookie :=
    if JS.falsy_str (Http.cookie_token req) then None
    else Http.cookie_token req in
  match Http.authorization req with
  | None => cookie
  | Some header =>
      if negb (String.eqb header "") && String.prefix "Bearer" header
      then nth_error (Http.split " " header) 1
      else cookie
  end.

(** [protect]: the value it leaves in [req.user] ([None] for [null]), or
    the 401 it answers. *)
Definition protect (req : Http.Request) : Result (option Account.t) :=
  if JS.falsy_str (request_token req) then
    Fail (ErrorResponse.mk "Not authorized to access this route" 401)
  else
    match request_token req with
    | None => Fail (ErrorResponse.mk "Not authorized to access this route" 401)
    | Some token =>
        match verify token with
        | None =>
            Fail (ErrorResponse.mk "Not authorized to access this route" 401)
        | Some id => Ok (findById Account._id id accounts)
        end
    end.

(** [authorize(...roles)]: reading [role] from a [null] user throws. *)
Definition authorize (roles : list string) (user : option Account.t)
    : Result unit :=
  match user with
  | None => Throw "TypeError: Cannot read properties of null"
  | Some u =>
      if negb (existsb (String.eqb (Account.role u)) roles) then
        Fail (ErrorResponse.mk
                ("User role " ++ Account.role u
                 ++ " is not authorized to access this route")%string 403)
      else Ok tt
  end.

(** The controllers [orderRoutes.js] mounts. *)
Inductive OrderHandler : Type :=
| h_createOrder
| h_getOrders
| h_getMyOrders
| h_getOrderById
| h_updateOrderToPaid
| h_updateOrderToDelivered
| h_updateOrderStatus
| h_getMonthlySales
| h_getOrderStats.

Inductive Middleware : Type :=
| Protect
| Authorize (roles : list string).

(** A layer of a router: [router.use(mw)], or a route of one method with
    the middleware given before its controller. *)
Inductive Layer : Type :=
| Use (mw : Middleware)
| Route (method : Http.Method) (pattern : list Http.Segment)
    (before : list Middleware) (handler : OrderHandler).

(** The layers of [orderRoutes.js], in the order of their registration. *)
Definition orderRoutes : list Layer :=
  [ Use Protect;
    Route Http.POST [] [] h_createOrder;
    Route Http.GET [] [Authorize ["admin"]] h_getOrders;
    Route Http.GET [Http.Lit "myorders"] [] h_getMyOrders;
    Route Http.GET [Http.Param "id"] [] h_getOrderById;
    Route Http.PUT [Http.Param "id"; Http.Lit "pay"] [] h_updateOrderToPaid;
    Use (Authorize ["admin"]);
    Route Http.PUT [Http.Param "id"; Http.Lit "deliver"] []
      h_updateOrderToDelivered;
    Route Http.PUT [Http.Param "id"; Http.Lit "status"] []
      h_updateOrderStatus;
    Route Http.GET [Http.Lit "monthly-sales"] [] h_getMonthlySales;
    Route Http.GET [Http.Lit "stats"] [] h_getOrderStats ].

(** Where a request ends: answered by a middleware, crashed in one,
    handed to a controller with its parameters and [req.user], or left to
    the application's 404 handler. *)
Inductive Routed : Type :=
| Answered (e : ErrorResponse.t)
| Crashed (msg : string)
| Handled (handler : OrderHandler) (params : list (string * string))
    (user : option Account.t)
| Unmatched.

Definition run_middleware (mw : Middleware) (req : Http.Request)
    (user : option Account.t) : Result (option Account.t) :=
  match mw with
  | Protect => protect req
  | Authorize roles =>
      match authorize roles user with
      | Ok _ => Ok user
      | Fail e => Fail e
      | Throw msg => Throw msg
      end
  end.

Fixpoint run_before (mws : list Middleware) (req : Http.Request)
    (user : option Account.t) : Result (option Account.t) :=
  match mws with
  | [] => Ok user
  | mw :: rest =>
      match run_middleware mw req user with
      | Ok user' => run_before rest req user'
      | Fail e => Fail e
      | Throw msg => Throw msg
      end
  end.

(** Express walks the layers in order: a [use] layer runs for every
    request; the first route whose method and path match takes the
    request, and its controller ends it. *)
Fixpoint dispatch (layers : list Layer) (req : Http.Request)
    (user : option Account.t) : Routed :=
  match layers with
  | [] => Unmatched
  | Use mw :: rest =>
      match run_middleware mw req user with
      | Ok user' => dispatch rest req user'
      | Fail e => Answered e
      | Throw msg => Crashed msg
      end
  | Route method pattern before handler :: rest =>
      if Http.Method_eqb method (Http.method req) then
        match Http.matches pattern (Http.path req) with
        | Some params =>
            match run_before before req user with
            | Ok user' => Handled handler params user'
            | Fail e => Answered e
            | Throw msg => Crashed msg
            end
        | None => dispatch rest req user
        end
      else dispatch rest req user
  end.

End Auth.

(** ** models/Product.js *)

(** The setter of [price]: [Math.round(val * 100) / 100]. *)
Definition Product_set_price (val : Q) : Q :=
  inject_Z (Qfloor (val * 100 + (1 # 2))) / 100.

Module Reviewed.
(** The paths of a product that the rating virtual and the save hook read
    and write: the ratings of its reviews, in order, and the two stored
    figures. *)
Record t := mk {
  reviews : list Q;
  ratings : Q;
  numOfReviews : nat
}.
End Reviewed.

(** [reviews.reduce((acc, item) => item.rating + acc, 0)] *)
Definition rating_sum (reviews : list Q) : Q :=
  fold_left (fun acc rating => rating + acc) reviews 0.

(** The virtual [averageRating]. *)
Definition averageRating (this : Reviewed.t) : Q :=
  if (List.length (Reviewed.reviews this) =? 0)%nat then 0
  else rating_sum (Reviewed.reviews this)
       / inject_Z (Z.of_nat (List.length (Reviewed.reviews this))).

(** The hook [pre('save')] of a product: 'Update the ratings and
    numOfReviews when a review is added'. *)
Definition update_ratings (this : Reviewed.t) : Reviewed.t :=
  if (0 <? List.length (Reviewed.reviews this))%nat then
    Reviewed.mk (Reviewed.reviews this)
      (rating_sum (Reviewed.reviews this)
       / inject_Z (Z.of_nat (List.length (Reviewed.reviews this))))
      (List.length (Reviewed.reviews this))
  else this.

(** ** Further quantities the statements speak of *)

(** The tax of the specification: the declared [taxPrice] whenever one is
    provided, 15% of [itemsPrice] rounded to cents only when none is. *)
Definition tax_as_specified (taxPrice : option Q) (itemsPrice : Q) : Q :=
  match taxPrice with
  | Some t => t
  | None => JS.Number_toFixed2 (0.15 * itemsPrice)
  end.

(** The shipping of the specification: the declared [shippingPrice]
    whenever one is provided. *)
Definition shipping_as_specified (shippingPrice : option Q) (itemsPrice : Q)
    : Q :=
  match shippingPrice with
  | Some s => s
  | None => if negb (Qle_bool itemsPrice 100) then 0 else 10
  end.

Definition digit (c : ascii) : option Z :=
  match c with
  | "0"%char => Some 0%Z | "1"%char => Some 1%Z | "2"%char => Some 2%Z
  | "3"%char => Some 3%Z | "4"%char => Some 4%Z | "5"%char => Some 5%Z
  | "6"%char => Some 6%Z | "7"%char => Some 7%Z | "8"%char => Some 8%Z
  | "9"%char => Some 9%Z
  | _ => None
  end.

(** The number a string of digits with at most one point stands for;
    [n] over [d] is the part read so far. *)
Fixpoint fixed_notation (s : string) (n : Z) (d : positive) (point : bool)
    : option Q :=
  match s with
  | EmptyString => Some (n # d)
  | String c r =>
      if Ascii.eqb c "."%char then
        if point then None else fixed_notation r n d true
      else
        match digit c with
        | Some k =>
            fixed_notation r (10 * n + k)%Z
              (if point then (10 * d)%positive else d) point
        | None => None
        end
  end.

(** The number a declared [totalPrice] denotes: the number itself, or
    the number a string in fixed notation stands for. *)
Definition declared_number (v : JS.value) : option Q :=
  match v with
  | JS.Num q => Some q
  | JS.Str s => fixed_notation s 0%Z 1%positive false
  | JS.Undefined => None
  end.

(** A validation step of the specification's checkout fails: no order
    items; a product id that does not resolve; a product with less stock
    than the quantity ordered; the declared unit prices times quantities
    not adding up to the declared [itemsPrice]; or [itemsPrice] plus tax
    plus shipping not being the declared [totalPrice]. *)
Definition validation_step_fails (body : CreateOrderBody.t) (db : DB)
    : Prop :=
  CreateOrderBody.orderItems body = []
  \/ (exists item,
         In item (CreateOrderBody.orderItems body)
         /\ findById Product._id (OrderItemReq.product item) (products db)
            = None)
  \/ (exists item product,
         In item (CreateOrderBody.orderItems body)
         /\ findById Product._id (OrderItemReq.product item) (products db)
            = Some product
         /\ (Product.stock product < OrderItemReq.quantity item)%Z)
  \/ ~ (declared_items_total (CreateOrderBody.orderItems body)
        == CreateOrderBody.itemsPrice body)%Q
  \/ ~ (exists total,
          declared_number (CreateOrderBody.totalPrice body) = Some total
          /\ (CreateOrderBody.itemsPrice body
              + tax_as_specified (CreateOrderBody.taxPrice body)
                  (CreateOrderBody.itemsPrice body)
              + shipping_as_specified (CreateOrderBody.shippingPrice body)
                  (CreateOrderBody.itemsPrice body)
              == total)%Q).

(** Two states of an order that differ at most in what a status or
    payment update may write: the id, the owner, the items, the shipping
    and payment blocks, the four prices and the creation date agree, and
    an order number, once given, stays. *)
Definition same_order_content (a b : Order.t) : Prop :=
  Order._id b = Order._id a
  /\ Order.user b = Order.user a
  /\ Order.orderItems b = Order.orderItems a
  /\ Order.shippingInfo b = Order.shippingInfo a
  /\ Order.paymentInfo b = Order.paymentInfo a
  /\ Order.itemsPrice b = Order.itemsPrice a
  /\ Order.taxPrice b = Order.taxPrice a
  /\ Order.shippingPrice b = Order.shippingPrice a
  /\ Order.totalPrice b = Order.totalPrice a
  /\ Order.createdAt b = Order.createdAt a
  /\ (JS.falsy_str (Order.orderNumber a) = false ->
      Order.orderNumber b = Order.orderNumber a).

(** The sum of a list of numbers. *)
Fixpoint sum_Q (l : list Q) : Q :=
  match l with
  | [] => 0
  | x :: r => x + sum_Q r
  end.

(** Newest first. *)
Definition newer_or_same (a b : Order.t) : Prop :=
  (Order.createdAt b <= Order.createdAt a)%Z.

(** ** Cart engine *)

Lemma fold_left_line_totals (l : list CartItem.t) (acc : Q) :
  (fold_left
     (fun total item =>
        total + CartItem.price item * inject_Z (CartItem.quantity item))
     l acc
   == acc + sum_line_totals l)%Q.
Proof.
  revert acc; induction l as [|item r IH]; intros acc; simpl.
  - now rewrite Qplus_0_r.
  - rewrite IH. now rewrite Qplus_assoc.
Qed.

Lemma fold_left_quantities (l : list CartItem.t) (acc : Z) :
  fold_left (fun total item => (total + CartItem.quantity item)%Z) l acc
  = (acc + sum_quantities l)%Z.
Proof.
  revert acc; induction l as [|item r IH]; intros acc; simpl.
  - lia.
  - rewrite IH. lia.
Qed.

(** The two virtuals are the sums, for every cart. *)
Lemma totals_are_sums (c : Cart.t) :
  (Cart.totalPrice c == sum_line_totals (Cart.items c))%Q
  /\ Cart.totalItems c = sum_quantities (Cart.items c).
Proof.
  unfold Cart.totalPrice, Cart.totalItems; split.
  - rewrite fold_left_line_totals. apply Qplus_0_l.
  - now rewrite fold_left_quantities.
Qed.

Lemma findById_upsert {A : Type} (key : A -> ObjectId) (d : A) (l : list A) :
  findById key (key d) (upsert key d l) = Some d.
Proof.
  unfold findById; induction l as [|x r IH]; simpl.
  - now rewrite String.eqb_refl.
  - destruct (String.eqb (key x) (key d)) eqn:E; simpl.
    + now rewrite String.eqb_refl.
    + now rewrite E.
Qed.

(** [save] of a cart that passes validation returns the cart it stored,
    stamped with the current time. *)
Lemma Cart_save_spec (env : Env) (this : Cart.t) (db : DB) :
  Cart_valid this = true ->
  Cart_save env this db
  = (Ok (Cart.with_updatedAt (now env) this),
     with_carts
       (upsert Cart._id (Cart.with_updatedAt (now env) this) (carts db)) db).
Proof. intros V. unfold Cart_save. now rewrite V. Qed.

(** [save] of a cart that fails validation writes nothing. *)
Lemma Cart_save_invalid (env : Env) (this : Cart.t) (db : DB) :
  Cart_valid this = false ->
  Cart_save env this db
  = (Throw "ValidationError: Cart validation failed", db).
Proof. intros V. unfold Cart_save. now rewrite V. Qed.

(** A [save] that returns a cart was the save of a valid cart. *)
Lemma Cart_save_ok (env : Env) (this c' : Cart.t) (db db' : DB) :
  Cart_save env this db = (Ok c', db') ->
  c' = Cart.with_updatedAt (now env) this
  /\ db' = with_carts
             (upsert Cart._id (Cart.with_updatedAt (now env) this) (carts db))
             db
  /\ Cart_valid this = true.
Proof.
  unfold Cart_save. destruct (Cart_valid this); [|discriminate].
  intros H; injection H as <- <-. repeat split.
Qed.

(** A [save] that ends in an error has written nothing. *)
Lemma Cart_save_error (env : Env) (this : Cart.t) (db : DB) :
  is_error (fst (Cart_save env this db)) = true ->
  snd (Cart_save env this db) = db.
Proof.
  unfold Cart_save. destruct (Cart_valid this); [discriminate|reflexivity].
Qed.

Lemma Cart_save_stored (env : Env) (this c' : Cart.t) (db db' : DB) :
  Cart_save env this db = (Ok c', db') ->
  Cart.items c' = Cart.items this
  /\ findById Cart._id (Cart._id c') (carts db') = Some c'.
Proof.
  intros H; apply Cart_save_ok in H as (-> & -> & _); split.
  - reflexivity.
  - simpl carts. apply (findById_upsert Cart._id).
Qed.

(** On a document that is not populated the callbacks never throw, and
    the searches are the plain ones over the ids. *)
Lemma findIndex_unpopulated (productId : ObjectId) (l : list CartItem.t) :
  findIndex_r (CartMethods.is_product Unpopulated productId) l
  = Ok (JS.findIndex
          (fun item => String.eqb (CartItem.product item) productId) l).
Proof.
  induction l as [|x r IH]; [reflexivity|].
  cbn [findIndex_r JS.findIndex]. rewrite IH.
  unfold CartMethods.is_product, item_product_toString.
  now destruct (String.eqb (CartItem.product x) productId).
Qed.

Lemma filter_unpopulated (productId : ObjectId) (l : list CartItem.t) :
  filter_r (CartMethods.is_other_product Unpopulated productId) l
  = Ok (filter
          (fun item => negb (String.eqb (CartItem.product item) productId))
          l).
Proof.
  induction l as [|x r IH]; [reflexivity|].
  cbn [filter_r filter]. rewrite IH.
  unfold CartMethods.is_other_product, item_product_toString.
  now destruct (String.eqb (CartItem.product x) productId).
Qed.

(** On a populated document the first line examined makes the callback
    throw. *)
Lemma findIndex_populated (productId : ObjectId) (l : list CartItem.t) :
  l <> [] ->
  findIndex_r (CartMethods.is_product Populated productId) l
  = Throw "TypeError: Cannot read properties of undefined".
Proof. destruct l; [contradiction|reflexivity]. Qed.

Lemma filter_populated (productId : ObjectId) (l : list CartItem.t) :
  l <> [] ->
  filter_r (CartMethods.is_other_product Populated productId) l
  = Throw "TypeError: Cannot read properties of undefined".
Proof. destruct l; [contradiction|reflexivity]. Qed.

Lemma addItem_unfold (env : Env) (productId : ObjectId) (quantity : Z)
    (this : Cart.t) (db : DB) :
  addItem env productId quantity this db
  = match findById Product._id productId (products db) with
    | None => (Throw "Product not found", db)
    | Some product =>
        if (Product.stock product <? quantity)%Z
        then (Throw "Not enough stock available", db)
        else
          Cart_save env
            (Cart.with_items
               match
                 JS.findIndex
                   (fun item => String.eqb (CartItem.product item) productId)
                   (Cart.items this)
               with
               | Some i =>
                   JS.update_at i
                     (fun item =>
                        CartItem.with_quantity
                          (CartItem.quantity item + quantity)%Z item)
                     (Cart.items this)
               | None =>
                   Cart.items this ++
                     [CartItem.mk productId (Product.name product)
                        (Product.price product)
                        (first_image_url (Product.images product)) quantity]
               end this) db
    end.
Proof.
  unfold addItem, CartMethods.addItem, bind, get, lift, throw; simpl.
  destruct (findById Product._id productId (products db)) as [product|];
    [|reflexivity].
  destruct (Product.stock product <? quantity)%Z; [reflexivity|].
  now rewrite findIndex_unpopulated.
Qed.

Lemma removeItem_unfold (env : Env) (productId : ObjectId) (this : Cart.t)
    (db : DB) :
  removeItem env productId this db
  = Cart_save env
      (Cart.with_items
         (filter
            (fun item => negb (String.eqb (CartItem.product item) productId))
            (Cart.items this)) this) db.
Proof.
  unfold removeItem, CartMethods.removeItem, bind, lift.
  now rewrite filter_unpopulated.
Qed.

Lemma updateItemQuantity_unfold (env : Env) (productId : ObjectId)
    (quantity : Z) (this : Cart.t) (db : DB) :
  updateItemQuantity env productId quantity this db
  = if (quantity <? 1)%Z then removeItem env productId this db
    else
      Cart_save env
        (Cart.with_items
           match
             JS.findIndex
               (fun item => String.eqb (CartItem.product item) productId)
               (Cart.items this)
           with
           | Some i => JS.update_at i (CartItem.with_quantity quantity)
                         (Cart.items this)
           | None => Cart.items this
           end this) db.
Proof.
  unfold updateItemQuantity, CartMethods.updateItemQuantity, removeItem.
  destruct (quantity <? 1)%Z; [reflexivity|].
  unfold bind, lift. now rewrite findIndex_unpopulated.
Qed.

Lemma addItem_saves (env : Env) (productId : ObjectId) (quantity : Z)
    (this c' : Cart.t) (db db' : DB) :
  addItem env productId quantity this db = (Ok c', db') ->
  exists items, Cart_save env (Cart.with_items items this) db = (Ok c', db').
Proof.
  rewrite addItem_unfold.
  destruct (findById Product._id productId (products db)) as [product|];
    [|discriminate].
  destruct (Product.stock product <? quantity)%Z; [discriminate|].
  intros H; eexists; exact H.
Qed.

Lemma updateItemQuantity_saves (env : Env) (productId : ObjectId)
    (quantity : Z) (this c' : Cart.t) (db db' : DB) :
  updateItemQuantity env productId quantity this db = (Ok c', db') ->
  exists items, Cart_save env (Cart.with_items items this) db = (Ok c', db').
Proof.
  rewrite updateItemQuantity_unfold, removeItem_unfold.
  destruct (quantity <? 1)%Z; intros H; eexists; exact H.
Qed.

(** C5.  After any cart mutation (add, update quantity, remove, clear)
    that returns a cart, the derived [totalPrice] of that cart is the sum
    over its line items of the item's own stored price times its quantity,
    its [totalItems] is the sum of the quantities, and the cart found in
    the store is that same cart. *)
Theorem cart_totals_after_mutation (env : Env) (this c' : Cart.t)
    (db db' : DB) :
  (exists productId quantity,
      addItem env productId quantity this db = (Ok c', db'))
  \/ (exists productId quantity,
         updateItemQuantity env productId quantity this db = (Ok c', db'))
  \/ (exists productId, removeItem env productId this db = (Ok c', db'))
  \/ clearCart env this db = (Ok c', db') ->
  (Cart.totalPrice c' == sum_line_totals (Cart.items c'))%Q
  /\ Cart.totalItems c' = sum_quantities (Cart.items c')
  /\ findById Cart._id (Cart._id c') (carts db') = Some c'.
Proof.
  intros H.
  assert (S : exists items,
             Cart_save env (Cart.with_items items this) db = (Ok c', db')).
  { destruct H as [(p & q & H)|[(p & q & H)|[(p & H)|H]]].
    - eapply addItem_saves; eassumption.
    - eapply updateItemQuantity_saves; eassumption.
    - rewrite removeItem_unfold in H. eexists; exact H.
    - eexists; exact H. }
  destruct S as (items & S). apply Cart_save_stored in S as [_ S].
  destruct (totals_are_sums c') as [P I]. auto.
Qed.

Lemma cart_totals_after_mutation_witness :
  let added := Cart.mk "c1" "u1" [CartItem.mk "A" "Widget" 10 "widget.jpg" 3]
                 0 1000 in
  let merged :=
    Cart.mk "c1" "u1"
      [CartItem.mk "A" "Widget" 10 "widget.jpg" 5;
       CartItem.mk "B" "Gadget" 2.5 "gadget.jpg" 4] 0 2000 in
  ((Cart.totalPrice added == sum_line_totals (Cart.items added))%Q
   /\ Cart.totalItems added = sum_quantities (Cart.items added)
   /\ findById Cart._id (Cart._id added)
        (carts (mkDB [Scenario.productA] [added] [])) = Some added)
  /\ ((Cart.totalPrice merged == sum_line_totals (Cart.items merged))%Q
      /\ Cart.totalItems merged = sum_quantities (Cart.items merged)
      /\ findById Cart._id (Cart._id merged)
           (carts (mkDB [Scenario.productA] [merged] [])) = Some merged)
  /\ (Cart.totalPrice merged == 60)%Q
  /\ Cart.totalItems merged = 9%Z.
Proof.
  intros added merged. split; [|split; [|split; reflexivity]].
  - apply (cart_totals_after_mutation Scenario.env1 Scenario.emptyCart added
             (mkDB [Scenario.productA] [Scenario.emptyCart] [])
             (mkDB [Scenario.productA] [added] [])).
    left. exists "A", 3%Z. reflexivity.
  - apply (cart_totals_after_mutation Scenario.env2
             (Cart.mk "c1" "u1"
                [CartItem.mk "A" "Widget" 10 "widget.jpg" 3;
                 CartItem.mk "B" "Gadget" 2.5 "gadget.jpg" 4] 0 1000)
             merged
             (mkDB [Scenario.productA]
                [Cart.mk "c1" "u1"
                   [CartItem.mk "A" "Widget" 10 "widget.jpg" 3;
                    CartItem.mk "B" "Gadget" 2.5 "gadget.jpg" 4] 0 1000] [])
             (mkDB [Scenario.productA] [merged] [])).
    left. exists "A", 2%Z. reflexivity.
Defined.

Lemma findIndex_first {A : Type} (p : A -> bool) (l1 l2 : list A) (x : A) :
  (forall y, In y l1 -> p y = false) -> p x = true ->
  JS.findIndex p (l1 ++ x :: l2) = Some (List.length l1).
Proof.
  intros N P; induction l1 as [|y r IH]; simpl.
  - now rewrite P.
  - rewrite (N y (or_introl eq_refl)), IH; [reflexivity|].
    intros z Hz; apply N; now right.
Qed.

Lemma findIndex_none {A : Type} (p : A -> bool) (l : list A) :
  (forall y, In y l -> p y = false) -> JS.findIndex p l = None.
Proof.
  intros N; induction l as [|y r IH]; simpl; [reflexivity|].
  rewrite (N y (or_introl eq_refl)), IH; [reflexivity|].
  intros z Hz; apply N; now right.
Qed.

Lemma update_at_middle {A : Type} (f : A -> A) (l1 l2 : list A) (x : A) :
  JS.update_at (List.length l1) f (l1 ++ x :: l2) = l1 ++ f x :: l2.
Proof. induction l1 as [|y r IH]; simpl; [reflexivity|now rewrite IH]. Qed.

Lemma filter_none {A : Type} (p : A -> bool) (l : list A) :
  (forall y, In y l -> p y = false) -> filter p l = [].
Proof.
  intros N; induction l as [|y r IH]; simpl; [reflexivity|].
  rewrite (N y (or_introl eq_refl)); apply IH.
  intros z Hz; apply N; now right.
Qed.

Lemma other_product (productId : ObjectId) (l : list CartItem.t) :
  (forall x, In x l -> CartItem.product x <> productId) ->
  forall y, In y l -> String.eqb (CartItem.product y) productId = false.
Proof. intros N y Hy; apply String.eqb_neq; now apply N. Qed.

(** In a cart without two lines for one product, the lines around a
    line for [productId] are for other products. *)
Lemma lines_around (productId : ObjectId) (l1 l2 : list CartItem.t)
    (item : CartItem.t) :
  NoDup (map CartItem.product (l1 ++ item :: l2)) ->
  CartItem.product item = productId ->
  forall x, In x (l1 ++ l2) -> CartItem.product x <> productId.
Proof.
  rewrite map_app; simpl; intros N <- x I E.
  apply NoDup_remove_2 in N; apply N.
  rewrite <- map_app, <- E. now apply in_map.
Qed.

Lemma update_at_keeps_products (i : nat) (q : Z) (l : list CartItem.t) :
  map CartItem.product (JS.update_at i (CartItem.with_quantity q) l)
  = map CartItem.product l.
Proof.
  revert i; induction l as [|x r IH]; intros [|i]; simpl; try reflexivity.
  now rewrite IH.
Qed.

Lemma update_at_sum_keeps_products (i : nat) (q : Z) (l : list CartItem.t) :
  map CartItem.product
    (JS.update_at i
       (fun item =>
          CartItem.with_quantity (CartItem.quantity item + q)%Z item) l)
  = map CartItem.product l.
Proof.
  revert i; induction l as [|x r IH]; intros [|i]; simpl; try reflexivity.
  now rewrite IH.
Qed.

Lemma filter_keeps_lines_unique (p : CartItem.t -> bool)
    (l : list CartItem.t) :
  NoDup (map CartItem.product l) ->
  NoDup (map CartItem.product (filter p l)).
Proof.
  induction l as [|x r IH]; simpl; intros N; [constructor|].
  apply NoDup_cons_iff in N as [Fresh N'].
  destruct (p x); simpl; [|now apply IH].
  apply NoDup_cons; [|now apply IH].
  intros I; apply Fresh.
  apply in_map_iff in I as (y & E & I). apply filter_In in I as [I _].
  rewrite <- E; now apply in_map.
Qed.

Lemma findIndex_none_inv {A : Type} (p : A -> bool) (l : list A) :
  JS.findIndex p l = None -> forall y, In y l -> p y = false.
Proof.
  induction l as [|x r IH]; simpl; [intros _ y []|].
  destruct (p x) eqn:P; [discriminate|].
  destruct (JS.findIndex p r); [discriminate|].
  intros _ y [<-|I]; [exact P|now apply IH].
Qed.

Lemma unique_after_push (l : list ObjectId) (k : ObjectId) :
  NoDup l -> ~ In k l -> NoDup (l ++ [k]).
Proof.
  induction l as [|x r IH]; simpl; intros N Fresh.
  - constructor; [intros []|constructor].
  - apply NoDup_cons_iff in N as [Nx Nr]. apply NoDup_cons.
    + intros I; apply in_app_or in I as [I|[<-|[]]]; [now apply Nx|].
      apply Fresh; now left.
    + apply IH; [exact Nr|]. intros I; apply Fresh; now right.
Qed.

(** X1.  The invariant of the data model, one line per product, is kept by
    every cart mutation. *)
Lemma cart_mutation_keeps_lines_unique (env : Env) (this c' : Cart.t)
    (db db' : DB) :
  NoDup (map CartItem.product (Cart.items this)) ->
  (exists productId quantity,
      addItem env productId quantity this db = (Ok c', db'))
  \/ (exists productId quantity,
         updateItemQuantity env productId quantity this db = (Ok c', db'))
  \/ (exists productId, removeItem env productId this db = (Ok c', db'))
  \/ clearCart env this db = (Ok c', db') ->
  NoDup (map CartItem.product (Cart.items c')).
Proof.
  intros N [(p & q & H)|[(p & q & H)|[(p & H)|H]]].
  - rewrite addItem_unfold in H.
    destruct (findById Product._id p (products db)) as [product|];
      [|discriminate].
    destruct (Product.stock product <? q)%Z; [discriminate|].
    destruct (JS.findIndex _ (Cart.items this)) as [i|] eqn:F;
      apply Cart_save_ok in H as (-> & _ & _); simpl.
    + now rewrite update_at_sum_keeps_products.
    + rewrite map_app; simpl. apply unique_after_push; [exact N|].
      pose proof (findIndex_none_inv _ _ F) as O.
      intros I; apply in_map_iff in I as (y & E & I).
      apply O in I. rewrite E, String.eqb_refl in I. discriminate.
  - rewrite updateItemQuantity_unfold, removeItem_unfold in H.
    destruct (q <? 1)%Z; apply Cart_save_ok in H as (-> & _ & _); simpl.
    + now apply filter_keeps_lines_unique.
    + destruct (JS.findIndex _ (Cart.items this)); [|exact N].
      now rewrite update_at_keeps_products.
  - rewrite removeItem_unfold in H; apply Cart_save_ok in H as (-> & _ & _).
    simpl. now apply filter_keeps_lines_unique.
  - unfold clearCart in H; apply Cart_save_ok in H as (-> & _ & _).
    simpl. constructor.
Qed.

(** C9.  For every cart and product id, [updateItemQuantity] with a
    quantity below 1 (0 in particular) gives exactly the result of
    [removeItem]: the same returned cart and the same stored state. *)
Theorem updateItemQuantity_below_one_is_removeItem (env : Env)
    (productId : ObjectId) (quantity : Z) (this : Cart.t) (db : DB) :
  (quantity < 1)%Z ->
  updateItemQuantity env productId quantity this db
  = removeItem env productId this db.
Proof.
  intros H; rewrite updateItemQuantity_unfold.
  apply Z.ltb_lt in H; now rewrite H.
Qed.

Lemma updateItemQuantity_below_one_is_removeItem_witness :
  updateItemQuantity Scenario.env2 "A" 0 Scenario.cartA3 Scenario.shop
  = removeItem Scenario.env2 "A" Scenario.cartA3 Scenario.shop.
Proof.
  apply updateItemQuantity_below_one_is_removeItem. lia.
Defined.

(** ** Checkout: validation *)

Lemma find_filter {A : Type} (p q : A -> bool) (l : list A) :
  (forall x, p x = true -> q x = true) -> find p (filter q l) = find p l.
Proof.
  intros I; induction l as [|x r IH]; simpl; [reflexivity|].
  destruct (q x) eqn:Q; simpl.
  - now rewrite IH.
  - destruct (p x) eqn:P; [|exact IH].
    apply I in P; congruence.
Qed.

(** Looking a requested id up among the fetched products is looking it up
    in the collection. *)
Lemma findById_found (productIds : list ObjectId) (l : list Product.t)
    (id : ObjectId) :
  In id productIds ->
  findById Product._id id (Product_find_in productIds l)
  = findById Product._id id l.
Proof.
  intros I; apply find_filter; intros x E.
  apply String.eqb_eq in E; apply existsb_exists.
  exists id; split; [exact I|]. now apply String.eqb_eq.
Qed.

(** The fetched products carry pairwise different ids when the
    collection does. *)
Lemma found_ids_unique (productIds : list ObjectId) (l : list Product.t) :
  NoDup (map Product._id l) ->
  NoDup (map Product._id (Product_find_in productIds l)).
Proof.
  unfold Product_find_in; induction l as [|p r IH]; simpl; intros N.
  - constructor.
  - apply NoDup_cons_iff in N as [Fresh N'].
    destruct (existsb (String.eqb (Product._id p)) productIds); simpl;
      [|now apply IH].
    apply NoDup_cons; [|now apply IH].
    intros I; apply Fresh.
    apply in_map_iff in I as (q & E & I).
    apply filter_In in I as [I _].
    rewrite <- E; now apply in_map.
Qed.

Lemma findById_none_not_key {A : Type} (key : A -> ObjectId) (id : ObjectId)
    (l : list A) :
  findById key id l = None -> ~ In id (map key l).
Proof.
  intros F I; apply in_map_iff in I as (x & E & I).
  apply (find_none _ _ F) in I. rewrite E, String.eqb_refl in I.
  discriminate.
Qed.

(** The count check of [createOrder]: when ids are unique in the
    collection and as many products come back as items were sent, every
    requested id resolved. *)
Lemma count_match_resolves (productIds : list ObjectId)
    (l : list Product.t) :
  NoDup (map Product._id l) ->
  List.length (Product_find_in productIds l) = List.length productIds ->
  forall id, In id productIds ->
    exists p, findById Product._id id l = Some p.
Proof.
  intros N L id I.
  destruct (findById Product._id id l) as [p|] eqn:F; [now exists p|].
  exfalso.
  rewrite <- (findById_found productIds l id I) in F.
  apply findById_none_not_key in F.
  set (ks := map Product._id (Product_find_in productIds l)) in *.
  assert (Nk : NoDup ks) by (apply found_ids_unique; exact N).
  assert (Ik : incl ks (remove string_dec id productIds)).
  { intros k Hk. apply in_in_remove; [intros ->; contradiction|].
    apply in_map_iff in Hk as (x & <- & Hx).
    apply filter_In in Hx as [_ Hx].
    apply existsb_exists in Hx as (k & Hk & E).
    apply String.eqb_eq in E; now rewrite E. }
  pose proof (NoDup_incl_length Nk Ik) as Le.
  pose proof (remove_length_lt string_dec productIds id I) as Lt.
  unfold ks in Le; rewrite length_map in Le. unfold ObjectId in *. lia.
Qed.

(** The loop never writes to the database. *)
Lemma check_stock_and_prices_db (found : list Product.t)
    (orderItems : list OrderItemReq.t) (acc : Q) (details : list OrderItem.t)
    (db : DB) :
  snd (check_stock_and_prices found orderItems acc details db) = db.
Proof.
  revert acc details; induction orderItems as [|item r IH];
    intros acc details; simpl; [reflexivity|].
  destruct (findById Product._id (OrderItemReq.product item) found)
    as [p|]; [|reflexivity].
  destruct (Product.stock p <? OrderItemReq.quantity item)%Z;
    [reflexivity|apply IH].
Qed.

(** When the loop completes, every item had enough stock and the
    accumulated price is the declared sum. *)
Lemma check_stock_and_prices_ok (found : list Product.t)
    (orderItems : list OrderItemReq.t) (acc calc : Q)
    (details details' : list OrderItem.t) (db db' : DB) :
  check_stock_and_prices found orderItems acc details db
  = (Ok (calc, details'), db') ->
  (forall item, In item orderItems ->
     exists p, findById Product._id (OrderItemReq.product item) found = Some p
               /\ (OrderItemReq.quantity item <= Product.stock p)%Z)
  /\ (calc == acc + declared_items_total orderItems)%Q.
Proof.
  revert acc details; induction orderItems as [|item r IH];
    intros acc details; simpl.
  - unfold ret; intros H; injection H as <- _ _; split.
    + intros item [].
    + now rewrite Qplus_0_r.
  - destruct (findById Product._id (OrderItemReq.product item) found)
      as [p|] eqn:F; [|discriminate].
    destruct (Product.stock p <? OrderItemReq.quantity item)%Z eqn:S;
      [discriminate|].
    intros H; apply IH in H as [A C]; split.
    + intros x [<-|I]; [|now apply A].
      exists p; split; [exact F|]. now apply Z.ltb_ge.
    + rewrite C. now rewrite Qplus_assoc.
Qed.

(** When every item resolves among the fetched products, the loop either
    completes or answers 400; it does not throw. *)
Lemma check_stock_and_prices_total (found : list Product.t)
    (orderItems : list OrderItemReq.t) (acc : Q) (details : list OrderItem.t)
    (db : DB) :
  (forall item, In item orderItems ->
     exists p, findById Product._id (OrderItemReq.product item) found
               = Some p) ->
  (exists r, fst (check_stock_and_prices found orderItems acc details db)
             = Ok r)
  \/ (exists e, fst (check_stock_and_prices found orderItems acc details db)
                = Fail e /\ ErrorResponse.statusCode e = 400%Z).
Proof.
  revert acc details; induction orderItems as [|item r IH];
    intros acc details R; simpl.
  - left; eexists; reflexivity.
  - destruct (R item (or_introl eq_refl)) as (p & ->).
    destruct (Product.stock p <? OrderItemReq.quantity item)%Z.
    + right; eexists; split; reflexivity.
    + apply IH; intros x I; apply R; now right.
Qed.

(** With ids unique in the product collection: a checkout that fails a
    check of the controller (no order items; an item whose product id
    does not resolve; an item asking more than its product's stock; the
    sum of declared unit price times quantity differing from the declared
    [itemsPrice]; the computed total, as the controller computes and
    compares it, differing from the declared [totalPrice]) is answered
    with an error response, 400 or 404, and the database is left as it
    was. *)
Lemma createOrder_checks_answer (default_is_modified : bool)
    (env : Env) (user : User.t) (body : CreateOrderBody.t) (db : DB) :
  NoDup (map Product._id (products db)) ->
  CreateOrderBody.orderItems body = []
  \/ (exists item,
         In item (CreateOrderBody.orderItems body)
         /\ findById Product._id (OrderItemReq.product item) (products db)
            = None)
  \/ (exists item product,
         In item (CreateOrderBody.orderItems body)
         /\ findById Product._id (OrderItemReq.product item) (products db)
            = Some product
         /\ (Product.stock product < OrderItemReq.quantity item)%Z)
  \/ ~ (declared_items_total (CreateOrderBody.orderItems body)
        == CreateOrderBody.itemsPrice body)%Q
  \/ JS.strict_neq
       (JS.Str (calculatedTotalPrice (CreateOrderBody.taxPrice body)
                  (CreateOrderBody.shippingPrice body)
                  (CreateOrderBody.itemsPrice body)))
       (CreateOrderBody.totalPrice body) = true ->
  exists e,
    createOrder default_is_modified env user body db = (Fail e, db)
    /\ (ErrorResponse.statusCode e = 400 \/ ErrorResponse.statusCode e = 404)%Z.
Proof.
  intros N H. unfold createOrder.
  destruct (CreateOrderBody.orderItems body) as [|i0 r0] eqn:Items.
  { eexists; split; [reflexivity|now left]. }
  rewrite <- Items in *.
  replace (List.length (CreateOrderBody.orderItems body) =? 0)%nat with false
    by (rewrite Items; reflexivity).
  unfold bind at 1, get at 1.
  set (ids := map OrderItemReq.product (CreateOrderBody.orderItems body)).
  destruct (negb (List.length (Product_find_in ids (products db))
                  =? List.length (CreateOrderBody.orderItems body))%nat)
    eqn:Count.
  { eexists; split; [reflexivity|now right]. }
  apply negb_false_iff, Nat.eqb_eq in Count.
  assert (R : forall item, In item (CreateOrderBody.orderItems body) ->
            exists p, findById Product._id (OrderItemReq.product item)
                        (products db) = Some p).
  { intros item I. apply (count_match_resolves ids); [exact N| |].
    - unfold ids; now rewrite length_map.
    - unfold ids; now apply in_map. }
  assert (Fd : forall item, In item (CreateOrderBody.orderItems body) ->
            findById Product._id (OrderItemReq.product item)
              (Product_find_in ids (products db))
            = findById Product._id (OrderItemReq.product item) (products db)).
  { intros item I; apply findById_found; unfold ids; now apply in_map. }
  unfold bind at 1.
  pose proof (check_stock_and_prices_db (Product_find_in ids (products db))
                (CreateOrderBody.orderItems body) 0%Q [] db) as Db.
  destruct (check_stock_and_prices_total (Product_find_in ids (products db))
              (CreateOrderBody.orderItems body) 0%Q [] db) as [(r & L)|(e & L & C)].
  { intros item I; rewrite (Fd item I); now apply R. }
  2:{ destruct (check_stock_and_prices _ _ _ _ db) as [res db'].
      simpl in *; subst. exists e; split; [reflexivity|now left]. }
  destruct (check_stock_and_prices _ _ _ _ db) as [res db'] eqn:Loop.
  simpl in Db, L; subst res db'. destruct r as [calc details].
  apply check_stock_and_prices_ok in Loop as [Stock Sum].
  rewrite Qplus_0_l in Sum.
  destruct (JS.strict_neq (JS.Num calc)
              (JS.Num (CreateOrderBody.itemsPrice body))) eqn:Price.
  { eexists; split; [reflexivity|now left]. }
  destruct (JS.strict_neq _ (CreateOrderBody.totalPrice body)) eqn:Total.
  { eexists; split; [reflexivity|now left]. }
  exfalso. destruct H as [H|[(item & I & F)|[(item & p & I & F & Lt)|[H|H]]]].
  - rewrite Items in H; discriminate.
  - destruct (R item I) as (p & F'); congruence.
  - destruct (Stock item I) as (p' & F' & Le).
    rewrite (Fd item I) in F'. assert (p' = p) by congruence. subst; lia.
  - apply H. rewrite <- Sum.
    apply negb_false_iff in Price. now apply Qeq_bool_eq in Price.
  - congruence.
Qed.

(** ** Frame rules of the request monad *)

Section Frame.
Context {X : Type} (f : DB -> X).

Lemma preserves_ret {A : Type} (a : A) : preserves f (ret a).
Proof. intros db; reflexivity. Qed.

Lemma preserves_next {A : Type} (msg : string) (code : Z) :
  preserves f (@next A msg code).
Proof. intros db; reflexivity. Qed.

Lemma preserves_throw {A : Type} (msg : string) : preserves f (@throw A msg).
Proof. intros db; reflexivity. Qed.

Lemma preserves_get : preserves f get.
Proof. intros db; reflexivity. Qed.

Lemma preserves_bind {A B : Type} (m : M A) (k : A -> M B) :
  preserves f m -> (forall a, preserves f (k a)) -> preserves f (bind m k).
Proof.
  intros Hm Hk db; unfold bind.
  specialize (Hm db). destruct (m db) as [[a|e|msg] db']; simpl in *; auto.
  now rewrite (Hk a db').
Qed.

Lemma preserves_bind_error {A B : Type} (m : M A) (k : A -> M B) :
  never_ok m -> preserves f m -> preserves f (bind m k).
Proof.
  intros Hn Hm db; unfold bind.
  specialize (Hm db); specialize (Hn db).
  destruct (m db) as [[a|e|msg] db']; simpl in *; auto; discriminate.
Qed.

End Frame.

Lemma never_ok_next {A : Type} (msg : string) (code : Z) :
  never_ok (@next A msg code).
Proof. intros db; reflexivity. Qed.

Lemma never_ok_throw {A : Type} (msg : string) : never_ok (@throw A msg).
Proof. intros db; reflexivity. Qed.

Lemma never_ok_bind_l {A B : Type} (m : M A) (k : A -> M B) :
  never_ok m -> never_ok (bind m k).
Proof.
  intros Hm db; unfold bind. specialize (Hm db).
  destruct (m db) as [[a|e|msg] db']; simpl in *; auto; discriminate.
Qed.

Lemma never_ok_bind_r {A B : Type} (m : M A) (k : A -> M B) :
  (forall a, never_ok (k a)) -> never_ok (bind m k).
Proof.
  intros Hk db; unfold bind.
  destruct (m db) as [[a|e|msg] db']; simpl; auto. apply Hk.
Qed.

Create HintDb frame.
#[local] Hint Resolve preserves_ret preserves_next preserves_throw
  preserves_get never_ok_next never_ok_throw : frame.

Lemma check_stock_and_prices_preserves {X : Type} (f : DB -> X)
    (found : list Product.t) (orderItems : list OrderItemReq.t) (acc : Q)
    (details : list OrderItem.t) :
  preserves f (check_stock_and_prices found orderItems acc details).
Proof. intros db; now rewrite check_stock_and_prices_db. Qed.

Lemma Cart_save_preserves_products (env : Env) (this : Cart.t) :
  preserves products (Cart_save env this).
Proof. intros db; unfold Cart_save; now destruct (Cart_valid this). Qed.

Lemma Cart_save_preserves_orders (env : Env) (this : Cart.t) :
  preserves orders (Cart_save env this).
Proof. intros db; unfold Cart_save; now destruct (Cart_valid this). Qed.

(** ** Saving an order *)

Lemma Order_save_valid (env : Env) (this : OrderDoc.t) (db : DB) :
  Order_valid (OrderDoc.doc this) = true ->
  Order_save env this db = Order_hooks_and_write env this db.
Proof. intros V; unfold Order_save; now rewrite V. Qed.

(** A document that fails validation is refused before any hook runs:
    nothing is written. *)
Lemma Order_save_invalid (env : Env) (this : OrderDoc.t) (db : DB) :
  Order_valid (OrderDoc.doc this) = false ->
  Order_save env this db
  = (Throw "ValidationError: Order validation failed", db).
Proof. intros V; unfold Order_save; now rewrite V. Qed.

(** The decrements the second hook sends for an order's items. *)
Lemma Order_hooks_products (env : Env) (this : OrderDoc.t) (db : DB) :
  products (snd (Order_hooks_and_write env this db))
  = if OrderDoc.orderStatus_modified this
       && String.eqb (Order.orderStatus (OrderDoc.doc this)) "Processing"
    then
      bulkWrite
        (map (fun item =>
                mkOp (OrderItem.product item) (- OrderItem.quantity item)%Z)
           (Order.orderItems (OrderDoc.doc this)))
        (products db)
    else products db.
Proof.
  unfold Order_hooks_and_write, generate_orderNumber, update_product_stock,
    add_tracking_update, bind, get, put, ret, throw.
  destruct this as [o isNew m sa pr dl]; simpl.
  destruct (JS.falsy_str (Order.orderNumber o)); simpl;
    destruct m; simpl;
    destruct (String.eqb (Order.orderStatus o) "Processing"); simpl;
    destruct (Order.shippingInfo o); reflexivity.
Qed.

(** The products after a save: the decrements of the second hook, when
    the document passes validation, its status is modified and it is
    'Processing'. *)
Lemma Order_save_products (env : Env) (this : OrderDoc.t) (db : DB) :
  products (snd (Order_save env this db))
  = if Order_valid (OrderDoc.doc this)
       && (OrderDoc.orderStatus_modified this
           && String.eqb (Order.orderStatus (OrderDoc.doc this)) "Processing")
    then
      bulkWrite
        (map (fun item =>
                mkOp (OrderItem.product item) (- OrderItem.quantity item)%Z)
           (Order.orderItems (OrderDoc.doc this)))
        (products db)
    else products db.
Proof.
  destruct (Order_valid (OrderDoc.doc this)) eqn:V.
  - rewrite Order_save_valid by exact V. apply Order_hooks_products.
  - now rewrite Order_save_invalid by exact V.
Qed.

Lemma Order_save_preserves_carts (env : Env) (this : OrderDoc.t) :
  preserves carts (Order_save env this).
Proof.
  intros db. unfold Order_save.
  destruct (Order_valid (OrderDoc.doc this)); [|reflexivity].
  unfold Order_hooks_and_write, generate_orderNumber, update_product_stock,
    add_tracking_update, bind, get, put, ret, throw.
  destruct this as [o isNew m sa pr dl]; simpl.
  destruct (JS.falsy_str (Order.orderNumber o)); simpl;
    destruct m; simpl;
    destruct (String.eqb (Order.orderStatus o) "Processing"); simpl;
    destruct (Order.shippingInfo o); reflexivity.
Qed.

(** A save whose [orderStatus] is modified on a document without a
    shipping block stops in the third hook at the latest: nothing is
    written to the orders, and the request does not succeed. *)
Lemma Order_save_without_shippingInfo (env : Env) (this : OrderDoc.t) :
  OrderDoc.orderStatus_modified this = true ->
  Order.shippingInfo (OrderDoc.doc this) = None ->
  never_ok (Order_save env this) /\ preserves orders (Order_save env this).
Proof.
  intros Hm Hs.
  unfold Order_save, Order_hooks_and_write, generate_orderNumber,
    update_product_stock, add_tracking_update, bind, get, put, ret, throw.
  destruct this as [o isNew m sa pr dl]; simpl in *; subst m.
  split; intros db;
    destruct (Order_valid o); simpl; try reflexivity;
    destruct (JS.falsy_str (Order.orderNumber o)); simpl;
    destruct (String.eqb (Order.orderStatus o) "Processing"); simpl;
    rewrite Hs; reflexivity.
Qed.

(** ** Checkout: what a request that passes the checks does *)

(** The document [createOrder] builds has no order number, and the
    number is required: [save] refuses it, whatever else it holds. *)
Lemma new_Order_is_refused (default_is_modified : bool) (env : Env)
    (orderItems : list OrderItem.t) (user : ObjectId)
    (itemsPrice taxPrice shippingPrice totalPrice : Q)
    (trackingUpdates : list TrackingUpdate.t) (db : DB) :
  Order_save env
    (new_Order default_is_modified env orderItems user itemsPrice taxPrice
       shippingPrice totalPrice trackingUpdates) db
  = (Throw "ValidationError: Order validation failed", db).
Proof. reflexivity. Qed.

(** Walks a goal about [createOrder] through the checks, each of which
    answers an error without touching the database, down to the save of
    the new order. *)
Ltac through_validation :=
  unfold createOrder;
  destruct (List.length _ =? 0)%nat; [auto with frame|];
  first [apply preserves_bind; [auto with frame|intros db0]
        |apply never_ok_bind_r; intros db0];
  destruct (negb _); [auto with frame|];
  first [apply preserves_bind; [apply check_stock_and_prices_preserves|]
        |apply never_ok_bind_r];
  intros [calc details];
  destruct (JS.strict_neq (JS.Num calc) _); [auto with frame|];
  destruct (JS.strict_neq (JS.Str _) _); [auto with frame|].

(** No checkout succeeds. *)
Lemma createOrder_never_ok (default_is_modified : bool) (env : Env)
    (user : User.t) (body : CreateOrderBody.t) :
  never_ok (createOrder default_is_modified env user body).
Proof.
  through_validation.
  apply never_ok_bind_l. intros db. now rewrite new_Order_is_refused.
Qed.

(** No checkout writes anything. *)
Lemma createOrder_writes_nothing (default_is_modified : bool) (env : Env)
    (user : User.t) (body : CreateOrderBody.t) :
  preserves (fun db => db) (createOrder default_is_modified env user body).
Proof.
  through_validation.
  apply preserves_bind_error; intros db; now rewrite new_Order_is_refused.
Qed.

(** C2.  With ids unique in the product collection: a checkout on which
    a validation step of the specification fails (no order items; a
    product id that does not resolve; a product with less stock than the
    quantity ordered; declared unit prices times quantities not adding up
    to the declared [itemsPrice]; [itemsPrice] plus tax plus shipping,
    with a provided tax or shipping used as it is, not being the declared
    [totalPrice]) ends in an error, and the database (orders, product
    stock, carts) is left as it was.  The error is a response with status
    400 or 404 from one of the controller's checks, or, for a request
    that gets past them (a total that only disagrees because a declared
    tax or shipping of 0 was replaced), the [ValidationError] with which
    [save] refuses the new order. *)
Theorem createOrder_rejects_without_side_effects (default_is_modified : bool)
    (env : Env) (user : User.t) (body : CreateOrderBody.t) (db : DB) :
  NoDup (map Product._id (products db)) ->
  validation_step_fails body db ->
  let r := createOrder default_is_modified env user body db in
  is_error (fst r) = true
  /\ snd r = db
  /\ (fst r = Throw "ValidationError: Order validation failed"
      \/ exists e,
           fst r = Fail e
           /\ (ErrorResponse.statusCode e = 400
               \/ ErrorResponse.statusCode e = 404)%Z).
Proof.
  intros N _ r; subst r.
  split; [apply createOrder_never_ok|].
  split; [apply (createOrder_writes_nothing _ env user body db)|].
  assert (H : exists res,
             createOrder default_is_modified env user body db = (res, db)
             /\ (res = Throw "ValidationError: Order validation failed"
                 \/ exists e,
                      res = Fail e
                      /\ (ErrorResponse.statusCode e = 400
                          \/ ErrorResponse.statusCode e = 404)%Z)).
  2:{ destruct H as (res & -> & H). exact H. }
  unfold createOrder.
  destruct (CreateOrderBody.orderItems body) as [|i0 r0] eqn:Items.
  { eexists; split; [reflexivity|].
    right; eexists; split; [reflexivity|now left]. }
  rewrite <- Items in *.
  replace (List.length (CreateOrderBody.orderItems body) =? 0)%nat with false
    by (rewrite Items; reflexivity).
  unfold bind at 1, get at 1.
  set (ids := map OrderItemReq.product (CreateOrderBody.orderItems body)).
  destruct (negb (List.length (Product_find_in ids (products db))
                  =? List.length (CreateOrderBody.orderItems body))%nat)
    eqn:Count.
  { eexists; split; [reflexivity|].
    right; eexists; split; [reflexivity|now right]. }
  apply negb_false_iff, Nat.eqb_eq in Count.
  assert (R : forall item, In item (CreateOrderBody.orderItems body) ->
            exists p, findById Product._id (OrderItemReq.product item)
                        (Product_find_in ids (products db)) = Some p).
  { intros item I.
    rewrite findById_found by (unfold ids; now apply in_map).
    apply (count_match_resolves ids); [exact N| |].
    - unfold ids; now rewrite length_map.
    - unfold ids; now apply in_map. }
  unfold bind at 1.
  pose proof (check_stock_and_prices_db (Product_find_in ids (products db))
                (CreateOrderBody.orderItems body) 0%Q [] db) as Db.
  destruct (check_stock_and_prices_total (Product_find_in ids (products db))
              (CreateOrderBody.orderItems body) 0%Q [] db R)
    as [(r & L)|(e & L & C)];
    destruct (check_stock_and_prices _ _ _ _ db) as [res db'];
    simpl in L, Db; subst res db'.
  2:{ eexists; split; [reflexivity|].
      right; exists e; split; [reflexivity|now left]. }
  destruct r as [calc details].
  destruct (JS.strict_neq (JS.Num calc) _).
  { eexists; split; [reflexivity|].
    right; eexists; split; [reflexivity|now left]. }
  destruct (JS.strict_neq (JS.Str _) _).
  { eexists; split; [reflexivity|].
    right; eexists; split; [reflexivity|now left]. }
  unfold bind. rewrite new_Order_is_refused.
  eexists; split; [reflexivity|now left].
Qed.

Lemma createOrder_rejects_without_side_effects_witness :
  let r :=
    createOrder false Scenario.env2 Scenario.alice
      (CreateOrderBody.mk [OrderItemReq.mk "A" 3 10 None] None None 30
         (Some 0) (Some 0) (JS.Str "44.50"))
      Scenario.shop in
  is_error (fst r) = true
  /\ snd r = Scenario.shop
  /\ (fst r = Throw "ValidationError: Order validation failed"
      \/ exists e,
           fst r = Fail e
           /\ (ErrorResponse.statusCode e = 400
               \/ ErrorResponse.statusCode e = 404)%Z).
Proof.
  apply createOrder_rejects_without_side_effects.
  - simpl. constructor; [intros []|constructor].
  - right; right; right; right. intros (total & E & Q).
    vm_compute in E. injection E as <-. vm_compute in Q. discriminate Q.
Defined.

(** A declared [totalPrice] that is a number never equals the string
    [toFixed(2)] gives: such a checkout is answered with an error and the
    database is left as it was. *)
Lemma createOrder_numeric_total (default_is_modified : bool) (env : Env)
    (user : User.t) (orderItems : list OrderItemReq.t)
    (shippingAddress : option ShippingInfo.t) (paymentMethod : option string)
    (itemsPrice : Q) (taxPrice shippingPrice : option Q) (totalPrice : Q) :
  let body :=
    CreateOrderBody.mk orderItems shippingAddress paymentMethod itemsPrice
      taxPrice shippingPrice (JS.Num totalPrice) in
  never_ok (createOrder default_is_modified env user body)
  /\ preserves (fun db => db) (createOrder default_is_modified env user body).
Proof.
  intros body; split; unfold createOrder; simpl.
  - destruct (List.length orderItems =? 0)%nat; [auto with frame|].
    apply never_ok_bind_r; intros db0.
    destruct (negb _); [auto with frame|].
    apply never_ok_bind_r; intros [calc details].
    destruct (JS.strict_neq (JS.Num calc) _); auto with frame.
  - destruct (List.length orderItems =? 0)%nat; [auto with frame|].
    apply preserves_bind; [auto with frame|intros db0].
    destruct (negb _); [auto with frame|].
    apply preserves_bind; [apply check_stock_and_prices_preserves|].
    intros [calc details].
    destruct (JS.strict_neq (JS.Num calc) _); auto with frame.
Qed.

(** C1.  A checkout that is consistent is to store an order in status
    'Processing', take the ordered quantities off the stock and empty the
    cart; [createOrder] does not, for any request.  The checkout of the
    scenario (product A at 10.00 with stock 5, three units, itemsPrice 30,
    tax 4.50, shipping 10, totalPrice 44.50 as a number) is answered 400
    by the total check and changes nothing.  Sent with totalPrice as the
    string of [toFixed(2)], it passes every check of the controller, and
    then [save] refuses the new order: its [orderNumber] is required, and
    validation runs before the hook that would generate it.  No order is
    stored, the stock stays 5 and the cart keeps its items.  In general
    no checkout succeeds, and none writes anything. *)
Theorem checkout_does_not_complete :
  (forall b,
      createOrder b Scenario.env2 Scenario.alice
        (Scenario.checkout (JS.Num 44.5)) Scenario.shop
      = (Fail (ErrorResponse.mk "Order total does not match" 400),
         Scenario.shop))
  /\ (forall b,
         createOrder b Scenario.env2 Scenario.alice
           (Scenario.checkout (JS.Str "44.50")) Scenario.shop
         = (Throw "ValidationError: Order validation failed", Scenario.shop))
  /\ orders Scenario.shop = []
  /\ stock_of "A" (products Scenario.shop) = Some 5%Z
  /\ carts Scenario.shop = [Scenario.cartA3]
  /\ (forall b env user body db,
         is_error (fst (createOrder b env user body db)) = true
         /\ snd (createOrder b env user body db) = db).
Proof.
  split; [intros []; reflexivity|].
  split; [intros []; reflexivity|].
  split; [reflexivity|]. split; [reflexivity|]. split; [reflexivity|].
  intros b env user body db. split.
  - apply createOrder_never_ok.
  - apply (createOrder_writes_nothing b env user body db).
Qed.

(** C3.  A declared total equal to itemsPrice + tax + shipping is to
    pass the total check; in [createOrder] it does not.  The computed total
    is the string of [toFixed(2)] and is compared strictly with the
    declared [totalPrice], so a declared number never matches.  The checkout whose
    declared totalPrice 44.50 equals 30 + 4.50 + 10 is answered 400
    "Order total does not match", and so is every checkout that declares
    its total as a number; the comparison lets through only the string
    "44.50". *)
Theorem total_check_rejects_equal_number :
  (forall s t, JS.strict_neq (JS.Str s) (JS.Num t) = true)
  /\ calculatedTotalPrice (Some 4.5%Q) (Some 10%Q) 30 = "44.50"
  /\ (forall b,
         createOrder b Scenario.env2 Scenario.alice
           (Scenario.checkout (JS.Num 44.5)) Scenario.shop
         = (Fail (ErrorResponse.mk "Order total does not match" 400),
            Scenario.shop))
  /\ (forall b env user orderItems shippingAddress paymentMethod itemsPrice
        taxPrice shippingPrice totalPrice db,
         let body :=
           CreateOrderBody.mk orderItems shippingAddress paymentMethod
             itemsPrice taxPrice shippingPrice (JS.Num totalPrice) in
         is_error (fst (createOrder b env user body db)) = true
         /\ snd (createOrder b env user body db) = db)
  /\ JS.strict_neq
       (JS.Str (calculatedTotalPrice (Some 4.5%Q) (Some 10%Q) 30))
       (JS.Str "44.50") = false.
Proof.
  split; [reflexivity|].
  split; [reflexivity|].
  split; [intros []; reflexivity|].
  split; [|reflexivity].
  intros b env user orderItems shippingAddress paymentMethod itemsPrice
    taxPrice shippingPrice totalPrice db body.
  destruct (createOrder_numeric_total b env user orderItems shippingAddress
              paymentMethod itemsPrice taxPrice shippingPrice totalPrice)
    as [N P].
  split; [apply N|apply (P db)].
Qed.

(** C8.  A provided tax or shipping price is to be used as it is, a
    provided 0 included; for 0 [createOrder] does not:
    [taxPrice || ..] and [shippingPrice || ..] treat 0 as absent.  With
    itemsPrice 30, a declared tax of 0 gives 4.50 and a declared shipping
    of 0 gives 10; for every itemsPrice a declared 0 gives what an absent
    value gives.  A declared value other than 0 is used as it is. *)
Theorem declared_zero_is_replaced :
  (calculatedTaxPrice (Some 0) 30 == 4.5)%Q
  /\ (calculatedShippingPrice (Some 0) 30 == 10)%Q
  /\ (forall itemsPrice,
         calculatedTaxPrice (Some 0) itemsPrice
         = calculatedTaxPrice None itemsPrice
         /\ calculatedShippingPrice (Some 0) itemsPrice
            = calculatedShippingPrice None itemsPrice)
  /\ calculatedTaxPrice (Some 4.5) 30 = 4.5%Q
  /\ calculatedShippingPrice (Some 10) 30 = 10%Q
  /\ (calculatedTaxPrice None 33.33 == 5)%Q
  /\ calculatedShippingPrice None 100 = 10%Q
  /\ calculatedShippingPrice None 100.01 = 0%Q.
Proof.
  repeat split; reflexivity.
Qed.

(** ** Status transitions *)

(** A continuation that only builds the response leaves the database to
    what came before it. *)
Lemma snd_bind_pure {A B : Type} (m : M A) (k : A -> M B) (db : DB) :
  (forall a db', snd (k a db') = db') -> snd (bind m k db) = snd (m db).
Proof.
  intros K; unfold bind. destruct (m db) as [[a|e|msg] db']; simpl; auto.
Qed.

Lemma findById_key {A : Type} (key : A -> ObjectId) (id : ObjectId)
    (l : list A) (d : A) :
  findById key id l = Some d -> key d = id.
Proof. intros F; apply find_some in F as [_ E]. now apply String.eqb_eq. Qed.

Lemma map_upsert_same {A B : Type} (key : A -> ObjectId) (f : A -> B)
    (d o : A) (l : list A) :
  findById key (key d) l = Some o -> f d = f o ->
  map f (upsert key d l) = map f l.
Proof.
  unfold findById; intros F E; induction l as [|x r IH]; simpl in *;
    [discriminate|].
  destruct (String.eqb (key x) (key d)); simpl.
  - injection F as ->. now rewrite E.
  - now rewrite IH.
Qed.

Lemma Order_valid_parts (o : Order.t) :
  Order_valid o = true <->
  JS.falsy_str (Order.orderNumber o) = false
  /\ forallb OrderItem_valid (Order.orderItems o) = true
  /\ valid_if_present ShippingInfo_valid (Order.shippingInfo o) = true
  /\ valid_if_present PaymentInfo_valid (Order.paymentInfo o) = true
  /\ one_of orderStatus_enum (Order.orderStatus o) = true
  /\ forallb TrackingUpdate_valid (Order.trackingUpdates o) = true.
Proof.
  unfold Order_valid. rewrite !andb_true_iff, negb_true_iff. tauto.
Qed.

(** An edit that leaves alone what [same_order_content] protects keeps
    the document valid when the status it sets and the tracking entries
    it leaves are valid. *)
Lemma Order_valid_edit (o o' : Order.t) :
  same_order_content o o' ->
  Order_valid o = true ->
  one_of orderStatus_enum (Order.orderStatus o') = true ->
  forallb TrackingUpdate_valid (Order.trackingUpdates o') = true ->
  Order_valid o' = true.
Proof.
  intros (_ & _ & I & Sh & P & _ & _ & _ & _ & _ & Nb) V St T.
  apply Order_valid_parts in V as (Nn & Vi & Vs & Vp & _ & _).
  apply Order_valid_parts. rewrite (Nb Nn), I, Sh, P. repeat split; auto.
Qed.

Lemma Order_invalid_status (o : Order.t) :
  one_of orderStatus_enum (Order.orderStatus o) = false ->
  Order_valid o = false.
Proof.
  intros H. unfold Order_valid. rewrite H.
  now rewrite andb_false_r.
Qed.

(** Every status of an order is a status of a tracking entry. *)
Lemma orderStatus_is_trackingStatus (status : string) :
  one_of orderStatus_enum status = true ->
  one_of trackingStatus_enum status = true.
Proof.
  intros H. unfold one_of, orderStatus_enum in H; simpl in H.
  rewrite !orb_true_iff in H.
  destruct H as [H|[H|[H|[H|[H|H]]]]]; try discriminate;
    apply String.eqb_eq in H; subst; reflexivity.
Qed.

Lemma or_str_required (s : option string) (d : string) :
  required d = true -> required (JS.or_str s d) = true.
Proof.
  intros D. unfold JS.or_str, required in *. destruct s as [v|]; [|exact D].
  destruct (String.eqb v "") eqn:E; [exact D|]. now rewrite E.
Qed.

(** The entry [updateOrderStatus] prepends passes validation when the
    status is one of the order statuses. *)
Lemma status_entry_valid (env : Env) (body : StatusBody.t) (status : string) :
  one_of orderStatus_enum status = true ->
  TrackingUpdate_valid
    (TrackingUpdate.mk (now env) status
       (JS.or_str (StatusBody.location body) "Processing Center")
       (JS.or_str (StatusBody.details body)
          ("Order status updated to " ++ status)%string)) = true.
Proof.
  intros H. unfold TrackingUpdate_valid.
  cbn [TrackingUpdate.status TrackingUpdate.location TrackingUpdate.details].
  rewrite (orderStatus_is_trackingStatus status H).
  rewrite !or_str_required; reflexivity.
Qed.

(** A save of a valid document that does not modify [orderStatus] runs no
    stock update and adds no tracking entry: it writes the document. *)
Lemma Order_save_unmodified (env : Env) (this : OrderDoc.t) (db : DB) :
  Order_valid (OrderDoc.doc this) = true ->
  OrderDoc.orderStatus_modified this = false ->
  Order_save env this db
  = (Ok (OrderDoc.doc this),
     with_orders (upsert Order._id (OrderDoc.doc this) (orders db)) db).
Proof.
  intros V Hm. rewrite Order_save_valid by exact V.
  apply Order_valid_parts in V as (Nn & _).
  unfold Order_hooks_and_write, generate_orderNumber, update_product_stock,
    add_tracking_update, bind, get, put, ret.
  destruct this as [o isNew m sa pr dl]; simpl in *; subst m.
  rewrite Nn; simpl. now destruct db.
Qed.

(** [updateOrderToPaid] never changes the [paymentInfo] of a stored
    order. *)
Lemma updateOrderToPaid_paymentInfo (env : Env) (user : User.t)
    (id : ObjectId) (body : PayBody.t) :
  preserves (fun db => map Order.paymentInfo (orders db))
    (updateOrderToPaid env user id body).
Proof.
  intros db. unfold updateOrderToPaid, Order_findById.
  unfold bind at 1 2, get, ret; simpl.
  destruct (findById Order._id id (orders db)) as [o|] eqn:F; simpl;
    [|reflexivity].
  destruct (negb (String.eqb (Order.user o) (User._id user))
            && negb (String.eqb (User.role user) "admin")); [reflexivity|].
  rewrite snd_bind_pure by reflexivity.
  match goal with
  | |- context [Order_save env ?d db] =>
      destruct (Order_valid (OrderDoc.doc d)) eqn:V;
        [rewrite (Order_save_unmodified env d db V eq_refl)
        |now rewrite (Order_save_invalid env d db V)]
  end.
  simpl. apply map_upsert_same with (o := o); [|reflexivity].
  simpl. now rewrite (findById_key _ _ _ _ F).
Qed.

(** [updateOrderToDelivered] reads [city] from [order.shippingAddress],
    which no document has: it never succeeds and never writes. *)
Lemma updateOrderToDelivered_fails (env : Env) (id : ObjectId) (db : DB) :
  is_error (fst (updateOrderToDelivered env id db)) = true
  /\ snd (updateOrderToDelivered env id db) = db.
Proof.
  unfold updateOrderToDelivered, Order_findById, bind, get, ret; simpl.
  destruct (findById Order._id id (orders db)); simpl; split; reflexivity.
Qed.

(** A save that completes: a valid document, and an unmodified
    [orderStatus] or a shipping block for the third hook to read.  The
    stored document keeps its id and gains the hook's entry exactly when
    [orderStatus] is modified. *)
Lemma Order_save_stored (env : Env) (this : OrderDoc.t) (db : DB)
    (city : string) :
  Order_valid (OrderDoc.doc this) = true ->
  (OrderDoc.orderStatus_modified this = true ->
   option_map ShippingInfo.city (Order.shippingInfo (OrderDoc.doc this))
   = Some city) ->
  exists d,
    fst (Order_save env this db) = Ok d
    /\ orders (snd (Order_save env this db)) = upsert Order._id d (orders db)
    /\ Order._id d = Order._id (OrderDoc.doc this)
    /\ Order.trackingUpdates d
       = (if OrderDoc.orderStatus_modified this
          then [TrackingUpdate.mk (now env)
                  (Order.orderStatus (OrderDoc.doc this)) city
                  ("Order status updated to "
                   ++ Order.orderStatus (OrderDoc.doc this))%string]
          else [])
         ++ Order.trackingUpdates (OrderDoc.doc this).
Proof.
  intros V H. rewrite Order_save_valid by exact V. clear V.
  unfold Order_hooks_and_write, generate_orderNumber, update_product_stock,
    add_tracking_update, bind, get, put, ret, throw.
  destruct this as [o isNew m sa pr dl]; simpl in *.
  destruct m.
  - specialize (H eq_refl).
    destruct (Order.shippingInfo o) as [si|] eqn:S; [|discriminate].
    injection H as <-.
    destruct (JS.falsy_str (Order.orderNumber o)); simpl;
      destruct (String.eqb (Order.orderStatus o) "Processing"); simpl;
      rewrite S; simpl; eexists; repeat split.
  - destruct (JS.falsy_str (Order.orderNumber o)); simpl;
      eexists; repeat split.
Qed.

Lemma order_of_stored (id : ObjectId) (d : Order.t) (db db' : DB) :
  orders db' = upsert Order._id d (orders db) -> Order._id d = id ->
  order_of id db' = Some d.
Proof.
  unfold order_of; intros -> <-. apply (findById_upsert Order._id).
Qed.

(** What [updateOrderStatus] does to the database once the body carries
    a status and the order is found: the save of the edited document. *)
Lemma updateOrderStatus_saves (env : Env) (id : ObjectId)
    (body : StatusBody.t) (db : DB) (status : string) (o : Order.t) :
  StatusBody.status body = Some status -> String.eqb status "" = false ->
  order_of id db = Some o ->
  exists this,
    same_order_content o (OrderDoc.doc this)
    /\ Order.orderStatus (OrderDoc.doc this) = status
    /\ OrderDoc.orderStatus_modified this
       = negb (String.eqb status (Order.orderStatus o))
    /\ Order.shippingInfo (OrderDoc.doc this) = Order.shippingInfo o
    /\ Order.orderItems (OrderDoc.doc this) = Order.orderItems o
    /\ Order.trackingUpdates (OrderDoc.doc this)
       = TrackingUpdate.mk (now env) status
           (JS.or_str (StatusBody.location body) "Processing Center")
           (JS.or_str (StatusBody.details body)
              ("Order status updated to " ++ status)%string)
         :: Order.trackingUpdates o
    /\ snd (updateOrderStatus env id body db) = snd (Order_save env this db).
Proof.
  unfold order_of; intros S N F. unfold updateOrderStatus, Order_findById.
  rewrite S, N. unfold bind at 1 2, get; unfold ret at 1; simpl.
  rewrite F; simpl. rewrite snd_bind_pure by reflexivity.
  eexists.
  split; [|split; [|split; [|split; [|split; [|split; [|reflexivity]]]]]];
    unfold same_order_content;
    destruct (JS.falsy_str (StatusBody.trackingNumber body)); simpl;
    repeat split; auto.
Qed.

(** The document [updateOrderStatus] saves is valid exactly as far as
    the new status allows, when the stored order was valid. *)
Lemma status_edit_valid (env : Env) (body : StatusBody.t) (status : string)
    (o : Order.t) (this : OrderDoc.t) :
  same_order_content o (OrderDoc.doc this) ->
  Order.orderStatus (OrderDoc.doc this) = status ->
  Order.trackingUpdates (OrderDoc.doc this)
  = TrackingUpdate.mk (now env) status
      (JS.or_str (StatusBody.location body) "Processing Center")
      (JS.or_str (StatusBody.details body)
         ("Order status updated to " ++ status)%string)
    :: Order.trackingUpdates o ->
  Order_valid o = true ->
  one_of orderStatus_enum status = true ->
  Order_valid (OrderDoc.doc this) = true.
Proof.
  intros C St T V E.
  apply (Order_valid_edit o); auto.
  - now rewrite St.
  - rewrite T; cbn [forallb].
    rewrite (status_entry_valid env body status E).
    now apply Order_valid_parts in V.
Qed.

(** C4, as amended.  On a stored order that satisfies the schema:
    marking it paid, as its owner or as an admin, prepends exactly one
    entry to [trackingUpdates]; setting its status to one of the statuses
    of the schema prepends the controller's entry and, when the new status
    differs from the stored one (and the order has a shipping block for
    the hook to read), the entry of the save hook on top of it.  The list
    grows by one entry when the status is left as it was and by two when
    it changes, and its head is an entry of the operation just made.  A
    status that is not one of the schema's is refused and nothing is
    written. *)
Theorem tracking_entries_per_operation (env : Env) (id : ObjectId) (db : DB)
    (o : Order.t) :
  order_of id db = Some o ->
  Order_valid o = true ->
  (forall user body,
      Order.user o = User._id user \/ User.role user = "admin" ->
      option_map Order.trackingUpdates
        (order_of id (snd (updateOrderToPaid env user id body db)))
      = Some (TrackingUpdate.mk (now env) "Processing" "Processing Center"
                "Payment received. Preparing for shipment."
              :: Order.trackingUpdates o))
  /\ (forall body status,
         StatusBody.status body = Some status ->
         one_of orderStatus_enum status = true ->
         let entry :=
           TrackingUpdate.mk (now env) status
             (JS.or_str (StatusBody.location body) "Processing Center")
             (JS.or_str (StatusBody.details body)
                ("Order status updated to " ++ status)%string) in
         (status = Order.orderStatus o ->
          option_map Order.trackingUpdates
            (order_of id (snd (updateOrderStatus env id body db)))
          = Some (entry :: Order.trackingUpdates o))
         /\ (forall shippingInfo,
                status <> Order.orderStatus o ->
                Order.shippingInfo o = Some shippingInfo ->
                option_map Order.trackingUpdates
                  (order_of id (snd (updateOrderStatus env id body db)))
                = Some (TrackingUpdate.mk (now env) status
                          (ShippingInfo.city shippingInfo)
                          ("Order status updated to " ++ status)%string
                        :: entry :: Order.trackingUpdates o)))
  /\ (forall body status,
         StatusBody.status body = Some status ->
         one_of orderStatus_enum status = false ->
         snd (updateOrderStatus env id body db) = db).
Proof.
  intros F V. pose proof (findById_key _ _ _ _ F) as K.
  split; [|split].
  - intros user body A. unfold order_of in F.
    unfold updateOrderToPaid, Order_findById.
    unfold bind at 1 2, get; unfold ret at 1; simpl. rewrite F; simpl.
    assert (Auth : negb (String.eqb (Order.user o) (User._id user))
                   && negb (String.eqb (User.role user) "admin") = false).
    { destruct A as [->| ->]; [now rewrite String.eqb_refl|].
      now rewrite andb_false_r. }
    rewrite Auth, snd_bind_pure by reflexivity.
    match goal with
    | |- context [Order_save env ?d db] =>
        destruct (Order_save_stored env d db "") as (d' & _ & S & I & T);
          [|discriminate|]
    end.
    { apply (Order_valid_edit o); auto.
      - unfold same_order_content; simpl; repeat split; auto.
      - now apply Order_valid_parts in V.
      - simpl. now apply Order_valid_parts in V. }
    rewrite (order_of_stored id d' db _ S) by (rewrite I; exact K).
    simpl. now rewrite T.
  - intros body status S E entry.
    assert (N : String.eqb status "" = false).
    { apply String.eqb_neq; intros ->; discriminate. }
    destruct (updateOrderStatus_saves env id body db status o S N F)
      as (this & C & St & M & Sh & _ & T & ->).
    assert (Vt : Order_valid (OrderDoc.doc this) = true)
      by (apply (status_edit_valid env body status o); auto).
    assert (Kt : Order._id (OrderDoc.doc this) = id)
      by (destruct C as (I & _); congruence).
    split.
    + intros Eq.
      destruct (Order_save_stored env this db "" Vt) as (d' & _ & Sd & I & Td).
      { rewrite M, Eq, String.eqb_refl. discriminate. }
      rewrite (order_of_stored id d' db _ Sd) by congruence.
      simpl. rewrite Td, M, Eq, String.eqb_refl. simpl. rewrite T.
      unfold entry. now rewrite Eq.
    + intros si D Shi.
      destruct (Order_save_stored env this db (ShippingInfo.city si) Vt)
        as (d' & _ & Sd & I & Td).
      { intros _. now rewrite Sh, Shi. }
      rewrite (order_of_stored id d' db _ Sd) by congruence.
      simpl. rewrite Td, M.
      assert (Ne : String.eqb status (Order.orderStatus o) = false)
        by now apply String.eqb_neq.
      rewrite Ne; simpl. now rewrite St, T.
  - intros body status S E.
    destruct (String.eqb status "") eqn:N;
      [unfold updateOrderStatus; now rewrite S, N|].
    destruct (updateOrderStatus_saves env id body db status o S N F)
      as (this & _ & St & _ & _ & _ & _ & ->).
    rewrite Order_save_invalid; [reflexivity|].
    apply Order_invalid_status. now rewrite St.
Qed.

Lemma tracking_entries_per_operation_witness :
  let db0 := Scenario.shopWithOrder (Some Scenario.home) in
  option_map Order.trackingUpdates
    (order_of "o1"
       (snd (updateOrderToPaid Scenario.env2 Scenario.alice "o1"
               Scenario.payment db0)))
  = Some [TrackingUpdate.mk 2000 "Processing" "Processing Center"
            "Payment received. Preparing for shipment.";
          Scenario.placed]
  /\ option_map Order.trackingUpdates
       (order_of "o1"
          (snd (updateOrderStatus Scenario.env2 "o1"
                  (Scenario.setStatus "Processing") db0)))
     = Some [TrackingUpdate.mk 2000 "Processing" "Processing Center"
               "Order status updated to Processing";
             Scenario.placed]
  /\ option_map Order.trackingUpdates
       (order_of "o1"
          (snd (updateOrderStatus Scenario.env2 "o1"
                  (Scenario.setStatus "Shipped") db0)))
     = Some [TrackingUpdate.mk 2000 "Shipped" "Springfield"
               "Order status updated to Shipped";
             TrackingUpdate.mk 2000 "Shipped" "Processing Center"
               "Order status updated to Shipped";
             Scenario.placed]
  /\ snd (updateOrderStatus Scenario.env2 "o1"
            (Scenario.setStatus "In Transit") db0) = db0.
Proof.
  intros db0.
  destruct (tracking_entries_per_operation Scenario.env2 "o1" db0
              (Scenario.order1 (Some Scenario.home)) eq_refl eq_refl)
    as (P & S & R).
  split; [|split; [|split]].
  - apply (P Scenario.alice Scenario.payment). left; reflexivity.
  - refine (proj1 (S (Scenario.setStatus "Processing") "Processing"
                     eq_refl eq_refl) eq_refl).
  - refine (proj2 (S (Scenario.setStatus "Shipped") "Shipped" eq_refl
                     eq_refl)
              Scenario.home _ eq_refl); discriminate.
  - apply (R (Scenario.setStatus "In Transit") "In Transit");
      reflexivity.
Defined.

(** C4 as stated fails: setting the status of the scenario's order from
    Processing to Shipped makes its [trackingUpdates] grow from one entry
    to three, not to two. *)
Lemma set_status_prepends_two_entries :
  let db0 := Scenario.shopWithOrder (Some Scenario.home) in
  let db1 :=
    snd (updateOrderStatus Scenario.env2 "o1" (Scenario.setStatus "Shipped")
           db0) in
  exists before after,
    order_of "o1" db0 = Some before
    /\ order_of "o1" db1 = Some after
    /\ List.length (Order.trackingUpdates before) = 1%nat
    /\ List.length (Order.trackingUpdates after) = 3%nat
    /\ List.length (Order.trackingUpdates after)
       <> S (List.length (Order.trackingUpdates before)).
Proof.
  do 2 eexists. split; [reflexivity|]. split; [reflexivity|].
  split; [reflexivity|]. split; [reflexivity|]. discriminate.
Qed.

(** C7.  Marking an order paid is to store the payment record in its
    [paymentInfo]; [updateOrderToPaid] does not.  Paying the order of the scenario as its owner sets [isPaid], sets
    [paidAt] to the current time and prepends one tracking entry, but the
    payment record goes to a [paymentResult] property that the schema does
    not have: the stored order's [paymentInfo] stays absent.  No call of
    [updateOrderToPaid] changes the [paymentInfo] of any stored order. *)
Theorem payment_record_is_not_stored :
  (let '(r, db) :=
     updateOrderToPaid Scenario.env2 Scenario.alice "o1" Scenario.payment
       (Scenario.shopWithOrder (Some Scenario.home)) in
   is_error r = false
   /\ option_map Order.isPaid (order_of "o1" db) = Some true
   /\ option_map Order.paidAt (order_of "o1" db) = Some (Some 2000%Z)
   /\ option_map Order.paymentInfo (order_of "o1" db) = Some None
   /\ option_map (fun o => List.length (Order.trackingUpdates o))
        (order_of "o1" db) = Some 2%nat)
  /\ (forall env user id body db,
         map Order.paymentInfo
           (orders (snd (updateOrderToPaid env user id body db)))
         = map Order.paymentInfo (orders db)).
Proof.
  split; [repeat split; reflexivity|].
  intros env user id body db.
  apply (updateOrderToPaid_paymentInfo env user id body db).
Qed.

(** ** Stock and the status of an order *)

Lemma stock_of_updateOne (pid id : ObjectId) (d : Z) (l : list Product.t) :
  stock_of pid
    (updateOne Product._id id
       (fun p => Product.with_stock (Product.stock p + d)%Z p) l)
  = option_map (fun s => if String.eqb id pid then (s + d)%Z else s)
      (stock_of pid l).
Proof.
  unfold stock_of, findById; induction l as [|x r IH]; simpl; [reflexivity|].
  destruct (String.eqb (Product._id x) id) eqn:Ei; simpl.
  - apply String.eqb_eq in Ei; subst id.
    destruct (String.eqb (Product._id x) pid); [reflexivity|].
    destruct (find _ r); reflexivity.
  - destruct (String.eqb (Product._id x) pid) eqn:Ep; [|exact IH].
    apply String.eqb_eq in Ep; subst pid.
    rewrite String.eqb_sym, Ei. reflexivity.
Qed.

(** What the batched update of the second hook does to the stock of each
    product: it takes off the quantities of the items that name it. *)
Lemma stock_of_bulkWrite (pid : ObjectId) (items : list OrderItem.t)
    (l : list Product.t) :
  stock_of pid
    (bulkWrite
       (map (fun item =>
               mkOp (OrderItem.product item) (- OrderItem.quantity item)%Z)
          items) l)
  = option_map (fun s => (s - ordered_quantity pid items)%Z) (stock_of pid l).
Proof.
  unfold bulkWrite; revert l; induction items as [|item r IH]; intros l;
    simpl.
  - destruct (stock_of pid l); simpl; [f_equal; lia|reflexivity].
  - rewrite IH, stock_of_updateOne.
    destruct (stock_of pid l) as [s|]; simpl; [|reflexivity].
    f_equal. destruct (String.eqb (OrderItem.product item) pid); lia.
Qed.

(** The products after a set-status request on a stored order: those the
    save of the edited document leaves. *)
Lemma updateOrderStatus_products (env : Env) (id : ObjectId)
    (body : StatusBody.t) (db : DB) (status : string) (o : Order.t) :
  StatusBody.status body = Some status -> status <> "" ->
  order_of id db = Some o ->
  products (snd (updateOrderStatus env id body db)) = products db
  \/ (negb (String.eqb status (Order.orderStatus o))
      && String.eqb status "Processing" = true
      /\ products (snd (updateOrderStatus env id body db))
         = bulkWrite
             (map (fun item =>
                     mkOp (OrderItem.product item)
                       (- OrderItem.quantity item)%Z)
                (Order.orderItems o))
             (products db)).
Proof.
  intros S N F. apply String.eqb_neq in N.
  destruct (updateOrderStatus_saves env id body db status o S N F)
    as (this & _ & St & M & _ & I & _ & ->).
  rewrite Order_save_products, St, M, I.
  destruct (Order_valid (OrderDoc.doc this)); simpl; [|now left].
  destruct (negb (String.eqb status (Order.orderStatus o))
            && String.eqb status "Processing") eqn:B; [|now left].
  right. now split.
Qed.

(** C10.  A set-status request whose new status is not 'Processing'
    leaves the stock of every product as it was.  A save with
    [orderStatus] modified and equal to 'Processing', of a document that
    satisfies the schema, takes off the stock of each product the
    quantities of the order's items that name it, whether or not the save
    then completes; a document that does not satisfy the schema is
    refused before any hook runs and changes nothing.  So does a
    set-status request that moves a stored order that satisfies the
    schema from another status back to 'Processing'.  One order can thus
    decrement the same stock more than once: moving the order of the
    scenario out of 'Processing' and back, twice, takes the stock of A
    from 5 to 2 and then to -1. *)
Theorem status_change_and_stock :
  (forall env id body db,
      StatusBody.status body <> Some "Processing" ->
      products (snd (updateOrderStatus env id body db)) = products db)
  /\ (forall env this db pid,
         Order_valid (OrderDoc.doc this) = true ->
         OrderDoc.orderStatus_modified this = true ->
         Order.orderStatus (OrderDoc.doc this) = "Processing" ->
         stock_of pid (products (snd (Order_save env this db)))
         = option_map
             (fun s =>
                (s - ordered_quantity pid
                       (Order.orderItems (OrderDoc.doc this)))%Z)
             (stock_of pid (products db)))
  /\ (forall env this db,
         Order_valid (OrderDoc.doc this) = false ->
         snd (Order_save env this db) = db)
  /\ (forall env id body db o pid,
         StatusBody.status body = Some "Processing" ->
         order_of id db = Some o ->
         Order_valid o = true ->
         Order.orderStatus o <> "Processing" ->
         stock_of pid (products (snd (updateOrderStatus env id body db)))
         = option_map
             (fun s => (s - ordered_quantity pid (Order.orderItems o))%Z)
             (stock_of pid (products db)))
  /\ (let db0 := Scenario.shopWithOrder (Some Scenario.home) in
      let leave env :=
        updateOrderStatus env "o1" (Scenario.setStatus "Shipped") in
      let reenter env :=
        updateOrderStatus env "o1" (Scenario.setStatus "Processing") in
      let db2 := snd ((leave Scenario.env1 ;;; reenter Scenario.env2) db0) in
      let db4 := snd ((leave Scenario.env3 ;;; reenter Scenario.env4) db2) in
      stock_of "A" (products db0) = Some 5%Z
      /\ stock_of "A" (products db2) = Some 2%Z
      /\ stock_of "A" (products db4) = Some (-1)%Z
      /\ List.length (orders db4) = 1%nat).
Proof.
  split; [|split; [|split; [|split]]].
  - intros env id body db N.
    destruct (StatusBody.status body) as [status|] eqn:S;
      [|unfold updateOrderStatus; now rewrite S].
    destruct (String.eqb status "") eqn:E;
      [unfold updateOrderStatus; now rewrite S, E|].
    destruct (order_of id db) as [o|] eqn:F.
    + destruct (updateOrderStatus_products env id body db status o S)
        as [U|(B & _)]; auto.
      * now apply String.eqb_neq.
      * apply andb_true_iff in B as [_ B]. apply String.eqb_eq in B.
        congruence.
    + unfold updateOrderStatus, Order_findById. rewrite S, E.
      unfold bind at 1 2, get; unfold ret at 1; simpl.
      unfold order_of in F; now rewrite F.
  - intros env this db pid V M P.
    rewrite Order_save_products, V, M, P. simpl.
    apply stock_of_bulkWrite.
  - intros env this db V. now rewrite Order_save_invalid.
  - intros env id body db o pid S F V N.
    assert (Ne : String.eqb "Processing" "" = false) by reflexivity.
    destruct (updateOrderStatus_saves env id body db "Processing" o S Ne F)
      as (this & C & St & M & _ & I & T & ->).
    assert (Vt : Order_valid (OrderDoc.doc this) = true)
      by (apply (status_edit_valid env body "Processing" o); auto).
    rewrite Order_save_products, Vt, St, M, I.
    assert (P : String.eqb "Processing" (Order.orderStatus o) = false)
      by (apply String.eqb_neq; congruence).
    rewrite P. simpl. apply stock_of_bulkWrite.
  - repeat split; reflexivity.
Qed.

Lemma status_change_and_stock_witness :
  let db0 := Scenario.shopWithOrder (Some Scenario.home) in
  let db1 :=
    snd (updateOrderStatus Scenario.env1 "o1" (Scenario.setStatus "Shipped")
           db0) in
  products db1 = products db0
  /\ stock_of "A"
       (products
          (snd (updateOrderStatus Scenario.env2 "o1"
                  (Scenario.setStatus "Processing") db1)))
     = Some 2%Z
  /\ stock_of "A"
       (products
          (snd (Order_save Scenario.env2
                  (DocSet.orderStatus "Processing"
                     (DocSet.orderStatus "Shipped"
                        (loaded (Scenario.order1 (Some Scenario.home)))))
                  db0)))
     = Some 2%Z.
Proof.
  intros db0 db1.
  destruct status_change_and_stock as (H1 & H2 & _ & H3 & _).
  split; [|split].
  - apply H1. discriminate.
  - rewrite (H3 Scenario.env2 "o1" (Scenario.setStatus "Processing") db1
               (OrderSet.trackingUpdates
                  [TrackingUpdate.mk 1000 "Shipped" "Springfield"
                     "Order status updated to Shipped";
                   TrackingUpdate.mk 1000 "Shipped" "Processing Center"
                     "Order status updated to Shipped";
                   Scenario.placed]
                  (OrderSet.orderStatus "Shipped"
                     (Scenario.order1 (Some Scenario.home))))
               "A");
      [reflexivity|reflexivity|reflexivity|reflexivity|discriminate].
  - rewrite (H2 Scenario.env2 _ db0 "A"); reflexivity.
Defined.

(** ** Cart engine: refusals, round trips and totals *)

Lemma cart_mutation_keeps_lines_unique_witness :
  NoDup (map CartItem.product [CartItem.mk "A" "Widget" 10 "widget.jpg" 5]).
Proof.
  apply (cart_mutation_keeps_lines_unique Scenario.env2 Scenario.cartA3
           (Cart.mk "c1" "u1" [CartItem.mk "A" "Widget" 10 "widget.jpg" 5]
              0 2000)
           Scenario.shop
           (mkDB [Scenario.productA]
              [Cart.mk "c1" "u1"
                 [CartItem.mk "A" "Widget" 10 "widget.jpg" 5] 0 2000] [])).
  - simpl. constructor; [intros []|constructor].
  - left. exists "A", 2%Z. reflexivity.
Defined.

(** X2.  [addItem] refuses an unknown product with 'Product not found' and
    a product whose stock is below the quantity of this call with 'Not
    enough stock available' (the quantity already in the cart plays no
    part); an add that ends in an error has written nothing. *)
Theorem addItem_refusals (env : Env) (productId : ObjectId) (quantity : Z)
    (this : Cart.t) (db : DB) :
  (findById Product._id productId (products db) = None ->
   addItem env productId quantity this db = (Throw "Product not found", db))
  /\ (forall product,
         findById Product._id productId (products db) = Some product ->
         (Product.stock product < quantity)%Z ->
         addItem env productId quantity this db
         = (Throw "Not enough stock available", db))
  /\ (is_error (fst (addItem env productId quantity this db)) = true ->
      snd (addItem env productId quantity this db) = db).
Proof.
  rewrite addItem_unfold. repeat split.
  - now intros ->.
  - intros product -> L. apply Z.ltb_lt in L. now rewrite L.
  - destruct (findById Product._id productId (products db)) as [p|];
      [|reflexivity].
    destruct (Product.stock p <? quantity)%Z; [reflexivity|].
    apply Cart_save_error.
Qed.

Lemma addItem_refusals_witness :
  addItem Scenario.env2 "B" 1 Scenario.cartA3 Scenario.shop
  = (Throw "Product not found", Scenario.shop)
  /\ addItem Scenario.env2 "A" 6 Scenario.cartA3 Scenario.shop
     = (Throw "Not enough stock available", Scenario.shop).
Proof.
  split.
  - apply (proj1 (addItem_refusals Scenario.env2 "B" 1 Scenario.cartA3
                    Scenario.shop)). reflexivity.
  - apply (proj1 (proj2 (addItem_refusals Scenario.env2 "A" 6
                           Scenario.cartA3 Scenario.shop))
             Scenario.productA); [reflexivity|simpl; lia].
Defined.


(** Whatever the receiver, a call of a cart method that is accepted did
    what the same call does on a document that is not populated: on a
    populated document only a cart without lines gets past the
    callbacks. *)
Lemma accepted_addItem (r : Receiver) (env : Env) (productId : ObjectId)
    (quantity : Z) (this c' : Cart.t) (db db' : DB) :
  CartMethods.addItem r env productId quantity this db = (Ok c', db') ->
  addItem env productId quantity this db = (Ok c', db').
Proof.
  destruct r; [trivial|].
  unfold addItem, CartMethods.addItem, bind, get, lift; simpl.
  destruct (findById Product._id productId (products db)); [|trivial].
  destruct (Product.stock _ <? quantity)%Z; [trivial|].
  destruct (Cart.items this); [trivial|discriminate].
Qed.


Lemma accepted_updateItemQuantity (r : Receiver) (env : Env)
    (productId : ObjectId) (quantity : Z) (this c' : Cart.t) (db db' : DB) :
  CartMethods.updateItemQuantity r env productId quantity this db
  = (Ok c', db') ->
  updateItemQuantity env productId quantity this db = (Ok c', db').
Proof.
  destruct r; [trivial|].
  unfold updateItemQuantity, CartMethods.updateItemQuantity,
    CartMethods.removeItem, bind, lift.
  destruct (quantity <? 1)%Z;
    (destruct (Cart.items this); [trivial|discriminate]).
Qed.



Lemma findIndex_split {A : Type} (p : A -> bool) (l : list A) (i : nat) :
  JS.findIndex p l = Some i ->
  exists l1 x l2,
    l = l1 ++ x :: l2 /\ List.length l1 = i /\ p x = true
    /\ find p l = Some x.
Proof.
  revert i; induction l as [|y r IH]; simpl; intros i H; [discriminate|].
  destruct (p y) eqn:P.
  - injection H as <-. exists [], y, r. repeat split. exact P.
  - destruct (JS.findIndex p r) as [j|]; [|discriminate].
    injection H as <-.
    destruct (IH j eq_refl) as (l1 & x & l2 & -> & L & Px & F).
    exists (y :: l1), x, l2. simpl. rewrite L. repeat split; assumption.
Qed.

Lemma sum_quantities_app (l1 l2 : list CartItem.t) :
  sum_quantities (l1 ++ l2) = (sum_quantities l1 + sum_quantities l2)%Z.
Proof. induction l1 as [|x r IH]; simpl; [reflexivity|rewrite IH; lia]. Qed.

Lemma sum_line_totals_app (l1 l2 : list CartItem.t) :
  (sum_line_totals (l1 ++ l2) == sum_line_totals l1 + sum_line_totals l2)%Q.
Proof.
  induction l1 as [|x r IH]; simpl.
  - now rewrite Qplus_0_l.
  - rewrite IH. now rewrite Qplus_assoc.
Qed.

(** X4.  An accepted [addItem] raises [totalItems] by exactly the quantity
    added and [totalPrice] by that quantity times one unit price: the
    price stored in the cart's first line for the product when there is
    one (whatever the product costs now), the product's current price
    otherwise. *)
Theorem addItem_raises_totals (env : Env) (productId : ObjectId)
    (quantity : Z) (this c' : Cart.t) (db db' : DB) (product : Product.t) :
  findById Product._id productId (products db) = Some product ->
  addItem env productId quantity this db = (Ok c', db') ->
  let unit :=
    match find (fun item => String.eqb (CartItem.product item) productId)
            (Cart.items this) with
    | Some line => CartItem.price line
    | None => Product.price product
    end in
  Cart.totalItems c' = (Cart.totalItems this + quantity)%Z
  /\ (Cart.totalPrice c' == Cart.totalPrice this + unit * inject_Z quantity)%Q.
Proof.
  intros F H unit.
  destruct (totals_are_sums c') as [P' I'].
  destruct (totals_are_sums this) as [P I].
  rewrite P', I', P, I. clear P' I' P I.
  rewrite addItem_unfold, F in H.
  destruct (Product.stock product <? quantity)%Z; [discriminate|].
  destruct (JS.findIndex _ (Cart.items this)) as [i|] eqn:Ix;
    apply Cart_save_ok in H as (-> & _ & _); simpl.
  - destruct (findIndex_split _ _ _ Ix) as (l1 & x & l2 & E & L & _ & Fx).
    subst unit. rewrite Fx, E, <- L, update_at_middle.
    rewrite !sum_quantities_app, !sum_line_totals_app; simpl. split; [lia|].
    rewrite inject_Z_plus. ring.
  - assert (Fn : find (fun item => String.eqb (CartItem.product item) productId)
                   (Cart.items this) = None).
    { pose proof (findIndex_none_inv _ _ Ix) as O.
      destruct (find _ (Cart.items this)) as [y|] eqn:Fy; [|reflexivity].
      apply find_some in Fy as [Iy Py]. rewrite (O y Iy) in Py.
      discriminate. }
    subst unit. rewrite Fn.
    rewrite sum_quantities_app, sum_line_totals_app; simpl. split; [lia|].
    ring.
Qed.

Lemma addItem_raises_totals_witness :
  let c' :=
    Cart.mk "c1" "u1" [CartItem.mk "A" "Widget" 10 "widget.jpg" 5] 0 2000 in
  Cart.totalItems c' = (Cart.totalItems Scenario.cartA3 + 2)%Z
  /\ (Cart.totalPrice c'
      == Cart.totalPrice Scenario.cartA3 + 10 * inject_Z 2)%Q.
Proof.
  apply (addItem_raises_totals Scenario.env2 "A" 2 Scenario.cartA3 _
           Scenario.shop
           (mkDB [Scenario.productA]
              [Cart.mk "c1" "u1"
                 [CartItem.mk "A" "Widget" 10 "widget.jpg" 5] 0 2000] [])
           Scenario.productA); reflexivity.
Defined.

(** X5.  For either kind of receiver, an accepted [updateItemQuantity]
    with a quantity of at least 1 has overwritten the quantity of the
    cart's first line for the product and left its name, price and image
    and every other line as they were; [totalItems] has moved by the
    difference.  When the cart has no line for the product, the lines are
    left as they are.  Neither the product nor its stock is consulted: the
    products are as before. *)
Theorem updateItemQuantity_overwrites (r : Receiver) (env : Env)
    (productId : ObjectId) (quantity : Z) (this c' : Cart.t) (db db' : DB) :
  (1 <= quantity)%Z ->
  CartMethods.updateItemQuantity r env productId quantity this db
  = (Ok c', db') ->
  (forall l1 item l2,
      Cart.items this = l1 ++ item :: l2 ->
      CartItem.product item = productId ->
      (forall x, In x l1 -> CartItem.product x <> productId) ->
      Cart.items c'
      = l1 ++ CartItem.mk productId (CartItem.name item)
                (CartItem.price item) (CartItem.image item) quantity
           :: l2
      /\ Cart.totalItems c'
         = (Cart.totalItems this - CartItem.quantity item + quantity)%Z)
  /\ ((forall x, In x (Cart.items this) -> CartItem.product x <> productId) ->
      Cart.items c' = Cart.items this)
  /\ products db' = products db.
Proof.
  intros Q1 H. apply accepted_updateItemQuantity in H.
  assert (E : (quantity <? 1)%Z = false) by now apply Z.ltb_ge.
  rewrite updateItemQuantity_unfold, E in H.
  apply Cart_save_ok in H as (-> & -> & _).
  split; [|split; [|reflexivity]].
  - intros l1 item l2 I P N.
    pose proof (other_product productId _ N) as N'.
    rewrite I, findIndex_first;
      [|exact N'|rewrite P; apply String.eqb_refl].
    rewrite update_at_middle. simpl Cart.items.
    unfold CartItem.with_quantity. rewrite P. split; [reflexivity|].
    destruct (totals_are_sums
                (Cart.with_updatedAt (now env)
                   (Cart.with_items
                      (l1 ++ CartItem.mk productId (CartItem.name item)
                               (CartItem.price item) (CartItem.image item)
                               quantity :: l2) this))) as [_ ->].
    destruct (totals_are_sums this) as [_ ->]. simpl Cart.items. rewrite I.
    rewrite !sum_quantities_app; simpl. lia.
  - intros N. pose proof (other_product productId _ N) as N'.
    now rewrite findIndex_none by exact N'.
Qed.

Lemma updateItemQuantity_overwrites_witness :
  let c' :=
    Cart.mk "c1" "u1" [CartItem.mk "A" "Widget" 10 "widget.jpg" 7] 0 2000 in
  Cart.items c' = [] ++ CartItem.mk "A" "Widget" 10 "widget.jpg" 7 :: []
  /\ Cart.totalItems c' = (Cart.totalItems Scenario.cartA3 - 3 + 7)%Z.
Proof.
  refine (proj1 (updateItemQuantity_overwrites Unpopulated Scenario.env2 "A" 7
                   Scenario.cartA3
                   (Cart.mk "c1" "u1"
                      [CartItem.mk "A" "Widget" 10 "widget.jpg" 7] 0 2000)
                   Scenario.shop
                   (mkDB [Scenario.productA]
                      [Cart.mk "c1" "u1"
                         [CartItem.mk "A" "Widget" 10 "widget.jpg" 7] 0 2000]
                      [])
                   _ eq_refl)
            [] (CartItem.mk "A" "Widget" 10 "widget.jpg" 3) []
            eq_refl eq_refl _).
  - lia.
  - intros x [].
Defined.

(** X24.  For either kind of receiver, on a cart with one line per
    product: an accepted [addItem] of a product the cart holds a line for
    (quantity [q1], at any position) has left one line for it, with
    quantity [q1 + quantity] and the name, price and image stored at the
    first add, every other line untouched; an accepted [addItem] of a
    product the cart holds no line for has appended one line with the
    product's current name, price and first image. *)
Theorem accepted_addItem_merges_or_appends (r : Receiver) (env : Env)
    (productId : ObjectId) (quantity : Z) (this c' : Cart.t) (db db' : DB)
    (product : Product.t) :
  findById Product._id productId (products db) = Some product ->
  NoDup (map CartItem.product (Cart.items this)) ->
  CartMethods.addItem r env productId quantity this db = (Ok c', db') ->
  (forall l1 item l2,
      Cart.items this = l1 ++ item :: l2 ->
      CartItem.product item = productId ->
      let merged :=
        CartItem.mk productId (CartItem.name item) (CartItem.price item)
          (CartItem.image item) (CartItem.quantity item + quantity) in
      Cart.items c' = l1 ++ merged :: l2
      /\ filter (fun x => String.eqb (CartItem.product x) productId)
           (Cart.items c') = [merged])
  /\ ((forall x, In x (Cart.items this) -> CartItem.product x <> productId) ->
      Cart.items c'
      = Cart.items this ++
        [CartItem.mk productId (Product.name product)
           (Product.price product)
           (first_image_url (Product.images product)) quantity]).
Proof.
  intros F U H. apply accepted_addItem in H.
  rewrite addItem_unfold, F in H.
  destruct (Product.stock product <? quantity)%Z; [discriminate|].
  apply Cart_save_ok in H as (-> & _ & _). simpl Cart.items. split.
  - intros l1 item l2 I P merged.
    rewrite I in U. pose proof (lines_around productId l1 l2 item U P) as N.
    pose proof (other_product productId _ N) as N'.
    rewrite I, findIndex_first;
      [|intros y Hy; apply N', in_or_app; now left
       |rewrite P; apply String.eqb_refl].
    rewrite update_at_middle.
    assert (M : CartItem.with_quantity (CartItem.quantity item + quantity)
                  item = merged)
      by (unfold CartItem.with_quantity, merged; now rewrite P).
    rewrite M; split; [reflexivity|].
    rewrite filter_app; simpl.
    rewrite String.eqb_refl.
    rewrite !filter_none; [reflexivity| |].
    + intros y Hy; apply N', in_or_app; now right.
    + intros y Hy; apply N', in_or_app; now left.
  - intros N. pose proof (other_product productId _ N) as N'.
    now rewrite findIndex_none by exact N'.
Qed.

Lemma accepted_addItem_merges_or_appends_witness :
  let merged := CartItem.mk "A" "Widget" 10 "widget.jpg" 5 in
  Cart.items (Cart.mk "c1" "u1" [merged] 0 2000) = [] ++ merged :: []
  /\ filter (fun x => String.eqb (CartItem.product x) "A")
       (Cart.items (Cart.mk "c1" "u1" [merged] 0 2000)) = [merged].
Proof.
  refine (proj1 (accepted_addItem_merges_or_appends Unpopulated Scenario.env2
                   "A" 2 Scenario.cartA3
                   (Cart.mk "c1" "u1"
                      [CartItem.mk "A" "Widget" 10 "widget.jpg" 5] 0 2000)
                   Scenario.shop
                   (mkDB [Scenario.productA]
                      [Cart.mk "c1" "u1"
                         [CartItem.mk "A" "Widget" 10 "widget.jpg" 5] 0 2000]
                      [])
                   Scenario.productA eq_refl _ eq_refl)
            [] (CartItem.mk "A" "Widget" 10 "widget.jpg" 3) []
            eq_refl eq_refl).
  simpl. constructor; [intros []|constructor].
Defined.

(** ** Getting or creating a cart *)

Lemma Cart_findOne_user (userId : ObjectId) (l : list Cart.t) (c : Cart.t) :
  Cart_findOne userId l = Some c -> Cart.user c = userId /\ In c l.
Proof.
  intros F; apply find_some in F as [I E]. split; [|exact I].
  now apply String.eqb_eq.
Qed.

(** A user without a cart finds the cart that was just stored for them. *)
Lemma Cart_findOne_upsert (userId : ObjectId) (c : Cart.t) (l : list Cart.t) :
  Cart_findOne userId l = None -> Cart.user c = userId ->
  Cart_findOne userId (upsert Cart._id c l) = Some c.
Proof.
  unfold Cart_findOne; intros N U; induction l as [|x r IH]; simpl in *.
  - now rewrite U, String.eqb_refl.
  - destruct (String.eqb (Cart.user x) userId) eqn:E; [discriminate|].
    destruct (String.eqb (Cart._id x) (Cart._id c)); simpl.
    + now rewrite U, String.eqb_refl.
    + rewrite E. now apply IH.
Qed.

Lemma getOrCreateCart_found (env : Env) (userId : ObjectId) (db : DB)
    (c : Cart.t) :
  Cart_findOne userId (carts db) = Some c ->
  getOrCreateCart env userId db = (Ok (populate (products db) c), db).
Proof.
  intros F. unfold getOrCreateCart, bind, get, ret; simpl. now rewrite F.
Qed.

Lemma getOrCreateCart_created (env : Env) (userId : ObjectId) (db : DB) :
  Cart_findOne userId (carts db) = None ->
  let c := Cart.mk (newId env) userId [] (now env) (now env) in
  getOrCreateCart env userId db
  = (Ok (populate (products db) c),
     with_carts (upsert Cart._id c (carts db)) db).
Proof.
  intros F. unfold getOrCreateCart, Cart_create, bind, get, ret; simpl.
  now rewrite F.
Qed.

(** X6.  [getOrCreateCart] always returns a cart of the user, which is the
    one the user is then found to have. A user who has a cart gets it back
    as stored and nothing is written; a user who has none gets a new cart
    without lines. Calling it again changes nothing more: the user never
    gets a second cart. *)
Theorem getOrCreateCart_idempotent (env1 env2 : Env) (userId : ObjectId)
    (db : DB) :
  let r1 := getOrCreateCart env1 userId db in
  (exists c,
      fst r1 = Ok c
      /\ Cart.user (PopulatedCart.cart c) = userId
      /\ Cart_findOne userId (carts (snd r1)) = Some (PopulatedCart.cart c)
      /\ (Cart_findOne userId (carts db) = None ->
          Cart.items (PopulatedCart.cart c) = [])
      /\ (forall stored,
             Cart_findOne userId (carts db) = Some stored ->
             PopulatedCart.cart c = stored /\ snd r1 = db))
  /\ getOrCreateCart env2 userId (snd r1) = (fst r1, snd r1).
Proof.
  intros r1; subst r1.
  destruct (Cart_findOne userId (carts db)) as [stored|] eqn:F.
  - rewrite (getOrCreateCart_found env1 userId db stored F); simpl. split.
    + eexists; split; [reflexivity|]. simpl.
      split; [now apply (Cart_findOne_user userId (carts db))|].
      split; [exact F|]. split; [discriminate|].
      intros s E; injection E as <-. now split.
    + now apply getOrCreateCart_found.
  - rewrite (getOrCreateCart_created env1 userId db F); simpl.
    set (c := Cart.mk (newId env1) userId [] (now env1) (now env1)).
    assert (F' : Cart_findOne userId (upsert Cart._id c (carts db)) = Some c)
      by now apply Cart_findOne_upsert.
    split.
    + eexists; split; [reflexivity|]. simpl.
      split; [reflexivity|]. split; [exact F'|].
      split; [reflexivity|discriminate].
    + now rewrite (getOrCreateCart_found env2 userId
                     (with_carts (upsert Cart._id c (carts db)) db) c F').
Qed.

(** X7.  The totals [getCartSummary] answers are computed from the stored
    lines of the cart alone: two databases with the same carts give the
    same summary, whatever their products cost or have in stock. *)
Theorem getCartSummary_ignores_products (env : Env) (user : User.t)
    (db1 db2 : DB) :
  carts db1 = carts db2 ->
  fst (CartController.getCartSummary env user db1)
  = fst (CartController.getCartSummary env user db2).
Proof.
  intros E. unfold CartController.getCartSummary, bind.
  destruct (Cart_findOne (User._id user) (carts db1)) as [c|] eqn:F.
  - rewrite (getOrCreateCart_found env _ db1 c F).
    rewrite E in F. now rewrite (getOrCreateCart_found env _ db2 c F).
  - rewrite (getOrCreateCart_created env _ db1 F).
    rewrite E in F. now rewrite (getOrCreateCart_created env _ db2 F).
Qed.

Lemma getCartSummary_ignores_products_witness :
  fst (CartController.getCartSummary Scenario.env2 Scenario.alice
         Scenario.shop)
  = fst (CartController.getCartSummary Scenario.env2 Scenario.alice
           (mkDB [Product.mk "A" "Widget" 99 [] 0] [Scenario.cartA3] [])).
Proof.
  apply getCartSummary_ignores_products. reflexivity.
Defined.

Lemma findById_upsert_same_key {A : Type} (key : A -> ObjectId) (d : A)
    (l : list A) (id : ObjectId) :
  key d = id -> findById key id (upsert key d l) = Some d.
Proof. intros <-. apply findById_upsert. Qed.

Lemma Cart_findOne_replaced (userId : ObjectId) (c c' : Cart.t)
    (l : list Cart.t) :
  NoDup (map Cart._id l) ->
  Cart_findOne userId l = Some c ->
  Cart._id c' = Cart._id c -> Cart.user c' = userId ->
  Cart_findOne userId (upsert Cart._id c' l) = Some c'.
Proof.
  unfold Cart_findOne; intros N F I U.
  induction l as [|x r IH]; simpl in *; [discriminate|].
  apply NoDup_cons_iff in N as [Nx Nr].
  destruct (String.eqb (Cart.user x) userId) eqn:E.
  - injection F as ->. rewrite I, String.eqb_refl; simpl.
    now rewrite U, String.eqb_refl.
  - destruct (String.eqb (Cart._id x) (Cart._id c')) eqn:K; simpl.
    + exfalso. apply String.eqb_eq in K. apply Nx.
      apply find_some in F as [Ic _]. rewrite K, I. now apply in_map.
    + rewrite E. now apply IH.
Qed.

Lemma upsert_twice {A : Type} (key : A -> ObjectId) (d : A) (l : list A) :
  upsert key d (upsert key d l) = upsert key d l.
Proof.
  induction l as [|x r IH]; simpl.
  - now rewrite String.eqb_refl.
  - destruct (String.eqb (key x) (key d)) eqn:K; simpl.
    + now rewrite String.eqb_refl.
    + now rewrite K, IH.
Qed.

(** X8.  With cart ids unique in the collection, the controller of [DELETE
    /api/v1/cart] leaves the user with a stored cart that has no lines,
    whether or not the user had a cart, and touches neither products nor
    orders. *)
Theorem clearCart_controller_empties (env : Env) (user : User.t) (db : DB) :
  NoDup (map Cart._id (carts db)) ->
  let r := CartController.clearCart env user db in
  fst r = Ok tt
  /\ (exists c,
         Cart_findOne (User._id user) (carts (snd r)) = Some c
         /\ Cart.items c = [])
  /\ products (snd r) = products db
  /\ orders (snd r) = orders db.
Proof.
  intros N r; subst r.
  destruct (Cart_findOne (User._id user) (carts db)) as [c|] eqn:F.
  - assert (E : CartController.clearCart env user db
                = (Ok tt,
                   with_carts
                     (upsert Cart._id
                        (Cart.with_updatedAt (now env) (Cart.with_items [] c))
                        (carts db)) db)).
    { unfold CartController.clearCart, bind.
      rewrite (getOrCreateCart_found env _ db c F).
      unfold clearCart; now rewrite Cart_save_spec. }
    rewrite E; simpl.
    split; [reflexivity|]. split; [|split; reflexivity].
    exists (Cart.with_updatedAt (now env) (Cart.with_items [] c)).
    split; [|reflexivity].
    apply Cart_findOne_replaced with (c := c); auto.
    simpl. now apply (Cart_findOne_user _ (carts db)).
  - set (c := Cart.mk (newId env) (User._id user) [] (now env) (now env)).
    assert (E : CartController.clearCart env user db
                = (Ok tt,
                   with_carts
                     (upsert Cart._id c (upsert Cart._id c (carts db))) db)).
    { unfold CartController.clearCart, bind.
      rewrite (getOrCreateCart_created env _ db F).
      unfold clearCart; now rewrite Cart_save_spec. }
    rewrite E; simpl.
    split; [reflexivity|]. split; [|split; reflexivity].
    exists c; split; [|reflexivity].
    rewrite upsert_twice. now apply Cart_findOne_upsert.
Qed.

Lemma clearCart_controller_empties_witness :
  let r := CartController.clearCart Scenario.env2 Scenario.alice Scenario.shop in
  fst r = Ok tt
  /\ (exists c,
         Cart_findOne (User._id Scenario.alice) (carts (snd r)) = Some c
         /\ Cart.items c = [])
  /\ products (snd r) = products Scenario.shop
  /\ orders (snd r) = orders Scenario.shop.
Proof.
  apply clearCart_controller_empties.
  simpl. constructor; [intros []|constructor].
Defined.

(** ** The cart controllers on a cart that has lines *)

(** On a populated cart that has a line, the first callback throws: the
    methods that search the lines end in an error before [save]. *)
Lemma populated_addItem_refused (env : Env) (productId : ObjectId)
    (quantity : Z) (this : Cart.t) (db : DB) :
  Cart.items this <> [] ->
  exists msg,
    CartMethods.addItem Populated env productId quantity this db
    = (Throw msg, db).
Proof.
  intros N. unfold CartMethods.addItem, bind, get, lift, throw; simpl.
  destruct (findById Product._id productId (products db));
    [|eexists; reflexivity].
  destruct (Product.stock _ <? quantity)%Z; [eexists; reflexivity|].
  rewrite findIndex_populated by exact N. eexists; reflexivity.
Qed.

Lemma populated_removeItem_refused (env : Env) (productId : ObjectId)
    (this : Cart.t) (db : DB) :
  Cart.items this <> [] ->
  CartMethods.removeItem Populated env productId this db
  = (Throw "TypeError: Cannot read properties of undefined", db).
Proof.
  intros N. unfold CartMethods.removeItem, bind, lift.
  now rewrite filter_populated by exact N.
Qed.

Lemma populated_updateItemQuantity_refused (env : Env)
    (productId : ObjectId) (quantity : Z) (this : Cart.t) (db : DB) :
  Cart.items this <> [] ->
  CartMethods.updateItemQuantity Populated env productId quantity this db
  = (Throw "TypeError: Cannot read properties of undefined", db).
Proof.
  intros N. unfold CartMethods.updateItemQuantity.
  destruct (quantity <? 1)%Z;
    [now apply populated_removeItem_refused|].
  unfold bind, lift. now rewrite findIndex_populated by exact N.
Qed.

(** C6.  Adding a product that is in the cart is to leave one line for it
    with the quantities summed; through [addToCart] it does not.  The
    controller calls [addItem] on the cart [getOrCreateCart] returns, which
    is populated: [item.product.toString()] throws on the first line, so
    for a user whose cart has a line every [addToCart] ends in an error
    and writes nothing.  With A x 2 in the cart, adding one more A leaves
    the cart at A x 2 instead of one line of 3.  A line is appended only
    to a cart without lines, and not even then when the product has no
    image or the quantity is below 1: [save] refuses the line. *)
Theorem addToCart_does_not_merge :
  (let db :=
     mkDB [Scenario.productA]
       [Cart.mk "c1" "u1" [CartItem.mk "A" "Widget" 10 "widget.jpg" 2] 0 1000]
       [] in
   CartController.addToCart Scenario.env2 Scenario.alice
     (AddItemBody.mk (Some "A") (Some 1%Z)) db
   = (Throw "TypeError: Cannot read properties of undefined", db))
  /\ (forall env user body db cart,
         Cart_findOne (User._id user) (carts db) = Some cart ->
         Cart.items cart <> [] ->
         is_error (fst (CartController.addToCart env user body db)) = true
         /\ snd (CartController.addToCart env user body db) = db)
  /\ (forall r env productId quantity this db product,
         findById Product._id productId (products db) = Some product ->
         Cart.items this = [] ->
         first_image_url (Product.images product) = ""
         \/ (quantity < 1)%Z ->
         is_error
           (fst (CartMethods.addItem r env productId quantity this db))
         = true
         /\ snd (CartMethods.addItem r env productId quantity this db) = db).
Proof.
  split; [reflexivity|]. split.
  - intros env user body db cart F N.
    assert (E : exists res,
               CartController.addToCart env user body db = (res, db)
               /\ is_error res = true).
    { unfold CartController.addToCart.
      destruct (JS.falsy_str (AddItemBody.productId body));
        [eexists; split; reflexivity|].
      unfold bind at 1. rewrite (getOrCreateCart_found env _ db cart F).
      unfold bind at 1. simpl PopulatedCart.cart.
      destruct (populated_addItem_refused env
                  (JS.or_str (AddItemBody.productId body) "")
                  match AddItemBody.quantity body with
                  | Some q => q
                  | None => 1%Z
                  end cart db N) as (msg & ->).
      eexists; split; reflexivity. }
    destruct E as (res & -> & E). now split.
  - intros r env productId quantity this db product F E B.
    assert (H : CartMethods.addItem r env productId quantity this db
                = if (Product.stock product <? quantity)%Z
                  then (Throw "Not enough stock available", db)
                  else
                    Cart_save env
                      (Cart.with_items
                         [CartItem.mk productId (Product.name product)
                            (Product.price product)
                            (first_image_url (Product.images product))
                            quantity] this) db).
    { unfold CartMethods.addItem, bind, get, lift, throw; simpl.
      rewrite F, E. destruct (Product.stock product <? quantity)%Z;
        reflexivity. }
    rewrite H. destruct (Product.stock product <? quantity)%Z; [now split|].
    rewrite Cart_save_invalid; [now split|].
    unfold Cart_valid, CartItem_valid, required; simpl.
    destruct B as [-> | L].
    + simpl. now rewrite andb_false_r.
    + apply Z.leb_gt in L. rewrite L. now rewrite !andb_false_r.
Qed.

(** X23.  For a user whose stored cart has a line, [updateCartItem] with a
    quantity and [removeFromCart] end in the [TypeError] of
    [item.product.toString()] on the populated cart and write nothing,
    whichever product they name; a request without a quantity is answered
    400 before the cart is read. *)
Theorem cart_line_requests_fail_on_filled_cart (env : Env) (user : User.t)
    (db : DB) (cart : Cart.t) :
  Cart_findOne (User._id user) (carts db) = Some cart ->
  Cart.items cart <> [] ->
  (forall productId quantity,
      CartController.updateCartItem env user productId
        (UpdateItemBody.mk (Some quantity)) db
      = (Throw "TypeError: Cannot read properties of undefined", db))
  /\ (forall productId,
         CartController.removeFromCart env user productId db
         = (Throw "TypeError: Cannot read properties of undefined", db))
  /\ (forall productId,
         CartController.updateCartItem env user productId
           (UpdateItemBody.mk None) db
         = (Fail (ErrorResponse.mk "Please provide a quantity" 400), db)).
Proof.
  intros F N. split; [|split; [|reflexivity]].
  - intros productId quantity. unfold CartController.updateCartItem; simpl.
    unfold bind at 1. rewrite (getOrCreateCart_found env _ db cart F).
    unfold bind at 1. simpl PopulatedCart.cart.
    now rewrite populated_updateItemQuantity_refused by exact N.
  - intros productId. unfold CartController.removeFromCart.
    unfold bind at 1. rewrite (getOrCreateCart_found env _ db cart F).
    unfold bind at 1. simpl PopulatedCart.cart.
    now rewrite populated_removeItem_refused by exact N.
Qed.

Lemma cart_line_requests_fail_on_filled_cart_witness :
  CartController.updateCartItem Scenario.env2 Scenario.alice "A"
    (UpdateItemBody.mk (Some 5%Z)) Scenario.shop
  = (Throw "TypeError: Cannot read properties of undefined", Scenario.shop)
  /\ CartController.removeFromCart Scenario.env2 Scenario.alice "A"
       Scenario.shop
     = (Throw "TypeError: Cannot read properties of undefined",
        Scenario.shop).
Proof.
  destruct (cart_line_requests_fail_on_filled_cart Scenario.env2
              Scenario.alice Scenario.shop Scenario.cartA3 eq_refl)
    as (U & R & _); [discriminate|].
  split; [apply U|apply R].
Defined.

(** ** Orders: who may do what, and what an update leaves alone *)

Lemma findById_upsert_other {A : Type} (key : A -> ObjectId) (d : A)
    (l : list A) (id : ObjectId) :
  key d <> id -> findById key id (upsert key d l) = findById key id l.
Proof.
  unfold findById; intros N. apply String.eqb_neq in N.
  induction l as [|x r IH]; simpl.
  - now rewrite N.
  - destruct (String.eqb (key x) (key d)) eqn:K; simpl.
    + apply String.eqb_eq in K. rewrite K, N. reflexivity.
    + now rewrite IH.
Qed.

(** What a save can do to the orders: nothing (validation refused the
    document, or a hook threw), or the write of the document, whose content
    the hooks did not touch. *)
Lemma Order_save_orders (env : Env) (this : OrderDoc.t) (db : DB) :
  orders (snd (Order_save env this db)) = orders db
  \/ exists d,
       fst (Order_save env this db) = Ok d
       /\ orders (snd (Order_save env this db))
          = upsert Order._id d (orders db)
       /\ same_order_content (OrderDoc.doc this) d
       /\ Order.orderStatus d = Order.orderStatus (OrderDoc.doc this)
       /\ Order.isPaid d = Order.isPaid (OrderDoc.doc this)
       /\ Order.paidAt d = Order.paidAt (OrderDoc.doc this).
Proof.
  destruct (Order_valid (OrderDoc.doc this)) eqn:V;
    [rewrite !Order_save_valid by exact V
    |left; now rewrite Order_save_invalid by exact V].
  clear V.
  unfold Order_hooks_and_write, generate_orderNumber, update_product_stock,
    add_tracking_update, bind, get, put, ret, throw, same_order_content.
  destruct this as [o isNew m sa pr dl]; simpl.
  destruct (JS.falsy_str (Order.orderNumber o)) eqn:Fn; simpl;
    destruct m; simpl;
    try (destruct (String.eqb (Order.orderStatus o) "Processing"); simpl);
    try (destruct (Order.shippingInfo o) eqn:Sh; simpl);
    try (left; reflexivity);
    right; eexists; (split; [reflexivity|]); (split; [reflexivity|]);
    simpl; repeat split; try reflexivity; try discriminate; auto.
Qed.

Lemma same_order_content_refl (o : Order.t) : same_order_content o o.
Proof. unfold same_order_content; repeat split; auto. Qed.

Lemma same_order_content_trans (a b c : Order.t) :
  same_order_content a b -> same_order_content b c ->
  JS.falsy_str (Order.orderNumber a) = false ->
  same_order_content a c.
Proof.
  unfold same_order_content.
  intros (A1 & A2 & A3 & A4 & A5 & A6 & A7 & A8 & A9 & A10 & A11)
         (B1 & B2 & B3 & B4 & B5 & B6 & B7 & B8 & B9 & B10 & B11) N.
  repeat split; try congruence.
  intros _. rewrite B11; [now apply A11|]. rewrite (A11 N). exact N.
Qed.

(** The effect on the database of a request that loads an order, edits
    it in memory without touching what [same_order_content] protects, and
    saves it. *)
Lemma saved_edit_frame (env : Env) (id : ObjectId) (db db' : DB)
    (o : Order.t) (this : OrderDoc.t) :
  order_of id db = Some o ->
  same_order_content o (OrderDoc.doc this) ->
  db' = snd (Order_save env this db) ->
  carts db' = carts db
  /\ (forall id', id' <> id -> order_of id' db' = order_of id' db)
  /\ exists o', order_of id db' = Some o' /\ same_order_content o o'.
Proof.
  intros F S ->. pose proof (findById_key _ _ _ _ F) as K.
  split; [apply Order_save_preserves_carts|].
  destruct (Order_save_orders env this db) as [E|(d & _ & E & Sd & _)];
    unfold order_of; rewrite E.
  - split; [reflexivity|]. exists o; split; [exact F|].
    apply same_order_content_refl.
  - assert (Kd : Order._id d = id).
    { destruct Sd as (I & _). destruct S as (I' & _). congruence. }
    split.
    + intros id' N. apply findById_upsert_other. congruence.
    + exists d. split; [now apply findById_upsert_same_key|].
      unfold same_order_content in *.
      destruct S as (A1 & A2 & A3 & A4 & A5 & A6 & A7 & A8 & A9 & A10 & A11).
      destruct Sd as (B1 & B2 & B3 & B4 & B5 & B6 & B7 & B8 & B9 & B10 & B11).
      repeat split; try congruence.
      intros N. rewrite B11; [now apply A11|]. rewrite (A11 N). exact N.
Qed.

Lemma updateOrderToPaid_unfold (env : Env) (user : User.t) (id : ObjectId)
    (body : PayBody.t) (db : DB) (o : Order.t) :
  order_of id db = Some o ->
  negb (String.eqb (Order.user o) (User._id user))
  && negb (String.eqb (User.role user) "admin") = false ->
  exists this,
    same_order_content o (OrderDoc.doc this)
    /\ OrderDoc.orderStatus_modified this = false
    /\ Order.isPaid (OrderDoc.doc this) = true
    /\ Order.paidAt (OrderDoc.doc this) = Some (now env)
    /\ Order.orderStatus (OrderDoc.doc this) = Order.orderStatus o
    /\ Order_valid (OrderDoc.doc this) = Order_valid o
    /\ updateOrderToPaid env user id body db
       = bind (Order_save env this)
           (fun updatedOrder => ret (mkResponse 200 updatedOrder)) db.
Proof.
  unfold order_of; intros F A. unfold updateOrderToPaid, Order_findById.
  unfold bind at 1 2, get; unfold ret at 1; simpl. rewrite F; simpl.
  rewrite A. eexists.
  split; [|split; [|split; [|split; [|split; [|split; [|reflexivity]]]]]];
    try reflexivity.
  unfold same_order_content; simpl. repeat split; auto.
Qed.

(** X9.  Who may mark an order paid: an unknown order is answered 404, and
    a caller who is neither the order's owner nor an admin 401, both
    without any write; for the owner or an admin a stored order that
    satisfies the schema is stored with [isPaid] set and [paidAt] at the
    current time, whether or not it was paid before, and one that does not
    satisfy the schema is refused by [save] and nothing is written. *)
Theorem updateOrderToPaid_access (env : Env) (user : User.t) (id : ObjectId)
    (body : PayBody.t) (db : DB) :
  (order_of id db = None ->
   updateOrderToPaid env user id body db
   = (Fail (ErrorResponse.mk "Order not found" 404), db))
  /\ (forall o,
         order_of id db = Some o ->
         Order.user o <> User._id user -> User.role user <> "admin" ->
         updateOrderToPaid env user id body db
         = (Fail (ErrorResponse.mk "Not authorized to update this order" 401),
            db))
  /\ (forall o,
         order_of id db = Some o ->
         Order.user o = User._id user \/ User.role user = "admin" ->
         Order_valid o = true ->
         exists o' db',
           updateOrderToPaid env user id body db
           = (Ok (mkResponse 200 o'), db')
           /\ order_of id db' = Some o'
           /\ Order.isPaid o' = true
           /\ Order.paidAt o' = Some (now env)
           /\ Order.orderStatus o' = Order.orderStatus o)
  /\ (forall o,
         order_of id db = Some o ->
         Order.user o = User._id user \/ User.role user = "admin" ->
         Order_valid o = false ->
         updateOrderToPaid env user id body db
         = (Throw "ValidationError: Order validation failed", db)).
Proof.
  assert (Auth : forall o,
             Order.user o = User._id user \/ User.role user = "admin" ->
             negb (String.eqb (Order.user o) (User._id user))
             && negb (String.eqb (User.role user) "admin") = false).
  { intros o [->| ->]; [now rewrite String.eqb_refl|].
    now rewrite andb_false_r. }
  split; [|split; [|split]].
  - unfold order_of; intros F. unfold updateOrderToPaid, Order_findById.
    unfold bind, get, ret; simpl. now rewrite F.
  - unfold order_of; intros o F N R.
    unfold updateOrderToPaid, Order_findById.
    unfold bind at 1 2, get; unfold ret at 1; simpl. rewrite F; simpl.
    apply String.eqb_neq in N, R. now rewrite N, R.
  - intros o F A V.
    destruct (updateOrderToPaid_unfold env user id body db o F (Auth o A))
      as (this & S & M & P & T & St & Vt & ->).
    rewrite V in Vt.
    unfold bind, ret; rewrite (Order_save_unmodified env this db Vt M).
    do 2 eexists; split; [reflexivity|].
    split.
    + apply order_of_stored with (db := db); [reflexivity|].
      destruct S as (I & _). rewrite I.
      now apply (findById_key Order._id id (orders db)).
    + auto.
  - intros o F A V.
    destruct (updateOrderToPaid_unfold env user id body db o F (Auth o A))
      as (this & _ & _ & _ & _ & _ & Vt & ->).
    rewrite V in Vt.
    unfold bind. now rewrite (Order_save_invalid env this db Vt).
Qed.

Lemma updateOrderToPaid_access_witness :
  updateOrderToPaid Scenario.env2 (User.mk "u9" "user" "eve@example.com") "o1"
    Scenario.payment (Scenario.shopWithOrder None)
  = (Fail (ErrorResponse.mk "Not authorized to update this order" 401),
     Scenario.shopWithOrder None)
  /\ updateOrderToPaid Scenario.env2 Scenario.alice "o7" Scenario.payment
       (Scenario.shopWithOrder None)
     = (Fail (ErrorResponse.mk "Order not found" 404),
        Scenario.shopWithOrder None)
  /\ (exists o' db',
         updateOrderToPaid Scenario.env2 Scenario.admin "o1" Scenario.payment
           (Scenario.shopWithOrder None)
         = (Ok (mkResponse 200 o'), db')
         /\ order_of "o1" db' = Some o'
         /\ Order.isPaid o' = true
         /\ Order.paidAt o' = Some (now Scenario.env2)
         /\ Order.orderStatus o' = Order.orderStatus (Scenario.order1 None))
  /\ (let unnumbered :=
        mkDB [] [] [OrderSet.orderNumber None (Scenario.order1 None)] in
      updateOrderToPaid Scenario.env2 Scenario.alice "o1" Scenario.payment
        unnumbered
      = (Throw "ValidationError: Order validation failed", unnumbered)).
Proof.
  split; [|split; [|split]].
  - apply (proj1 (proj2 (updateOrderToPaid_access Scenario.env2
                           (User.mk "u9" "user" "eve@example.com") "o1"
                           Scenario.payment (Scenario.shopWithOrder None)))
             (Scenario.order1 None)); [reflexivity|discriminate|discriminate].
  - apply (proj1 (updateOrderToPaid_access Scenario.env2 Scenario.alice "o7"
                    Scenario.payment (Scenario.shopWithOrder None))).
    reflexivity.
  - apply (proj1 (proj2 (proj2 (updateOrderToPaid_access Scenario.env2
                                  Scenario.admin "o1" Scenario.payment
                                  (Scenario.shopWithOrder None))))
             (Scenario.order1 None));
      [reflexivity|right; reflexivity|reflexivity].
  - apply (proj2 (proj2 (proj2 (updateOrderToPaid_access Scenario.env2
                                  Scenario.alice "o1" Scenario.payment
                                  (mkDB [] []
                                     [OrderSet.orderNumber None
                                        (Scenario.order1 None)]))))
             (OrderSet.orderNumber None (Scenario.order1 None)));
      [reflexivity|left; reflexivity|reflexivity].
Defined.

Lemma unchanged_frame (id : ObjectId) (db : DB) (o : Order.t) :
  order_of id db = Some o ->
  carts db = carts db
  /\ (forall id', id' <> id -> order_of id' db = order_of id' db)
  /\ exists o', order_of id db = Some o' /\ same_order_content o o'.
Proof.
  intros F. split; [reflexivity|]. split; [reflexivity|].
  exists o; split; [exact F|apply same_order_content_refl].
Qed.

Lemma updateOrderStatus_unfold (env : Env) (id : ObjectId)
    (body : StatusBody.t) (db : DB) (status : string) (o : Order.t) :
  StatusBody.status body = Some status -> String.eqb status "" = false ->
  order_of id db = Some o ->
  exists this,
    same_order_content o (OrderDoc.doc this)
    /\ snd (updateOrderStatus env id body db) = snd (Order_save env this db).
Proof.
  unfold order_of; intros S N F. unfold updateOrderStatus, Order_findById.
  rewrite S, N. unfold bind at 1 2, get; unfold ret at 1; simpl.
  rewrite F; simpl. rewrite snd_bind_pure by reflexivity.
  eexists; split; [|reflexivity].
  unfold same_order_content.
  destruct (JS.falsy_str (StatusBody.trackingNumber body)); simpl;
    repeat split; auto.
Qed.

(** X10.  Marking an order paid and setting its status write to that order
    alone, and only to its status, payment flags, tracking number and
    tracking entries: whatever the outcome of the request, the carts and
    every other order are as before, and the order keeps its id, owner,
    items, shipping and payment blocks, its four prices, its creation date
    and its order number. *)
Theorem order_updates_leave_the_rest (env : Env) (id : ObjectId) (db : DB)
    (o : Order.t) :
  order_of id db = Some o ->
  (forall user body,
      let db' := snd (updateOrderToPaid env user id body db) in
      carts db' = carts db
      /\ (forall id', id' <> id -> order_of id' db' = order_of id' db)
      /\ exists o', order_of id db' = Some o' /\ same_order_content o o')
  /\ (forall body,
         let db' := snd (updateOrderStatus env id body db) in
         carts db' = carts db
         /\ (forall id', id' <> id -> order_of id' db' = order_of id' db)
         /\ exists o', order_of id db' = Some o' /\ same_order_content o o').
Proof.
  intros F. split.
  - intros user body db'; subst db'.
    destruct (negb (String.eqb (Order.user o) (User._id user))
              && negb (String.eqb (User.role user) "admin")) eqn:A.
    + assert (E : updateOrderToPaid env user id body db
                  = (Fail (ErrorResponse.mk
                             "Not authorized to update this order" 401), db)).
      { unfold order_of in F. unfold updateOrderToPaid, Order_findById.
        unfold bind at 1 2, get; unfold ret at 1; simpl. rewrite F; simpl.
        now rewrite A. }
      rewrite E. now apply unchanged_frame.
    + destruct (updateOrderToPaid_unfold env user id body db o F A)
        as (this & S & _ & _ & _ & _ & _ & ->).
      rewrite snd_bind_pure by reflexivity.
      now apply (saved_edit_frame env id db _ o this).
  - intros body db'; subst db'.
    destruct (StatusBody.status body) as [status|] eqn:S;
      [|unfold updateOrderStatus; rewrite S; now apply unchanged_frame].
    destruct (String.eqb status "") eqn:N;
      [unfold updateOrderStatus; rewrite S, N; now apply unchanged_frame|].
    destruct (updateOrderStatus_unfold env id body db status o S N F)
      as (this & C & ->).
    now apply (saved_edit_frame env id db _ o this).
Qed.

Lemma order_updates_leave_the_rest_witness :
  let db := Scenario.shopWithOrder (Some Scenario.home) in
  let db' :=
    snd (updateOrderStatus Scenario.env2 "o1" (Scenario.setStatus "Shipped")
           db) in
  carts db' = carts db
  /\ (forall id', id' <> "o1" -> order_of id' db' = order_of id' db)
  /\ exists o',
       order_of "o1" db' = Some o'
       /\ same_order_content (Scenario.order1 (Some Scenario.home)) o'.
Proof.
  intros db db'.
  apply (proj2 (order_updates_leave_the_rest Scenario.env2 "o1" db
                  (Scenario.order1 (Some Scenario.home)) eq_refl)
           (Scenario.setStatus "Shipped")).
Defined.

(** X11.  [updateOrderStatus] asks for a status before it looks the order
    up: a request without a status, or with an empty one, is answered 400
    even for an unknown order; with a status, an unknown order is answered
    404. Neither writes anything. *)
Theorem updateOrderStatus_refusals (env : Env) (id : ObjectId)
    (body : StatusBody.t) (db : DB) :
  (JS.falsy_str (StatusBody.status body) = true ->
   updateOrderStatus env id body db
   = (Fail (ErrorResponse.mk "Status is required" 400), db))
  /\ (JS.falsy_str (StatusBody.status body) = false ->
      order_of id db = None ->
      updateOrderStatus env id body db
      = (Fail (ErrorResponse.mk "Order not found" 404), db)).
Proof.
  unfold updateOrderStatus, JS.falsy_str.
  destruct (StatusBody.status body) as [status|]; split; intros H;
    try discriminate; try reflexivity.
  - now rewrite H.
  - intros F. rewrite H. unfold order_of in F. unfold Order_findById.
    unfold bind, get, ret; simpl. now rewrite F.
Qed.

Lemma updateOrderStatus_refusals_witness :
  updateOrderStatus Scenario.env2 "o7" (StatusBody.mk None None None None)
    (Scenario.shopWithOrder None)
  = (Fail (ErrorResponse.mk "Status is required" 400),
     Scenario.shopWithOrder None)
  /\ updateOrderStatus Scenario.env2 "o7" (Scenario.setStatus "Shipped")
       (Scenario.shopWithOrder None)
     = (Fail (ErrorResponse.mk "Order not found" 404),
        Scenario.shopWithOrder None).
Proof.
  split.
  - apply (proj1 (updateOrderStatus_refusals Scenario.env2 "o7"
                    (StatusBody.mk None None None None)
                    (Scenario.shopWithOrder None))). reflexivity.
  - apply (proj2 (updateOrderStatus_refusals Scenario.env2 "o7"
                    (Scenario.setStatus "Shipped")
                    (Scenario.shopWithOrder None))); reflexivity.
Defined.

(** X12.  [getOrderById] never writes. An unknown order is answered 404.
    For an order whose owner's account exists, the order is returned
    exactly to its owner and to admins, and any other caller is answered
    401. When the owner's account no longer exists the request throws, for
    every caller, admins included. *)
Theorem getOrderById_access (accounts : list Account.t) (user : User.t)
    (id : ObjectId) (db : DB) :
  snd (getOrderById accounts user id db) = db
  /\ (order_of id db = None ->
      fst (getOrderById accounts user id db)
      = Fail (ErrorResponse.mk "Order not found" 404))
  /\ (forall o owner,
         order_of id db = Some o ->
         findById Account._id (Order.user o) accounts = Some owner ->
         (Order.user o = User._id user \/ User.role user = "admin" ->
          fst (getOrderById accounts user id db)
          = Ok (200%Z, OrderWithUser.mk o (Some owner)))
         /\ (Order.user o <> User._id user -> User.role user <> "admin" ->
             fst (getOrderById accounts user id db)
             = Fail (ErrorResponse.mk "Not authorized to view this order"
                       401)))
  /\ (forall o,
         order_of id db = Some o ->
         findById Account._id (Order.user o) accounts = None ->
         fst (getOrderById accounts user id db)
         = Throw "TypeError: Cannot read properties of null").
Proof.
  unfold order_of, getOrderById, populate_user, bind, get, ret, next, throw;
    simpl.
  destruct (findById Order._id id (orders db)) as [o|]; simpl.
  - split.
    + destruct (findById Account._id (Order.user o) accounts); simpl;
        [destruct (_ && _)|]; reflexivity.
    + split; [discriminate|]. split.
      * intros o' owner E O; injection E as <-. rewrite O; simpl.
        rewrite (findById_key _ _ _ _ O). split.
        -- intros [->| ->]; [now rewrite String.eqb_refl|].
           now rewrite andb_false_r.
        -- intros N R. apply String.eqb_neq in N, R. now rewrite N, R.
      * intros o' E O; injection E as <-. now rewrite O.
  - split; [reflexivity|]. split; [reflexivity|].
    split; [intros o owner E; discriminate|intros o E; discriminate].
Qed.

Lemma getOrderById_access_witness :
  let accounts := [Account.mk "u1" "Alice" "alice@example.com" "user"] in
  let db := Scenario.shopWithOrder None in
  fst (getOrderById accounts Scenario.alice "o1" db)
  = Ok (200%Z,
        OrderWithUser.mk (Scenario.order1 None)
          (Some (Account.mk "u1" "Alice" "alice@example.com" "user")))
  /\ fst (getOrderById accounts (User.mk "u9" "user" "eve@example.com") "o1"
            db)
     = Fail (ErrorResponse.mk "Not authorized to view this order" 401)
  /\ fst (getOrderById [] Scenario.admin "o1" db)
     = Throw "TypeError: Cannot read properties of null"
  /\ fst (getOrderById accounts Scenario.alice "o7" db)
     = Fail (ErrorResponse.mk "Order not found" 404).
Proof.
  intros accounts db.
  pose proof (fun u i => getOrderById_access accounts u i db) as H.
  split; [|split; [|split]].
  - destruct (H Scenario.alice "o1") as (_ & _ & A & _).
    apply (proj1 (A (Scenario.order1 None) _ eq_refl eq_refl)).
    left; reflexivity.
  - destruct (H (User.mk "u9" "user" "eve@example.com") "o1")
      as (_ & _ & A & _).
    apply (proj2 (A (Scenario.order1 None) _ eq_refl eq_refl));
      discriminate.
  - destruct (getOrderById_access [] Scenario.admin "o1" db)
      as (_ & _ & _ & T).
    apply (T (Scenario.order1 None)); reflexivity.
  - destruct (H Scenario.alice "o7") as (_ & N & _). apply N. reflexivity.
Defined.

(** ** Reading orders: lists and statistics *)

Lemma insert_newest_first_perm (o : Order.t) (l : list Order.t) :
  Permutation (insert_newest_first o l) (o :: l).
Proof.
  induction l as [|x r IH]; simpl; [reflexivity|].
  destruct (Order.createdAt x <=? Order.createdAt o)%Z; [reflexivity|].
  rewrite IH. apply perm_swap.
Qed.

Lemma sort_newest_first_perm (l : list Order.t) :
  Permutation (sort_newest_first l) l.
Proof.
  induction l as [|x r IH]; simpl; [reflexivity|].
  rewrite insert_newest_first_perm. now constructor.
Qed.

Lemma insert_newest_first_sorted (o : Order.t) (l : list Order.t) :
  StronglySorted newer_or_same l ->
  StronglySorted newer_or_same (insert_newest_first o l).
Proof.
  unfold newer_or_same.
  induction l as [|x r IH]; simpl; intros S.
  - constructor; constructor.
  - apply StronglySorted_inv in S as [Sr Fx].
    destruct (Order.createdAt x <=? Order.createdAt o)%Z eqn:E.
    + apply Z.leb_le in E. constructor; [now constructor|].
      constructor; [exact E|].
      apply Forall_forall; intros y Hy.
      rewrite Forall_forall in Fx. specialize (Fx y Hy). lia.
    + apply Z.leb_gt in E. constructor; [now apply IH|].
      apply Forall_forall; intros y Hy.
      apply (Permutation_in _ (insert_newest_first_perm o r)) in Hy.
      destruct Hy as [<-|Hy]; [lia|].
      rewrite Forall_forall in Fx. now apply Fx.
Qed.

Lemma sort_newest_first_sorted (l : list Order.t) :
  StronglySorted newer_or_same (sort_newest_first l).
Proof.
  induction l as [|x r IH]; simpl; [constructor|].
  now apply insert_newest_first_sorted.
Qed.

(** X13.  [getMyOrders] writes nothing and lists the caller's orders, all
    of them and no order of anyone else, each as often as it is stored,
    newest first; [count] is the length of the list. *)
Theorem getMyOrders_lists_own_orders (user : User.t) (db : DB) :
  exists l,
    getMyOrders user db = (Ok (200%Z, OrderList.mk (List.length l) l), db)
    /\ Permutation l
         (filter (fun o => String.eqb (Order.user o) (User._id user))
            (orders db))
    /\ (forall o,
           In o l <-> In o (orders db) /\ Order.user o = User._id user)
    /\ StronglySorted newer_or_same l.
Proof.
  eexists. split; [reflexivity|].
  split; [apply sort_newest_first_perm|].
  split; [|apply sort_newest_first_sorted].
  intros o. split.
  - intros I. apply (Permutation_in _ (sort_newest_first_perm _)) in I.
    apply filter_In in I as [I E]. split; [exact I|].
    now apply String.eqb_eq.
  - intros [I E].
    apply (Permutation_in _ (Permutation_sym (sort_newest_first_perm _))).
    apply filter_In. split; [exact I|]. now apply String.eqb_eq.
Qed.

Lemma fold_left_Qplus (r : list Q) (p : Q) :
  (fold_left Qplus r p == p + sum_Q r)%Q.
Proof.
  revert p; induction r as [|x r IH]; intros p; simpl.
  - now rewrite Qplus_0_r.
  - rewrite IH. now rewrite Qplus_assoc.
Qed.

Lemma fold_left_Qmin_le (r : list Q) (p : Q) :
  (fold_left Qmin r p <= p)%Q
  /\ forall x, In x r -> (fold_left Qmin r p <= x)%Q.
Proof.
  revert p; induction r as [|y r IH]; intros p; simpl.
  - split; [apply Qle_refl|intros x []].
  - destruct (IH (Qmin p y)) as [A B]. split.
    + eapply Qle_trans; [exact A|apply Q.le_min_l].
    + intros x [<-|I]; [|now apply B].
      eapply Qle_trans; [exact A|apply Q.le_min_r].
Qed.

Lemma fold_left_Qmax_ge (r : list Q) (p : Q) :
  (p <= fold_left Qmax r p)%Q
  /\ forall x, In x r -> (x <= fold_left Qmax r p)%Q.
Proof.
  revert p; induction r as [|y r IH]; intros p; simpl.
  - split; [apply Qle_refl|intros x []].
  - destruct (IH (Qmax p y)) as [A B]. split.
    + eapply Qle_trans; [apply Q.le_max_l|exact A].
    + intros x [<-|I]; [|now apply B].
      eapply Qle_trans; [apply Q.le_max_r|exact A].
Qed.

Lemma inject_succ (n : nat) :
  (inject_Z (Z.of_nat (S n)) == 1 + inject_Z (Z.of_nat n))%Q.
Proof.
  rewrite Nat2Z.inj_succ. unfold Z.succ. rewrite inject_Z_plus. ring.
Qed.

Lemma sum_Q_lower (m : Q) (l : list Q) :
  (forall x, In x l -> m <= x)%Q ->
  (inject_Z (Z.of_nat (List.length l)) * m <= sum_Q l)%Q.
Proof.
  induction l as [|x r IH]; intros H.
  - simpl. rewrite Qmult_0_l. apply Qle_refl.
  - simpl sum_Q. simpl List.length. rewrite inject_succ.
    assert (A : (m <= x)%Q) by (apply H; now left).
    assert (B : (inject_Z (Z.of_nat (List.length r)) * m <= sum_Q r)%Q)
      by (apply IH; intros y Hy; apply H; now right).
    lra.
Qed.

Lemma sum_Q_upper (m : Q) (l : list Q) :
  (forall x, In x l -> x <= m)%Q ->
  (sum_Q l <= inject_Z (Z.of_nat (List.length l)) * m)%Q.
Proof.
  induction l as [|x r IH]; intros H.
  - simpl. rewrite Qmult_0_l. apply Qle_refl.
  - simpl sum_Q. simpl List.length. rewrite inject_succ.
    assert (A : (x <= m)%Q) by (apply H; now left).
    assert (B : (sum_Q r <= inject_Z (Z.of_nat (List.length r)) * m)%Q)
      by (apply IH; intros y Hy; apply H; now right).
    lra.
Qed.

(** X14.  [getOrderStats] writes nothing. Without a paid order it answers
    an empty object. Otherwise it answers one group over the paid orders
    alone: their number, the sum of their totals, and an average, a
    minimum and a maximum with minimum <= average <= maximum, the average
    times the number giving the sum, and every paid order's total lying
    between the minimum and the maximum. *)
Theorem getOrderStats_aggregates (db : DB) :
  let paid := filter Order.isPaid (orders db) in
  snd (getOrderStats db) = db
  /\ (paid = [] -> fst (getOrderStats db) = Ok (200%Z, None))
  /\ (paid <> [] ->
      exists s,
        fst (getOrderStats db) = Ok (200%Z, Some s)
        /\ OrderStats.totalOrders s = List.length paid
        /\ (OrderStats.totalSales s == sum_Q (map Order.totalPrice paid))%Q
        /\ (OrderStats.avgOrderValue s
            * inject_Z (Z.of_nat (OrderStats.totalOrders s))
            == OrderStats.totalSales s)%Q
        /\ (OrderStats.minOrderValue s <= OrderStats.avgOrderValue s)%Q
        /\ (OrderStats.avgOrderValue s <= OrderStats.maxOrderValue s)%Q
        /\ (forall o, In o paid ->
              OrderStats.minOrderValue s <= Order.totalPrice o
              /\ Order.totalPrice o <= OrderStats.maxOrderValue s)%Q).
Proof.
  intros paid. split; [reflexivity|].
  unfold getOrderStats, aggregate_order_stats, bind, get, ret; simpl.
  fold paid. split.
  - now intros ->.
  - intros N. destruct paid as [|o r] eqn:P; [contradiction|]. clear N.
    simpl map. set (p := Order.totalPrice o).
    set (ps := map Order.totalPrice r).
    eexists; split; [reflexivity|]. simpl.
    change (Z.pos (Pos.of_succ_nat (List.length ps)))
      with (Z.of_nat (S (List.length ps))).
    set (n := inject_Z (Z.of_nat (S (List.length ps)))).
    assert (Len : List.length ps = List.length r)
      by (unfold ps; apply length_map).
    assert (Npos : (0 < n)%Q).
    { unfold n. change 0%Q with (inject_Z 0). rewrite <- Zlt_Qlt. lia. }
    assert (Nz : ~ (n == 0)%Q).
    { intros Z. apply (Qlt_not_eq _ _ Npos). now symmetry. }
    assert (T : (fold_left Qplus ps p == sum_Q (p :: ps))%Q)
      by (rewrite fold_left_Qplus; reflexivity).
    destruct (fold_left_Qmin_le ps p) as [Mp Mr].
    destruct (fold_left_Qmax_ge ps p) as [Xp Xr].
    assert (Lo : (n * fold_left Qmin ps p <= sum_Q (p :: ps))%Q).
    { apply (sum_Q_lower _ (p :: ps)). intros x [<-|I]; auto. }
    assert (Hi : (sum_Q (p :: ps) <= n * fold_left Qmax ps p)%Q).
    { apply (sum_Q_upper _ (p :: ps)). intros x [<-|I]; auto. }
    split; [now rewrite Len|].
    split; [exact T|].
    split; [field; exact Nz|].
    split.
    + apply Qle_shift_div_l; [exact Npos|]. rewrite T.
      now rewrite Qmult_comm.
    + split.
      * apply Qle_shift_div_r; [exact Npos|]. rewrite T.
        now rewrite Qmult_comm.
      * intros x [<-|I]; [now split|].
        split; [apply Mr|apply Xr]; unfold ps; now apply in_map.
Qed.

Lemma getOrderStats_aggregates_witness :
  fst (getOrderStats (Scenario.shopWithOrder None)) = Ok (200%Z, None)
  /\ exists s,
       fst (getOrderStats
              (mkDB [] []
                 [OrderSet.isPaid true (Scenario.order1 None);
                  Scenario.order1 (Some Scenario.home)]))
       = Ok (200%Z, Some s)
       /\ OrderStats.totalOrders s = 1%nat
       /\ (OrderStats.totalSales s == 44.5)%Q.
Proof.
  split.
  - apply (proj1 (proj2 (getOrderStats_aggregates
                           (Scenario.shopWithOrder None)))).
    reflexivity.
  - destruct (proj2 (proj2 (getOrderStats_aggregates
                              (mkDB [] []
                                 [OrderSet.isPaid true (Scenario.order1 None);
                                  Scenario.order1 (Some Scenario.home)])))
                (fun E => match E with eq_refl => I end))
      as (s & E & L & T & _).
    exists s. split; [exact E|]. split; [exact L|].
    rewrite T. reflexivity.
Defined.

(** ** Routing of the orders API *)

Section Routing.
Variable verify : string -> option ObjectId.
Variable accounts : list Account.t.

Lemma protect_ok (req : Http.Request) (user : option Account.t) :
  protect verify accounts req = Ok user ->
  exists token id,
    request_token req = Some token /\ token <> ""
    /\ verify token = Some id
    /\ user = findById Account._id id accounts.
Proof.
  unfold protect.
  destruct (request_token req) as [token|] eqn:T; simpl; [|discriminate].
  destruct (String.eqb token "") eqn:E; [discriminate|].
  destruct (verify token) as [id|] eqn:V; [|discriminate].
  intros H; injection H as <-. exists token, id.
  repeat split; auto. now apply String.eqb_neq.
Qed.

Lemma authorize_admin_ok (user : option Account.t) :
  authorize ["admin"] user = Ok tt ->
  exists a, user = Some a /\ Account.role a = "admin".
Proof.
  unfold authorize. destruct user as [a|]; [|discriminate].
  simpl. destruct (String.eqb (Account.role a) "admin") eqn:E; simpl;
    [|discriminate].
  intros _. exists a; split; [reflexivity|]. now apply String.eqb_eq.
Qed.

(** The controller a request reaches, read off the table: it depends on
    the method and on the shape of the path alone. *)
Ltac walk_routes :=
  repeat match goal with
         | |- context [Http.same_literal ?a ?b] =>
             destruct (Http.same_literal a b) eqn:?; cbn -[Http.same_literal authorize]
         | |- context [authorize ?r ?u] =>
             destruct (authorize r u) as [[]|?|?] eqn:?;
             cbn -[Http.same_literal authorize]
         end.

(** X15.  No request is ever handed to [getOrderStats] or
    [getMonthlySales]: [GET /:id] is registered before [GET /stats] and
    [GET /monthly-sales] and takes every one-segment path but [myorders]
    (in any case of its letters). An authenticated [GET] of such a path,
    [stats] and [monthly-sales] included, reaches [getOrderById] with the
    segment as [id]. *)
Theorem stats_routes_are_shadowed (req : Http.Request) :
  (forall params user,
      dispatch verify accounts orderRoutes req None
      <> Handled h_getOrderStats params user
      /\ dispatch verify accounts orderRoutes req None
         <> Handled h_getMonthlySales params user)
  /\ (forall user segment,
         protect verify accounts req = Ok user ->
         Http.method req = Http.GET ->
         Http.path req = [segment] ->
         Http.same_literal "myorders" segment = false ->
         dispatch verify accounts orderRoutes req None
         = Handled h_getOrderById [("id", segment)] user).
Proof.
  destruct req as [m p a c]. split.
  - intros params user. unfold orderRoutes, dispatch, run_middleware;
      cbn -[Http.same_literal authorize protect].
    destruct (protect verify accounts (Http.mkRequest m p a c))
      as [u|e|msg]; [|split; discriminate|split; discriminate].
    destruct m; destruct p as [|s1 [|s2 [|s3 p]]];
      cbn -[Http.same_literal authorize];
      walk_routes; split; discriminate.
  - intros user segment P M Pa N. simpl in M, Pa. subst m p.
    unfold orderRoutes, dispatch, run_middleware;
      cbn -[Http.same_literal authorize protect]. rewrite P.
    now rewrite N.
Qed.

(** X16.  Every request the router hands to a controller carries a token
    that verified, and [req.user] is the account the token names, or null
    when that account is gone. The controllers [getOrders],
    [updateOrderToDelivered] and [updateOrderStatus] are reached by admins
    only. A request that carries no token is answered 401. *)
Theorem order_routes_guard (req : Http.Request) :
  (forall handler params user,
      dispatch verify accounts orderRoutes req None
      = Handled handler params user ->
      (exists token id,
          request_token req = Some token /\ token <> ""
          /\ verify token = Some id
          /\ user = findById Account._id id accounts)
      /\ (handler = h_getOrders \/ handler = h_updateOrderToDelivered
          \/ handler = h_updateOrderStatus ->
          exists a, user = Some a /\ Account.role a = "admin"))
  /\ (request_token req = None ->
      dispatch verify accounts orderRoutes req None
      = Answered (ErrorResponse.mk "Not authorized to access this route" 401)).
Proof.
  split.
  - intros handler params user.
    unfold orderRoutes, dispatch, run_middleware;
      cbn -[Http.same_literal authorize protect].
    destruct (protect verify accounts req) as [u|e|msg] eqn:P;
      [|discriminate|discriminate].
    apply protect_ok in P.
    destruct req as [m p a c]; cbn -[Http.same_literal authorize].
    destruct m; destruct p as [|s1 [|s2 [|s3 p]]];
      cbn -[Http.same_literal authorize];
      repeat match goal with
             | |- context [Http.same_literal ?a ?b] =>
                 destruct (Http.same_literal a b) eqn:?; cbn -[Http.same_literal authorize]
             | |- context [authorize ?r ?u] =>
                 let A := fresh "A" in
                 destruct (authorize r u) as [[]|?|?] eqn:A;
                 cbn -[Http.same_literal authorize];
                 [apply authorize_admin_ok in A|..]
             end;
      try discriminate;
      intros H; injection H as <- <- <-;
      (split; [exact P|]);
      intros [E|[E|E]]; try discriminate; assumption.
  - intros T. unfold orderRoutes, dispatch, run_middleware, protect; simpl.
    now rewrite T.
Qed.

End Routing.

Lemma stats_routes_are_shadowed_witness :
  dispatch (fun token => if String.eqb token "t1" then Some "u0" else None)
    [Account.mk "u0" "Root" "admin@example.com" "admin"] orderRoutes
    (Http.mkRequest Http.GET ["stats"] (Some "Bearer t1") None) None
  = Handled h_getOrderById [("id", "stats")]
      (Some (Account.mk "u0" "Root" "admin@example.com" "admin")).
Proof.
  apply (proj2 (stats_routes_are_shadowed
                  (fun token => if String.eqb token "t1" then Some "u0"
                                else None)
                  [Account.mk "u0" "Root" "admin@example.com" "admin"]
                  (Http.mkRequest Http.GET ["stats"] (Some "Bearer t1")
                     None)));
    reflexivity.
Defined.

Lemma order_routes_guard_witness :
  dispatch (fun token => if String.eqb token "t1" then Some "u1" else None)
    [Account.mk "u1" "Alice" "alice@example.com" "user"] orderRoutes
    (Http.mkRequest Http.PUT ["o1"; "deliver"] None None) None
  = Answered (ErrorResponse.mk "Not authorized to access this route" 401)
  /\ exists a,
       Some (Account.mk "u0" "Root" "admin@example.com" "admin") = Some a
       /\ Account.role a = "admin".
Proof.
  split.
  - apply (proj2 (order_routes_guard
                    (fun token => if String.eqb token "t1" then Some "u1"
                                  else None)
                    [Account.mk "u1" "Alice" "alice@example.com" "user"]
                    (Http.mkRequest Http.PUT ["o1"; "deliver"] None None))).
    reflexivity.
  - apply (proj2 (proj1 (order_routes_guard
                           (fun token => if String.eqb token "t0"
                                         then Some "u0" else None)
                           [Account.mk "u0" "Root" "admin@example.com"
                              "admin"]
                           (Http.mkRequest Http.PUT ["o1"; "status"]
                              (Some "Bearer t0") None))
                    h_updateOrderStatus [("id", "o1")]
                    (Some (Account.mk "u0" "Root" "admin@example.com"
                             "admin"))
                    eq_refl)).
    right; right; reflexivity.
Defined.

(** ** Checkout: repeated products, default tax *)

(** X18.  A checkout that lists one product on two lines never passes the
    count check, for the fetch returns each product once: with ids unique
    in the collection it is answered 404 'One or more products not found'
    and nothing is written, even when every id resolves and the stock
    would cover both lines. *)
Theorem createOrder_refuses_repeated_product (default_is_modified : bool)
    (env : Env) (user : User.t) (body : CreateOrderBody.t) (db : DB) :
  NoDup (map Product._id (products db)) ->
  ~ NoDup (map OrderItemReq.product (CreateOrderBody.orderItems body)) ->
  createOrder default_is_modified env user body db
  = (Fail (ErrorResponse.mk "One or more products not found" 404), db).
Proof.
  intros N D. unfold createOrder.
  destruct (CreateOrderBody.orderItems body) as [|i0 r0] eqn:Items.
  { exfalso; apply D; constructor. }
  rewrite <- Items in *.
  replace (List.length (CreateOrderBody.orderItems body) =? 0)%nat with false
    by (rewrite Items; reflexivity).
  unfold bind at 1, get at 1.
  set (ids := map OrderItemReq.product (CreateOrderBody.orderItems body)) in *.
  destruct (negb (List.length (Product_find_in ids (products db))
                  =? List.length (CreateOrderBody.orderItems body))%nat)
    eqn:Count; [reflexivity|].
  exfalso. apply negb_false_iff, Nat.eqb_eq in Count. apply D.
  pose proof (found_ids_unique ids (products db) N) as Nk.
  apply (NoDup_incl_NoDup Nk).
  - rewrite length_map. unfold ids at 1. rewrite length_map.
    unfold ObjectId in *. lia.
  - intros k Hk. apply in_map_iff in Hk as (x & <- & Hx).
    apply filter_In in Hx as [_ Hx].
    apply existsb_exists in Hx as (k & Hk & E).
    apply String.eqb_eq in E; now rewrite E.
Qed.

Lemma createOrder_refuses_repeated_product_witness :
  createOrder false Scenario.env2 Scenario.alice
    (CreateOrderBody.mk
       [OrderItemReq.mk "A" 1 10 None; OrderItemReq.mk "A" 2 10 None]
       None None 30 (Some 4.5%Q) (Some 10%Q) (JS.Str "44.50"))
    Scenario.shop
  = (Fail (ErrorResponse.mk "One or more products not found" 404),
     Scenario.shop).
Proof.
  apply createOrder_refuses_repeated_product.
  - simpl. constructor; [intros []|constructor].
  - simpl. intros D. inversion D as [|? ? X _]. apply X. now left.
Defined.

Lemma floor_half_bounds (y : Q) :
  (y - (1 # 2) < inject_Z (Qfloor (y + (1 # 2))))%Q
  /\ (inject_Z (Qfloor (y + (1 # 2))) <= y + (1 # 2))%Q.
Proof.
  split; [|apply Qfloor_le].
  pose proof (Qlt_floor (y + (1 # 2))) as H.
  rewrite inject_Z_plus in H. change (inject_Z 1) with 1%Q in H. lra.
Qed.

(** [Number(x.toFixed(2))] is a whole number of hundredths within half a
    hundredth of [x]. *)
Lemma Number_toFixed2_close (x : Q) :
  (Qabs (JS.Number_toFixed2 x - x) <= 1 # 200)%Q
  /\ exists n : Z, (JS.Number_toFixed2 x == n # 100)%Q.
Proof.
  unfold JS.Number_toFixed2, JS.toFixed2_digits, JS.is_negative.
  destruct (floor_half_bounds (Qabs x * 100)) as [Lo Hi].
  set (n := Qfloor (Qabs x * 100 + (1 # 2))) in *.
  assert (E : forall k : Z, (k # 100 == inject_Z k * (1 # 100))%Q).
  { intros k. rewrite (Qmake_Qdiv k 100). unfold Qdiv.
    now change (/ inject_Z (Z.pos 100))%Q with (1 # 100)%Q. }
  destruct (Qle_bool 0 x) eqn:S; cbn [negb].
  - apply Qle_bool_iff in S. rewrite (Qabs_pos x S) in Lo, Hi.
    split; [|now exists n].
    apply Qabs_Qle_condition. pose proof (E n) as En. split; lra.
  - assert (Sx : (x < 0)%Q).
    { apply Qnot_le_lt. intros L. apply Qle_bool_iff in L. congruence. }
    rewrite (Qabs_neg x) in Lo, Hi by lra.
    split; [|now exists (- n)%Z].
    apply Qabs_Qle_condition. pose proof (E (- n)%Z) as En.
    rewrite inject_Z_opp in En. split; lra.
Qed.

(** X19.  When the request carries no tax, the tax [createOrder] uses is a
    whole number of cents within half a cent of 15% of the declared
    itemsPrice; a declared tax other than 0 is used as it is. *)
Theorem default_tax_is_fifteen_percent (itemsPrice : Q) :
  (Qabs (calculatedTaxPrice None itemsPrice - 0.15 * itemsPrice) <= 1 # 200)%Q
  /\ (exists cents : Z, (calculatedTaxPrice None itemsPrice == cents # 100)%Q)
  /\ (forall taxPrice,
         ~ (taxPrice == 0)%Q ->
         calculatedTaxPrice (Some taxPrice) itemsPrice = taxPrice).
Proof.
  unfold calculatedTaxPrice; simpl.
  destruct (Number_toFixed2_close (0.15 * itemsPrice)) as [A B].
  split; [exact A|]. split; [exact B|].
  intros t N. destruct (Qeq_bool t 0) eqn:E; [|reflexivity].
  apply Qeq_bool_eq in E. contradiction.
Qed.

Lemma default_tax_is_fifteen_percent_witness :
  calculatedTaxPrice (Some 4.5%Q) 30 = 4.5%Q.
Proof.
  apply (proj2 (proj2 (default_tax_is_fifteen_percent 30))).
  intros E. discriminate E.
Defined.

(** ** Product prices *)

(** X20.  The setter of a product's price gives a whole number of cents
    within half a cent of the value assigned, and setting the stored price
    again changes nothing. *)
Theorem Product_set_price_rounds (val : Q) :
  (exists cents : Z, (Product_set_price val == cents # 100)%Q)
  /\ (Qabs (Product_set_price val - val) <= 1 # 200)%Q
  /\ (Product_set_price (Product_set_price val) == Product_set_price val)%Q.
Proof.
  unfold Product_set_price.
  destruct (floor_half_bounds (val * 100)) as [Lo Hi].
  set (n := Qfloor (val * 100 + (1 # 2))) in *.
  split; [exists n; now rewrite (Qmake_Qdiv n 100)|].
  split.
  - apply Qabs_Qle_condition.
    assert (D : (inject_Z n / 100 == inject_Z n * (1 # 100))%Q)
      by (unfold Qdiv; reflexivity).
    rewrite D. split; lra.
  - assert (F : Qfloor (inject_Z n / 100 * 100 + (1 # 2)) = n).
    { assert (E : (inject_Z n / 100 * 100 + (1 # 2) == (2 * n + 1) # 2)%Q).
      { rewrite (Qmake_Qdiv (2 * n + 1) 2), inject_Z_plus, inject_Z_mult.
        field. }
      rewrite (Qfloor_comp _ _ E). unfold Qfloor.
      symmetry. apply (Z.div_unique _ _ _ 1); lia. }
    now rewrite F.
Qed.

(** ** Order numbers *)

Lemma decode_padded (j : nat) (s : string) (d : Decimal.uint) :
  NilEmpty.uint_of_string s = Some d ->
  option_map N.of_uint
    (NilEmpty.uint_of_string (JS.repeat_char "0" j ++ s))
  = Some (N.of_uint d).
Proof.
  intros H. induction j as [|j IH]; simpl.
  - now rewrite H.
  - destruct (NilEmpty.uint_of_string (JS.repeat_char "0" j ++ s)) as [d'|];
      [|discriminate].
    simpl in *. exact IH.
Qed.

(** The digits after [ORD-] give the count back. *)
Lemma decode_order_digits (count : nat) :
  option_map N.of_uint
    (NilEmpty.uint_of_string
       (JS.padStart 6 "0" (JS.toString (N.of_nat (count + 1)))))
  = Some (N.of_nat (count + 1)).
Proof.
  unfold JS.padStart, JS.toString.
  destruct (N.of_nat (count + 1)) as [|p] eqn:E; [lia|].
  assert (Nn : N.to_uint (N.pos p) <> Decimal.Nil)
    by apply DecimalPos.Unsigned.to_uint_nonnil.
  assert (S : NilZero.string_of_uint (N.to_uint (N.pos p))
              = NilEmpty.string_of_uint (N.to_uint (N.pos p))).
  { unfold NilZero.string_of_uint.
    destruct (N.to_uint (N.pos p)); [contradiction|..]; reflexivity. }
  rewrite S.
  rewrite (decode_padded _ _ (N.to_uint (N.pos p)))
    by apply NilEmpty.usu.
  now rewrite DecimalN.Unsigned.of_to.
Qed.

(** X21.  The number the first save hook gives an order without one is
    [ORD-] followed by the count of stored orders plus one, on six digits
    or more. It depends on that count alone: two orders get the same
    number exactly when they were numbered at the same count. An order
    that has a number keeps it. *)
Theorem generated_order_numbers (this1 this2 : OrderDoc.t) (db1 db2 : DB) :
  let number this db :=
    match fst (generate_orderNumber this db) with
    | Ok d => Order.orderNumber (OrderDoc.doc d)
    | _ => None
    end in
  (JS.falsy_str (Order.orderNumber (OrderDoc.doc this1)) = false ->
   generate_orderNumber this1 db1 = (Ok this1, db1))
  /\ (JS.falsy_str (Order.orderNumber (OrderDoc.doc this1)) = true ->
      JS.falsy_str (Order.orderNumber (OrderDoc.doc this2)) = true ->
      (exists digits,
          number this1 db1 = Some ("ORD-" ++ digits)%string
          /\ (6 <= String.length digits)%nat)
      /\ (number this1 db1 = number this2 db2
          <-> List.length (orders db1) = List.length (orders db2))).
Proof.
  intros number; subst number.
  unfold generate_orderNumber, bind, get, ret. split.
  - now intros ->.
  - intros -> ->. simpl. split.
    + eexists; split; [reflexivity|].
      unfold JS.padStart.
      assert (L : forall j s,
                 String.length (JS.repeat_char "0" j ++ s)
                 = (j + String.length s)%nat)
        by (induction j as [|j IH]; intros s; simpl;
            [reflexivity|now rewrite IH]).
      rewrite L. lia.
    + split; [|now intros ->].
      intros E. injection E as E.
      apply (f_equal (fun s => option_map N.of_uint
                                 (NilEmpty.uint_of_string s))) in E.
      rewrite !decode_order_digits in E. injection E as E. lia.
Qed.

Lemma generated_order_numbers_witness :
  match fst (generate_orderNumber
               (new_Order false Scenario.env2 [] "u1" 0 0 0 0 [])
               (Scenario.shopWithOrder None)) with
  | Ok d => Order.orderNumber (OrderDoc.doc d)
  | _ => None
  end
  = match fst (generate_orderNumber
                 (new_Order false Scenario.env3 [] "u2" 0 0 0 0 [])
                 (Scenario.shopWithOrder (Some Scenario.home))) with
    | Ok d => Order.orderNumber (OrderDoc.doc d)
    | _ => None
    end.
Proof.
  apply (proj2 (proj2 (generated_order_numbers
                         (new_Order false Scenario.env2 [] "u1" 0 0 0 0 [])
                         (new_Order false Scenario.env3 [] "u2" 0 0 0 0 [])
                         (Scenario.shopWithOrder None)
                         (Scenario.shopWithOrder (Some Scenario.home)))
                  eq_refl eq_refl)).
  reflexivity.
Defined.

(** ** Marking an order delivered *)

(** X17.  [updateOrderToDelivered] delivers nothing: for an id no order
    has it answers 404 'Order not found', and for a stored order it throws
    while reading [order.shippingAddress.city], before [save]; in neither
    case is anything written, so no order ever becomes 'Delivered' through
    it. *)
Theorem updateOrderToDelivered_never_saves (env : Env) (id : ObjectId)
    (db : DB) :
  (findById Order._id id (orders db) = None ->
   updateOrderToDelivered env id db
   = (Fail (ErrorResponse.mk "Order not found" 404), db))
  /\ (forall o,
         findById Order._id id (orders db) = Some o ->
         updateOrderToDelivered env id db
         = (Throw "TypeError: Cannot read properties of undefined", db))
  /\ (forall response db',
         updateOrderToDelivered env id db <> (Ok response, db')).
Proof.
  unfold updateOrderToDelivered, Order_findById, bind, get, ret; simpl.
  split; [now intros ->|]. split; [now intros o ->|].
  intros response db'.
  destruct (findById Order._id id (orders db)); simpl; discriminate.
Qed.

Lemma updateOrderToDelivered_never_saves_witness :
  updateOrderToDelivered Scenario.env2 "o1"
    (Scenario.shopWithOrder (Some Scenario.home))
  = (Throw "TypeError: Cannot read properties of undefined",
     Scenario.shopWithOrder (Some Scenario.home))
  /\ updateOrderToDelivered Scenario.env2 "o7"
       (Scenario.shopWithOrder (Some Scenario.home))
     = (Fail (ErrorResponse.mk "Order not found" 404),
        Scenario.shopWithOrder (Some Scenario.home)).
Proof.
  split.
  - apply (proj1 (proj2 (updateOrderToDelivered_never_saves Scenario.env2
                           "o1" (Scenario.shopWithOrder (Some Scenario.home))))
             (Scenario.order1 (Some Scenario.home))).
    reflexivity.
  - apply (proj1 (updateOrderToDelivered_never_saves Scenario.env2 "o7"
                    (Scenario.shopWithOrder (Some Scenario.home)))).
    reflexivity.
Defined.

(** ** Product ratings *)

Lemma rating_sum_from (l : list Q) (p : Q) :
  (fold_left (fun acc rating => rating + acc) l p == p + sum_Q l)%Q.
Proof.
  revert p; induction l as [|x r IH]; intros p; simpl.
  - now rewrite Qplus_0_r.
  - rewrite IH. ring.
Qed.

(** X22.  The save hook of a product leaves the reviews alone. With at
    least one review it stores the number of reviews and a rating equal to
    the virtual [averageRating], which lies between any two bounds that
    hold for every review (1 and 5 under the schema). Without reviews it
    changes nothing: the stored figures stay what they were, whatever the
    virtual says. *)
Theorem update_ratings_follows_reviews (this : Reviewed.t) :
  Reviewed.reviews (update_ratings this) = Reviewed.reviews this
  /\ (Reviewed.reviews this = [] ->
      update_ratings this = this /\ averageRating this = 0%Q)
  /\ (Reviewed.reviews this <> [] ->
      Reviewed.numOfReviews (update_ratings this)
      = List.length (Reviewed.reviews this)
      /\ Reviewed.ratings (update_ratings this)
         = averageRating (update_ratings this)
      /\ forall lo hi,
           (forall rating, In rating (Reviewed.reviews this) ->
                           lo <= rating /\ rating <= hi)%Q ->
           (lo <= Reviewed.ratings (update_ratings this)
            /\ Reviewed.ratings (update_ratings this) <= hi)%Q).
Proof.
  unfold update_ratings, averageRating.
  destruct this as [reviews ratings numOfReviews]; simpl Reviewed.reviews.
  destruct reviews as [|r0 rs].
  - split; [reflexivity|]. split; [now split|]. now intros N.
  - change (0 <? List.length (r0 :: rs))%nat with true.
    change (List.length (r0 :: rs) =? 0)%nat with false.
    cbn [Reviewed.reviews Reviewed.ratings Reviewed.numOfReviews].
    change (List.length (r0 :: rs) =? 0)%nat with false.
    split; [reflexivity|]. split; [discriminate|]. intros _.
    split; [reflexivity|]. split; [reflexivity|].
    intros lo hi B.
    set (n := inject_Z (Z.of_nat (List.length (r0 :: rs)))).
    assert (Npos : (0 < n)%Q).
    { unfold n. change 0%Q with (inject_Z 0). rewrite <- Zlt_Qlt.
      simpl List.length. lia. }
    assert (T : (rating_sum (r0 :: rs) == sum_Q (r0 :: rs))%Q).
    { unfold rating_sum. rewrite rating_sum_from. ring. }
    assert (Lo : (n * lo <= sum_Q (r0 :: rs))%Q).
    { apply sum_Q_lower. intros x I. now apply B. }
    assert (Hi : (sum_Q (r0 :: rs) <= n * hi)%Q).
    { apply sum_Q_upper. intros x I. now apply B. }
    split.
    + apply Qle_shift_div_l; [exact Npos|]. rewrite T.
      now rewrite Qmult_comm.
    + apply Qle_shift_div_r; [exact Npos|]. rewrite T.
      now rewrite Qmult_comm.
Qed.

Lemma update_ratings_follows_reviews_witness :
  update_ratings (Reviewed.mk [] 4.5 2) = Reviewed.mk [] 4.5 2
  /\ (1 <= Reviewed.ratings (update_ratings (Reviewed.mk [4; 5] 0 0))
      /\ Reviewed.ratings (update_ratings (Reviewed.mk [4; 5] 0 0)) <= 5)%Q.
Proof.
  split.
  - apply (proj1 (proj2 (update_ratings_follows_reviews
                           (Reviewed.mk [] 4.5 2)))).
    reflexivity.
  - apply (proj2 (proj2 (update_ratings_follows_reviews
                           (Reviewed.mk [4; 5] 0 0)))).
    + discriminate.
    + intros rating [<-|[<-|[]]]; split; discriminate.
Defined.
